(* ===== verification/_CoqProject ===== *)
-Q . S2P
Prelude.v
JsValue.v
Store.v
Server.v
Availability.v
Calendar.v
Datas.v
Archival.v
System.v
Gerenciar.v
Cadastrar.v
Exibicao.v
Elementos.v
Telas.v
Composicao.v
Assincrono.v
