(* ===== verification/Prelude.v ===== *)
(** * Verification of the appointment booker (nandosilva98/reactnativeapp)

    The program is a single-provider booking system. It has an Express
    server, [src/api.js], over an SQLite file with four tables:
    - [gestao]: the slot catalog, one column [hora];
    - [servicos]: the service catalog ([nome], [preco]);
    - [clientes]: the active appointments ([id], [nome_cliente], [data],
      [hora], [servico], [valor_orcamento]);
    - [concluidos]: the archived appointments, plus [concluido_em].
    Three React screens under [src/app/(tabs)] call it over HTTP:
    - [cadastrar.tsx] books an appointment;
    - [index.tsx] lists appointments;
    - [gerenciar.tsx] edits and cancels them.

    How the parts interact.
    - The booking screen builds the candidate dates itself
      ([gerarDatasDisponiveis]: weekdays among the next 14 calendar days).
    - It computes the free slots of a date itself
      ([consultarHorariosDisponiveis]). It reads [GET /api/clientes] and
      [GET /api/gestao] and keeps the catalog slots that no appointment
      of that date uses.
    - It books with [POST /api/cadastro].
    - [gerenciar.tsx] edits with [PUT /api/agendamentos/:id] and cancels
      with [DELETE /api/agendamentos/:id]. After each success it patches
      its local copy of the list.
    - The server runs [arquivarAgendamentosConcluidos] once at start and
      then every 24 hours. It selects the rows whose [data] is at most
      the cutoff (two days back), copies each into [concluidos], and
      deletes the row only when the copy succeeded.

    Files, in dependency order.
    - [Prelude]: this header, the [booking] notation scope, the
      [booking] hint database, the tactics, generic lemmas on lists and
      on boolean filters, the closures [star] and [starn] of a step
      relation, the class [Preserved] of step invariants, and
      termination by a measure ([wf_by_measure]).
    - [JsValue]: the JSON scalars a request body carries ([jsval]), the
      JavaScript truthiness test [js_truthy], the anchored fixed-width
      regular expressions of [api.js] ([dataRegex], [horaRegex]) as
      exact matchers over character classes, and the JSON round trip of
      a value and of an object literal ([json_rt], [json_obj]).
    - [Store]: the SQLite tables as state. [clientes] is a list of
      [(rowid, row)] in rowid order, [concluidos] an append-only list.
      It has the semantics of the SQL statements the server issues
      (INSERT with rowid max+1, UPDATE ... WHERE id, DELETE ... WHERE id,
      SELECT ... WHERE data <= ?), the table invariant (rowids strictly
      increasing) and the storage classes a column holds ([sql_value]:
      NULL, a number or a text). The text [:id] bound to [WHERE id = ?]
      is read as SQLite's NUMERIC affinity reads it ([rowid_of_param]:
      white space, sign, fraction and exponent, then an integer value).
    - [Server]: one function per Express handler of [api.js]. A handler
      takes the request, the store and the storage outcome (fault or
      not) and returns the HTTP response and the new store.
    - [Availability]: the client-side slot filter of [cadastrar.tsx],
      its completeness and disjointness, and its agreement with the
      occupied slots of the store. [Proper] instances for [Permutation]
      show that it does not depend on the order of the rows.
    - [Calendar]: the ECMA-262 Date arithmetic the code relies on
      (day numbers, [WeekDay], year/month/date), [padStart],
      [gerarDatasDisponiveis], and the archival cutoff
      ([toISOString] of now minus two days).
    - [Datas]: the texts [YYYY-MM-DD] compared bytewise, as SQLite's
      BINARY collation does: for years 1000 to 9999 they are in the
      order of the days, so every date the booking screen offers is
      after the archival cutoff of the next two days.
    - [Archival]: [arquivarAgendamentosConcluidos] as a function of the
      store, the cutoff and the per-statement storage outcomes.
    - [System]: the whole system as a step relation (requests and
      archival runs in any order), its invariants as [Preserved]
      instances, the queued statements of a run ([arch_step]) with
      their termination measure [pending], and the interleavings that
      break the spec's promises.
    - [Gerenciar]: the management screen. Its [useState] hooks are a
      record, and each handler is a function; a handler that sends a
      request runs the matching [Server] handler. The buttons on screen
      make a step relation [gstep] on (screen, store). Its invariant,
      a [Preserved] instance, is that the screen's copy equals the
      [clientes] table.
    - [Cadastrar]: the booking form. The mount effect, the date choice
      with its slot effect, the service choice with its price lookup,
      and [handleFormSubmit] with its POST.
    - [Exibicao]: the listing screen [index.tsx] (its load effect,
      [formatDate], [renderItem], the [FlatList] with its
      [keyExtractor]) and the date and time formatters of the two other
      screens.
    - [Elementos]: the React Native elements as a rose tree with its
      own induction principle. It also holds the style objects of
      [StyleSheet.create] and how [styles.x] reads in them, the
      [FlatList] protocol ([flatlist]), and which handlers a user can
      reach ([ativos]: a visible [Modal] covers the screen).
    - [Telas]: both list screens as element trees computed from their
      state ([AgendamentosScreen_ui], [gerenciamentoAgendamentos] with
      its two modals), their style sheets and declared row interfaces,
      and [disparar], the handler each action of the management screen
      runs.
    - [Composicao]: the screens composed with the other writers of the
      table: the management screen with archival runs ([cstep]), two
      management screens ([gstep2]), two booking forms ([executar], a
      schedule of their events).
    - [Assincrono]: [salvarEdicao] and [confirmarExclusao] split at
      their [await fetch]. The request is sent when the button is
      pressed ([salvar_envio], [excluir_envio]); the code after [await]
      ([retorno]) runs when its response arrives, with the list it
      captured. Responses in flight are data of the state, delivered in
      any order ([astep]); [gstep] is the case where each arrives before
      the next action.

    What the theorems show, in order of importance (claims C1 to C38).
    1. Booking and the [clientes] table (Server, Store):
       - each handler's result on every branch: validation (400),
         storage fault (500) and success;
       - every request keeps the rowids strictly increasing and every
         active row's [data] and [hora] well-formed;
       - there is no conflict check: a booking of a taken slot gets 201.
    2. The whole system (System):
       - the same invariants hold in every state reachable by any
         interleaving (rule induction over [star step]);
       - termination: the queued statements of a run admit no infinite
         sequence, and a sequence of [n] of them consumes [n] of the
         measure (two per candidate, one per queued DELETE);
       - liveness: from any state the queues can drain to an idle state
         in which every queued row has left [clientes] and the history
         has one copy of each queued candidate.
    3. The screens against the server (Availability, Cadastrar,
       Gerenciar):
       - against a fault-free server, the free slots are exactly the
         catalog minus the slots occupied on the date, in catalog order
         (a refinement of the abstract [occupied]), whatever the order
         in which the server lists the rows;
       - booking through the form's submit button keeps slots unique,
         sequentially, whatever time is typed, when both GETs of the new
         date succeed: the browser's [required] check blocks a time the
         form does not offer; when the GET of the appointments fails,
         the previous date's slots stay and a taken slot is booked;
       - a submission that passes the browser's checks stores exactly
         the form's values; one that does not sends nothing;
       - the management screen's copy stays equal to the table through
         any session of edits and cancellations in which each request is
         answered before the next action;
       - refinement: that atomic model is the special case of the async
         handlers ([Assincrono.astep]) where each response arrives
         before the next action; when a save and a delete overlap, the
         screen's copy is lost whichever response arrives last;
       - an amount that does not parse is saved as NULL, which later
         crashes the screens.
    3b. The screens together (Composicao):
       - Scenario B: two clients who chose the same date and free slot on
         their forms both pass the checks, both get 201, and the slot is
         double-booked;
       - an edit of a row that an archival run moved after the screen
         loaded is answered 200 and shown as saved, while no table
         changes;
       - two staff members editing one row: both are told it is saved,
         the last save wins, and the first screen's copy is stale.
    4. Archival (Archival, System):
       - conservation: in a fault-free run every selected row moves to
         the history exactly once;
       - per-record fault isolation;
       - a failed DELETE after a successful INSERT duplicates the record
         in history on the next run;
       - a second fault-free run changes nothing;
       - the atomic run is one schedule of the interleaved system;
       - an edit made while a run is in progress is lost;
       - a run never changes the free slots the booking screen computes
         for any date it offers (mounted at most two days before),
         whatever its faults and the two machines' time zones; a
         fault-free run frees every slot of the dates up to the cutoff;
       - the history only grows, and both tables keep sorted rowids.
    5. Edits, cancellations and prices (Server, Cadastrar):
       - a service priced 0 can never be booked;
       - ids that name no row, under SQLite's NUMERIC affinity, answer
         200;
       - PUT never moves an appointment, and a missing field becomes
         NULL;
       - a second DELETE answers 200.
    6. Display (Exibicao):
       - every row of the [FlatList]'s window formats its date and time;
         the list throws exactly when a row of its window has a
         non-numeric amount, and otherwise shows one card per row in
         order under distinct keys;
       - the three screens write a date the same way.
    6b. What the screens render (Telas):
       - refinement: the moves of [gstep] are exactly the handlers the
         rendered management screen lets a user reach, so the guards of
         [gstep] are those of the screen's modals;
       - a row's pencil opens the edit modal with that row's values (no
         modal when the amount is [null]), and its trash icon opens the
         delete modal naming that client;
       - every [styles.x] either screen uses is defined; seven styles of
         the listing screen are never used.
    7. Dates (Calendar):
       - the cutoff is the UTC date two days back, written as the screen
         writes dates; late in the evening west of UTC it is the local
         date minus one;
       - the candidate loop is the formatted weekdays of the next
         fourteen days: always ten, strictly increasing;
       - every candidate matches [dataRegex] in years 1000 to 9999.

    Bounds and fuel.
    - [Calendar.dec_digits] has fuel 20: enough for every integer below
      10^20, far beyond the year range of an ECMA Date (|y| <= 275760)
      and the two-digit fields.
    - The date loop runs the 14 iterations of the source loop.
    - The time zone is a fixed offset [off] (no DST change inside the
      fourteen days); every theorem holds for any offset.

    Bounds of the screens' model.
    - A rowid written into a URL is read back by the server for every
      rowid below 2^63, the range of SQLite rowids; its text has at most
      19 digits, within the 20 of fuel. The screens keep an id as a
      [nat]; the code holds it as a JS number, a double, which is exact
      and prints the same digits only below 2^53. A real literal such
      as ["1.0"] goes through a double in SQLite; the model takes its
      exact value, which agrees below 2^53.
    - A [FlatList] renders the rows of its window only; the window (the
      first [janela] rows) is an input, so the theorems hold for any
      amount of scrolling.
    - [parseFloat], [Number.prototype.toString] and [toFixed] are
      section variables: the theorems hold for every implementation.

    Interleavings.
    - A request handler runs to completion; the interleavings are at
      the boundaries of the handlers and of the statements of an
      archival run ([System]), as the single-threaded event loop allows.
      A screen handler runs to completion in the models of the screens,
      except in [Assincrono], where the save and the delete are split at
      their [await]. The booking form's date effect and its two GETs
      run as one step with the date choice: a response that arrives
      after a later date choice is not represented.
    - An archival run issues its INSERTs in candidate order, and
      statements about the order of the rows of [concluidos] hold for
      that order. node-sqlite3 queues the [db.run] calls of one
      connection, but its default parallel mode does not promise to run
      them in that order.

    What is not modelled, and why.
    - Alerts, console output, icon glyphs, [animationType] and the layout
      engine: they change no state. The element trees, their texts,
      styles and handlers are modelled; how a style lays out a screen is
      not. The booking form's stylesheet [./css/cadastro.css] is not in
      the repository.
    - The HTTP transport and axios/fetch: collaborators. A response is a
      status and a payload value. A request body goes through the JSON
      round trip ([json_rt]); a response's rows are modelled as values,
      not as JSON text.
    - SQLite itself. Each statement is a function on the tables, and a
      storage error is an explicit input ([fault]). The schema is not in
      the repository, so it is assumed to have no UNIQUE constraint
      (the spec's conflict check is nowhere in the code) and the
      default rowid choice (max + 1).
    - JavaScript strings are modelled as ASCII strings. JavaScript
      numbers are IEEE doubles, [SpecFloat.spec_float].
*)

From Stdlib Require Export ZArith Ascii String List Lia Permutation Sorted Wellfounded.
From stdpp Require Export base list decidable strings gmap.

Declare Scope booking_scope.
Delimit Scope booking_scope with booking.

(** [includes l x] is [Array.prototype.includes] on values with a
    decidable equality (SameValueZero coincides with [=] on the values
    the program compares: strings). *)
Definition includes {A} `{EqDecision A} (l : list A) (x : A) : bool :=
  bool_decide (x ∈ l).

Notation "l '.includes(' x ')'" := (includes l x)
  (at level 1, format "l '.includes(' x ')'") : booking_scope.

Create HintDb booking discriminated.

(** ** Tactics of the development *)

Ltac invc H := inversion H; subst; clear H.

(** Split a boolean conjunction or a [bool_decide] in hypotheses. *)
Ltac bool_hyps :=
  repeat match goal with
  | H : (_ && _)%bool = true |- _ => apply andb_prop in H as [? ?]
  | H : bool_decide _ = true |- _ => apply bool_decide_eq_true in H
  | H : bool_decide _ = false |- _ => apply bool_decide_eq_false in H
  | H : negb _ = true |- _ => apply negb_true_iff in H
  end.

(** ** Generic lemmas on lists and boolean filters *)

Lemma includes_spec {A} `{EqDecision A} (l : list A) x :
  includes l x = true <-> In x l.
Proof. unfold includes. rewrite bool_decide_eq_true. apply list_elem_of_In. Qed.

Lemma includes_false {A} `{EqDecision A} (l : list A) x :
  includes l x = false <-> ~ In x l.
Proof.
  rewrite <- includes_spec. destruct (includes l x); split; congruence.
Qed.

Lemma filter_In_iff {A} (f : A -> bool) l x :
  In x (List.filter f l) <-> In x l /\ f x = true.
Proof. apply filter_In. Qed.

(** A filter keeps a permutation. *)
Lemma filter_Permutation_bool {A} (f : A -> bool) (l1 l2 : list A) :
  Permutation l1 l2 -> Permutation (List.filter f l1) (List.filter f l2).
Proof.
  induction 1 as [|x l1 l2 _ IH|x y l|l1 l2 l3 _ IH1 _ IH2]; cbn; [done| | |by etransitivity].
  - destruct (f x); [by apply perm_skip|done].
  - destruct (f x), (f y); [apply perm_swap|done..].
Qed.

(** A filter and the filter of the complement together are a
    permutation of the list. *)
Lemma filter_complement_perm {A} (f : A -> bool) (l : list A) :
  Permutation l (List.filter f l ++ List.filter (fun a => negb (f a)) l).
Proof.
  induction l as [|a l IH]; simpl; [constructor|].
  destruct (f a); simpl.
  - by apply perm_skip.
  - etransitivity; [apply perm_skip, IH|]. apply Permutation_middle.
Qed.

Lemma filter_length_le {A} (f : A -> bool) (l : list A) :
  length (List.filter f l) <= length l.
Proof.
  induction l as [|a l IH]; simpl; [lia|]. destruct (f a); simpl; lia.
Qed.

Lemma filter_ext_in_iff {A} (f g : A -> bool) (l : list A) :
  (forall x, In x l -> f x = g x) -> List.filter f l = List.filter g l.
Proof. apply filter_ext_in. Qed.

Lemma filter_all_true {A} (f : A -> bool) (l : list A) :
  (forall x, In x l -> f x = true) -> List.filter f l = l.
Proof.
  induction l as [|a l IH]; intros H; simpl; [done|].
  rewrite H by (left; done). f_equal. apply IH. intros; apply H; by right.
Qed.

Lemma filter_none {A} (f : A -> bool) (l : list A) :
  (forall x, In x l -> f x = false) -> List.filter f l = [].
Proof.
  induction l as [|a l IH]; intros H; simpl; [done|].
  rewrite H by (left; done). apply IH. intros; apply H; by right.
Qed.

Lemma NoDup_filter_bool {A} (f : A -> bool) (l : list A) :
  List.NoDup l -> List.NoDup (List.filter f l).
Proof. apply List.NoDup_filter. Qed.

Lemma NoDup_firstn {A} n (l : list A) : List.NoDup l -> List.NoDup (firstn n l).
Proof. intros H. apply (List.NoDup_app_remove_r _ (skipn n l)). by rewrite firstn_skipn. Qed.

Lemma In_firstn {A} n (x : A) l : In x (firstn n l) -> In x l.
Proof. intros H. rewrite <- (firstn_skipn n l). by apply in_or_app; left. Qed.

Lemma StronglySorted_lt_NoDup (l : list nat) : StronglySorted lt l -> List.NoDup l.
Proof.
  induction 1 as [|a l _ IH Hall]; constructor; [|done].
  intros Hin. rewrite List.Forall_forall in Hall. specialize (Hall a Hin). lia.
Qed.

(** A sublist of a strictly sorted list is strictly sorted. *)
Lemma StronglySorted_filter {A} (R : A -> A -> Prop) (f : A -> bool) l :
  StronglySorted R l -> StronglySorted R (List.filter f l).
Proof.
  induction 1 as [|a l Hs IH Hall]; simpl; [constructor|].
  destruct (f a); [|done]. constructor; [done|].
  rewrite List.Forall_forall in Hall |- *. intros x Hx.
  apply filter_In in Hx as [Hx _]. by apply Hall.
Qed.

Lemma existsb_filter_and {A} (f g : A -> bool) l :
  existsb g (List.filter f l) = existsb (fun x => f x && g x) l.
Proof. induction l as [|a l IH]; simpl; [done|]. destruct (f a); simpl; by rewrite IH. Qed.

Lemma existsb_map_comp {A B} (f : A -> B) (g : B -> bool) l :
  existsb g (map f l) = existsb (fun x => g (f x)) l.
Proof. induction l as [|a l IH]; simpl; [done|]. by rewrite IH. Qed.

Lemma existsb_ext_eq {A} (f g : A -> bool) l :
  (forall x, f x = g x) -> existsb f l = existsb g l.
Proof. intros H. induction l as [|a l IH]; simpl; [done|]. by rewrite H, IH. Qed.

(** [some(q => f(q) === x)] is membership in the mapped list. *)
Lemma existsb_eq_elem {A B} `{EqDecision B} (f : A -> B) l x :
  existsb (fun q => bool_decide (f q = x)) l = bool_decide (x ∈ map f l).
Proof.
  apply Bool.eq_iff_eq_true. rewrite existsb_exists, bool_decide_eq_true, list_elem_of_In, in_map_iff.
  split; intros [q [H1 H2]]; exists q.
  - apply bool_decide_eq_true in H2. done.
  - split; [done|]. by apply bool_decide_eq_true.
Qed.

Lemma filter_filter_and {A} (f g : A -> bool) l :
  List.filter f (List.filter g l) = List.filter (fun x => g x && f x) l.
Proof. induction l as [|a l IH]; simpl; [done|]. destruct (g a); simpl; [destruct (f a)|]; by rewrite IH. Qed.

(** Filtering a mapped list: the same count as filtering by the composed
    test, and the mapped filter. *)
Lemma filter_map_swap {A B} (f : A -> B) (g : B -> bool) l :
  List.filter g (map f l) = map f (List.filter (fun x => g (f x)) l).
Proof. induction l as [|a l IH]; simpl; [done|]. destruct (g (f a)); simpl; by rewrite IH. Qed.

Lemma filter_map_swap_len {A B} (f : A -> B) (g : B -> bool) l :
  length (List.filter g (map f l)) = length (List.filter (fun x => g (f x)) l).
Proof. by rewrite filter_map_swap, length_map. Qed.

Lemma list_ascii_of_string_app (s1 s2 : string) :
  list_ascii_of_string (s1 ++ s2) = list_ascii_of_string s1 ++ list_ascii_of_string s2.
Proof. induction s1 as [|c s1 IH]; simpl; [done|]. by rewrite IH. Qed.

(** ** Reflexive-transitive closure of a step relation *)

Section Star.
Context {A : Type} (R : A -> A -> Prop).

Inductive star : A -> A -> Prop :=
| star_refl a : star a a
| star_step a b c : R a b -> star b c -> star a c.

Lemma star_one a b : R a b -> star a b.
Proof. intros H. eapply star_step; [exact H|constructor]. Qed.

Lemma star_trans a b c : star a b -> star b c -> star a c.
Proof. induction 1; [done|]. intros H2. eapply star_step; eauto. Qed.

(** An invariant of every step holds along every sequence of steps. *)
Lemma star_invariant (P : A -> Prop) :
  (forall a b, R a b -> P a -> P b) -> forall a b, star a b -> P a -> P b.
Proof. intros Hstep a b H. induction H; eauto. Qed.

(** Exactly [n] steps. *)
Inductive starn : nat -> A -> A -> Prop :=
| starn_refl a : starn 0 a a
| starn_step n a b c : R a b -> starn n b c -> starn (S n) a c.

(** Along steps that decrease a measure, the number of steps is at most
    the measure's drop. *)
Lemma starn_measure (m : A -> nat) :
  (forall a b, R a b -> m b < m a) -> forall n a b, starn n a b -> n + m b <= m a.
Proof. intros Hdec n a b H. induction H as [|n a b c Hab _ IH]; [lia|]. specialize (Hdec a b Hab). lia. Qed.

End Star.

(** ** Invariants of a step relation, as a class *)

(** [Preserved R P]: every [R]-step keeps [P]. Each component that has
    a step relation proves its instances; the clients use
    [star_preserved]. *)
Class Preserved {A} (R : A -> A -> Prop) (P : A -> Prop) :=
  preserved : forall a b, R a b -> P a -> P b.

Lemma star_preserved {A} (R : A -> A -> Prop) (P : A -> Prop) `{!Preserved R P} a b :
  star R a b -> P a -> P b.
Proof. apply star_invariant, preserved. Qed.

(** Two invariants of the same steps make one. *)
#[export] Instance preserved_and {A} (R : A -> A -> Prop) (P Q : A -> Prop) :
  Preserved R P -> Preserved R Q -> Preserved R (fun a => P a /\ Q a).
Proof. intros HP HQ a b H [Ha Hb]. split; [by apply (HP a)|by apply (HQ a)]. Qed.

(** ** Termination by a variant *)

(** A relation whose steps decrease a natural-number measure has no
    infinite sequence of steps: its converse is well founded. *)
Lemma wf_by_measure {A} (R : A -> A -> Prop) (m : A -> nat) :
  (forall a b, R a b -> m b < m a) -> well_founded (fun b a => R a b).
Proof.
  intros Hdec. apply (wf_incl _ _ (ltof A m)); [intros b a H; by apply Hdec|].
  apply well_founded_ltof.
Qed.

#[export] Hint Constructors star : booking.
#[export] Hint Resolve star_one star_trans : booking.

#[export] Hint Resolve NoDup_filter_bool StronglySorted_filter : booking.
Create Rewrite HintDb booking_rw.
#[export] Hint Rewrite List.filter_app length_app length_map : booking_rw.
