(* ===== verification/JsValue.v ===== *)
(** JavaScript values as the server sees them in a request body, the
    truthiness test of [if (!x)] and the two anchored regular
    expressions of [src/api.js] ([dataRegex], [horaRegex]), with their
    exact-match semantics. Also the JSON round trip that a value or an
    object literal goes through between a screen and the server
    ([json_rt], [json_obj]), with what a member reads back as. *)

From Stdlib Require Import SpecFloat.
From S2P Require Import Prelude.

Local Open Scope string_scope.

Module Js.

(** A JSON scalar after [express.json()], plus [undefined] for a missing
    property. Numbers are IEEE doubles. Arrays and objects in a field
    are not modelled: the screens never send them. *)
Inductive jsval :=
| JUndefined
| JNull
| JBool (b : bool)
| JNumber (n : spec_float)
| JString (s : string).

#[export] Instance spec_float_eq_dec : EqDecision spec_float.
Proof. intros x y. unfold Decision. repeat decide equality. Defined.

#[export] Instance jsval_eq_dec : EqDecision jsval.
Proof. intros x y. unfold Decision. decide equality; apply (decide _). Defined.

(** ToBoolean (ECMA-262 7.1.2): [undefined], [null], [false], [+0],
    [-0], [NaN] and the empty string are falsy. *)
Definition js_truthy (v : jsval) : bool :=
  match v with
  | JUndefined | JNull => false
  | JBool b => b
  | JNumber (S754_zero _) | JNumber S754_nan => false
  | JNumber _ => true
  | JString s => negb (String.eqb s "")
  end.

(** A property of a parsed JSON body, [undefined] when absent. *)
Definition body := gmap string jsval.

Definition prop (b : body) (k : string) : jsval :=
  default JUndefined (b !! k).

(** ** Anchored fixed-width regular expressions *)

(** An atom of a regular expression: [\d] or a literal character. *)
Inductive atom := Digit | Lit (c : ascii).

(** [\d] without the [u] flag is [[0-9]]. *)
Definition is_digit (c : ascii) : bool :=
  (Nat.leb 48 (nat_of_ascii c) && Nat.leb (nat_of_ascii c) 57)%bool.

Definition atom_matches (a : atom) (c : ascii) : bool :=
  match a with
  | Digit => is_digit c
  | Lit l => bool_decide (c = l)
  end.

(** [/^a1 a2 ... an$/]: the whole input is matched atom by atom. Without
    the [m] flag, [$] matches only at the end of the input. *)
Fixpoint match_exact (p : list atom) (s : list ascii) : bool :=
  match p, s with
  | [], [] => true
  | a :: p', c :: s' => atom_matches a c && match_exact p' s'
  | _, _ => false
  end.

(** [/^\d{4}-\d{2}-\d{2}$/] *)
Definition dataRegex : list atom :=
  [Digit; Digit; Digit; Digit; Lit "-"; Digit; Digit; Lit "-"; Digit; Digit].

(** [/^\d{2}:\d{2}:\d{2}$/] *)
Definition horaRegex : list atom :=
  [Digit; Digit; Lit ":"; Digit; Digit; Lit ":"; Digit; Digit].

(** [re.test(v)] converts [v] with ToString first. For a number, the
    result is [false] for both expressions. The string of a number has
    no [':'], and its only ['-'] are a leading sign or the sign of an
    exponent, which follows an ['e'] and not four digits. *)
Definition regex_test (p : list atom) (v : jsval) : bool :=
  match v with
  | JUndefined => match_exact p (list_ascii_of_string "undefined")
  | JNull => match_exact p (list_ascii_of_string "null")
  | JBool true => match_exact p (list_ascii_of_string "true")
  | JBool false => match_exact p (list_ascii_of_string "false")
  | JNumber _ => false
  | JString s => match_exact p (list_ascii_of_string s)
  end.

(** The double nearest to an integer, for writing sample numbers. *)
Definition js_int (z : Z) : jsval := JNumber (binary_normalize 53 1024 z 0 false).

(** A value after [JSON.stringify] then [JSON.parse]. [NaN] and the
    infinities become [null], [-0] becomes [0]. [undefined] members are
    dropped, and a dropped member reads back as [undefined]. *)
Definition json_rt (v : jsval) : jsval :=
  match v with
  | JNumber (S754_zero _) => JNumber (S754_zero false)
  | JNumber (S754_finite _ _ _) => v
  | JNumber _ => JNull
  | _ => v
  end.

(** An object literal sent as a JSON body: each member after the round
    trip, [undefined] members left out. *)
Definition json_obj (kvs : list (string * jsval)) : body :=
  foldr (fun kv b => match json_rt kv.2 with
                     | JUndefined => b
                     | v => <[kv.1 := v]> b
                     end) ∅ kvs.

(** ** Lemmas *)

Lemma js_truthy_string s : js_truthy (JString s) = true <-> s <> "".
Proof.
  simpl. rewrite negb_true_iff, String.eqb_neq. done.
Qed.

Lemma match_exact_spec p s :
  match_exact p s = true <-> Forall2 (fun a c => atom_matches a c = true) p s.
Proof.
  revert s; induction p as [|a p IH]; intros [|c s]; simpl;
    split; intros H; try (by constructor); try (by invc H).
  - apply andb_prop in H as [H1 H2]. constructor; [done|]. by apply IH.
  - invc H. apply andb_true_intro; split; [done|]. by apply IH.
Qed.

Lemma match_exact_length p s : match_exact p s = true -> length s = length p.
Proof.
  rewrite match_exact_spec. intros H. symmetry. by eapply Forall2_length.
Qed.

(** A value passes [dataRegex.test] or [horaRegex.test] only when it is
    a string that matches. *)
Lemma regex_test_string p v :
  (p = dataRegex \/ p = horaRegex) ->
  regex_test p v = true -> exists s, v = JString s /\ match_exact p (list_ascii_of_string s) = true.
Proof.
  intros Hp H. destruct v as [| |[]| |s];
    try (destruct Hp as [->| ->]; discriminate H).
  eauto.
Qed.

Lemma is_digit_spec c : is_digit c = true <-> 48 <= nat_of_ascii c <= 57.
Proof.
  unfold is_digit. rewrite andb_true_iff, !Nat.leb_le. done.
Qed.

(** The shape of a string that matches [dataRegex]. *)
Lemma dataRegex_shape s :
  match_exact dataRegex s = true <->
  exists y1 y2 y3 y4 m1 m2 d1 d2,
    Forall (fun c => is_digit c = true) [y1; y2; y3; y4; m1; m2; d1; d2] /\
    s = [y1; y2; y3; y4; "-"%char; m1; m2; "-"%char; d1; d2].
Proof.
  split.
  - intros H. pose proof (match_exact_length _ _ H) as Hl.
    do 10 (destruct s as [|? s]; try discriminate Hl). destruct s; [|discriminate Hl].
    simpl in H. bool_hyps. subst.
    do 8 eexists. split; [|reflexivity]. repeat constructor; done.
  - intros (y1 & y2 & y3 & y4 & m1 & m2 & d1 & d2 & Hd & ->).
    repeat (match goal with H : Forall _ (_ :: _) |- _ => invc H end).
    cbn [match_exact dataRegex atom_matches].
    by repeat (match goal with H : is_digit _ = true |- _ => rewrite H; clear H end).
Qed.

Lemma json_obj_notin k kvs : k ∉ map fst kvs -> prop (json_obj kvs) k = JUndefined.
Proof.
  unfold prop. induction kvs as [|[k' v] kvs IH]; intros Hk; cbn [json_obj foldr fst snd]; [done|].
  cbn [map fst] in Hk. rewrite not_elem_of_cons in Hk. destruct Hk as [Hne Hk].
  unfold body in *. destruct (json_rt v); try (by apply IH); rewrite lookup_insert_ne by congruence; by apply IH.
Qed.

Lemma json_obj_cons_ne k k' v kvs :
  k <> k' -> prop (json_obj ((k', v) :: kvs)) k = prop (json_obj kvs) k.
Proof.
  unfold prop. intros Hne. cbn [json_obj foldr fst snd].
  unfold body in *. destruct (json_rt v); try done; by rewrite lookup_insert_ne by congruence.
Qed.

Lemma json_obj_cons_eq k v kvs :
  k ∉ map fst kvs -> prop (json_obj ((k, v) :: kvs)) k = json_rt v.
Proof.
  intros Hk. pose proof (json_obj_notin k kvs Hk) as H0. unfold prop in *. cbn [json_obj foldr fst snd].
  unfold body in *. destruct (json_rt v); try done; by rewrite lookup_insert_eq.
Qed.

(** The shape of a string that matches [horaRegex]. *)
Lemma horaRegex_shape s :
  match_exact horaRegex s = true ->
  exists h1 h2 n1 n2 s1 s2,
    Forall (fun c => is_digit c = true) [h1; h2; n1; n2; s1; s2] /\
    s = [h1; h2; ":"%char; n1; n2; ":"%char; s1; s2].
Proof.
  intros H. pose proof (match_exact_length _ _ H) as Hl.
  do 8 (destruct s as [|? s]; try discriminate Hl). destruct s; [|discriminate Hl].
  simpl in H. bool_hyps. subst.
  do 6 eexists. split; [|reflexivity]. repeat constructor; done.
Qed.

(** Read a member of an object literal after the round trip. *)
Ltac json_obj_simpl :=
  repeat first [rewrite json_obj_cons_eq by (apply (bool_decide_unpack _); vm_compute; exact I)
               |rewrite json_obj_cons_ne by discriminate].

Lemma js_truthy_json_rt v : js_truthy v = false -> js_truthy (json_rt v) = false.
Proof. by destruct v as [| | |[]|]. Qed.

End Js.
