(* ===== verification/Store.v ===== *)
(** The SQLite database of [src/api.js] ([./database.db]) as state: the
    four tables and the semantics of the SQL statements the server
    issues, with the table invariant (rowids strictly increasing, in
    rowid order, as SQLite's B-tree keeps them) and the storage classes
    of the values a table holds. *)

From S2P Require Import Prelude JsValue.
Import Js.

Module Store.

(** A row of [clientes] (an active appointment), without its rowid. *)
Record cliente := mkCliente {
  nome_cliente : jsval;
  data : jsval;
  hora : jsval;
  servico : jsval;
  valor_orcamento : jsval
}.

(** A row of [concluidos] (an archived appointment). *)
Record concluido := mkConcluido {
  c_nome_cliente : jsval;
  c_data : jsval;
  c_hora : jsval;
  c_servico : jsval;
  c_valor_orcamento : jsval;
  concluido_em : jsval
}.

(** A row of [servicos]. *)
Record servico_row := mkServico { nome : jsval; preco : jsval }.

(** A table: rows keyed by rowid, in rowid order. *)
Definition table (A : Type) := list (nat * A).

Record db := mkDb {
  gestao : list jsval;
  servicos : list servico_row;
  clientes : table cliente;
  concluidos : table concluido
}.

#[export] Instance cliente_eq_dec : EqDecision cliente.
Proof. intros [] []. unfold Decision. repeat decide equality; apply (decide _). Defined.

#[export] Instance concluido_eq_dec : EqDecision concluido.
Proof. intros [] []. unfold Decision. repeat decide equality; apply (decide _). Defined.

(** How node-sqlite3 binds a JavaScript parameter: [undefined] becomes
    NULL and a boolean becomes the integer 0 or 1. *)
Definition sql_bind (v : jsval) : jsval :=
  match v with
  | JUndefined => JNull
  | JBool true => JNumber (SpecFloat.S754_finite false 1 0)
  | JBool false => JNumber (SpecFloat.S754_zero false)
  | _ => v
  end.

(** A value the JSON round trip and the SQL binding both leave as it is. *)
Definition stable (v : jsval) : Prop := json_rt v = v /\ sql_bind v = v.

(** The rowid SQLite picks for a new row of a table whose key is a plain
    [INTEGER PRIMARY KEY]: one more than the largest rowid in use. *)
Definition next_rowid {A} (t : table A) : nat := S (list_max (map fst t)).

(** [INSERT INTO t (...) VALUES (...)]. *)
Definition sql_insert {A} (t : table A) (r : A) : table A :=
  t ++ [(next_rowid t, r)].

(** The value of the [:id] path parameter as the rowid the [WHERE id =
    ?] test matches. The rowid column applies NUMERIC affinity to the
    text parameter: [sqlite3AtoF], then [sqlite3VdbeIntegerAffinity].
    - White space around the text is skipped.
    - A sign, a decimal point and an exponent with at least one digit are
      allowed.
    - The text matches the rowid its value denotes when that value is an
      integer below [2^63]; ["1.0"], ["+1"], [" 1"] and ["1e0"] all
      denote rowid 1.
    Any other text matches no row. A real literal goes through a double
    in SQLite; the model takes its exact value, which agrees below
    [2^53]. *)

(** [sqlite3Isspace]: space, tab, newline, vertical tab, form feed,
    carriage return. *)
Definition is_space (c : ascii) : bool :=
  (Nat.eqb (nat_of_ascii c) 32 || (Nat.leb 9 (nat_of_ascii c) && Nat.leb (nat_of_ascii c) 13))%bool.

Fixpoint skip_spaces (s : list ascii) : list ascii :=
  match s with
  | c :: s' => if is_space c then skip_spaces s' else s
  | [] => []
  end.

(** The longest prefix of digits, and the rest. *)
Fixpoint span_digits (s : list ascii) : list ascii * list ascii :=
  match s with
  | c :: s' => if is_digit c then let '(ds, r) := span_digits s' in (c :: ds, r) else ([], s)
  | [] => ([], [])
  end.

Fixpoint digits_Z (acc : Z) (ds : list ascii) : Z :=
  match ds with
  | [] => acc
  | c :: ds' => digits_Z (10 * acc + (Z.of_nat (nat_of_ascii c) - 48)) ds'
  end.

(** An optional sign: [true] for a minus. *)
Definition sign (s : list ascii) : bool * list ascii :=
  match s with
  | c :: s' =>
      if Ascii.eqb c "-" then (true, s') else if Ascii.eqb c "+" then (false, s') else (false, s)
  | [] => (false, [])
  end.

(** An optional exponent [e] or [E], a sign and at least one digit. *)
Definition exponent (s : list ascii) : option (Z * list ascii) :=
  match s with
  | c :: s' =>
      if (Ascii.eqb c "e" || Ascii.eqb c "E")%bool then
        let '(eneg, s1) := sign s' in
        match span_digits s1 with
        | ([], _) => None
        | (ed, r) => Some ((if eneg then - digits_Z 0 ed else digits_Z 0 ed)%Z, r)
        end
      else Some (0%Z, s)
  | [] => Some (0%Z, [])
  end.

(** [sqlite3AtoF] on a whole text: the sign, the digits of the mantissa
    as an integer [m], the power of ten [k] with value [m * 10^k], and
    the number of digits; [None] when the text is not a number. *)
Definition atof (p : string) : option (bool * Z * Z * nat) :=
  let '(neg, s0) := sign (skip_spaces (list_ascii_of_string p)) in
  let '(ip, s1) := span_digits s0 in
  let '(fp, s2) :=
    match s1 with
    | c :: s' => if Ascii.eqb c "." then span_digits s' else ([], s1)
    | [] => ([], [])
    end in
  match ip ++ fp, exponent s2 with
  | [], _ | _, None => None
  | m, Some (e, r) =>
      match skip_spaces r with
      | [] => Some (neg, digits_Z 0 m, (e - Z.of_nat (length fp))%Z, length m)
      | _ => None
      end
  end.

(** The integer [m * 10^k] when it is one; a power above [19] puts a
    non-zero value beyond [2^63], and [m] has fewer than [n + 1] digits. *)
Definition integer_value (m k : Z) (n : nat) : option Z :=
  if (m =? 0)%Z then Some 0%Z
  else if (0 <=? k)%Z then (if (k <=? 19)%Z then Some (m * 10 ^ k)%Z else None)
  else if (Z.of_nat n <? - k)%Z then None
  else if (m mod 10 ^ (- k) =? 0)%Z then Some (m / 10 ^ (- k))%Z else None.

Definition rowid_of_param (p : string) : option nat :=
  match atof p with
  | Some (neg, m, k, n) =>
      match integer_value m k n with
      | Some v =>
          let z := if neg then (- v)%Z else v in
          if ((0 <=? z) && (z <? 2 ^ 63))%Z%bool then Some (Z.to_nat z) else None
      | None => None
      end
  | None => None
  end.

Definition id_matches (id : option nat) (i : nat) : bool :=
  bool_decide (id = Some i).

(** [UPDATE t SET ... WHERE id = ?]. *)
Definition sql_update {A} (id : option nat) (f : A -> A) (t : table A) : table A :=
  map (fun p => if id_matches id p.1 then (p.1, f p.2) else p) t.

(** [DELETE FROM t WHERE id = ?]. *)
Definition sql_delete {A} (id : option nat) (t : table A) : table A :=
  List.filter (fun p => negb (id_matches id p.1)) t.

(** [data <= ?] with a text parameter. NULL compares to nothing, a
    number sorts before any text, and two texts compare bytewise
    (the BINARY collation). *)
Definition sql_le_text (v : jsval) (param : string) : bool :=
  match v with
  | JUndefined | JNull => false
  | JBool _ | JNumber _ => true
  | JString s => match String.compare s param with Gt => false | _ => true end
  end.

(** [SELECT * FROM clientes WHERE data <= ?]. *)
Definition select_data_le (cutoff : string) (t : table cliente) : table cliente :=
  List.filter (fun p => sql_le_text (data p.2) cutoff) t.

(** The row with a given rowid, if any. *)
Definition find_row {A} (i : nat) (t : table A) : option A :=
  snd <$> List.find (fun p => bool_decide (p.1 = i)) t.

(** ** Table invariant *)

Definition rowids_sorted {A} (t : table A) : Prop :=
  StronglySorted lt (map fst t).

Definition db_wf (s : db) : Prop :=
  rowids_sorted (clientes s) /\ rowids_sorted (concluidos s).

(** The spec's central invariant: at most one active appointment per
    (date, slot). Nothing in the code maintains it (see [Server]). *)
Definition no_double_booking (t : table cliente) : Prop :=
  forall i j ri rj, In (i, ri) t -> In (j, rj) t ->
    data ri = data rj -> hora ri = hora rj -> i = j.

(** ** Storage classes *)

(** The values a column can hold: NULL, a number (INTEGER or REAL) or
    TEXT. [undefined] and the booleans are not among them: the binding
    of a statement's parameters ([sql_bind]) maps them first. *)
Definition sql_value (v : jsval) : bool :=
  match v with
  | JUndefined | JBool _ => false
  | JNull | JNumber _ | JString _ => true
  end.

Definition cliente_typed (r : cliente) : bool :=
  sql_value (nome_cliente r) && sql_value (data r) && sql_value (hora r)
  && sql_value (servico r) && sql_value (valor_orcamento r).

Definition concluido_typed (c : concluido) : bool :=
  sql_value (c_nome_cliente c) && sql_value (c_data c) && sql_value (c_hora c)
  && sql_value (c_servico c) && sql_value (c_valor_orcamento c) && sql_value (concluido_em c).

Definition table_typed {A} (typed : A -> bool) (t : table A) : Prop :=
  Forall (fun p => typed p.2 = true) t.

(** Every value of the two tables the server writes is a stored value. *)
Definition db_typed (s : db) : Prop :=
  table_typed cliente_typed (clientes s) /\ table_typed concluido_typed (concluidos s).

(** ** The [:id] parameter *)

Lemma is_digit_not_space c : is_digit c = true -> is_space c = false.
Proof.
  intros Hd%is_digit_spec. unfold is_space.
  apply orb_false_iff. split; [apply Nat.eqb_neq; lia|].
  apply andb_false_iff. right. apply Nat.leb_gt. lia.
Qed.

Lemma digit_neq c d : is_digit c = true -> is_digit d = false -> Ascii.eqb c d = false.
Proof. intros Hc Hd. destruct (Ascii.eqb_spec c d) as [->|]; [congruence|done]. Qed.

Lemma span_digits_all cs : Forall (fun c => is_digit c = true) cs -> span_digits cs = (cs, []).
Proof. induction 1 as [|c cs Hc _ IH]; cbn; [done|]. by rewrite Hc, IH. Qed.

Lemma digits_Z_nonneg a cs :
  (0 <= a)%Z -> Forall (fun c => is_digit c = true) cs -> (0 <= digits_Z a cs)%Z.
Proof.
  intros Ha H. revert a Ha. induction H as [|c cs Hc _ IH]; intros a Ha; cbn; [done|].
  apply IH. apply is_digit_spec in Hc. lia.
Qed.

(** A text of digits only is read as the integer it writes. *)
Lemma rowid_of_param_digits cs :
  cs <> [] -> Forall (fun c => is_digit c = true) cs -> (digits_Z 0 cs < 2 ^ 63)%Z ->
  rowid_of_param (string_of_list_ascii cs) = Some (Z.to_nat (digits_Z 0 cs)).
Proof.
  intros Hne Hd Hlt. pose proof (digits_Z_nonneg 0 cs ltac:(lia) Hd) as Hpos.
  destruct cs as [|c cs']; [done|]. pose proof (Forall_inv Hd) as Hc.
  unfold rowid_of_param, atof. rewrite list_ascii_of_string_of_list_ascii.
  cbn [skip_spaces]. rewrite (is_digit_not_space c Hc). cbn [sign].
  rewrite (digit_neq c "-"), (digit_neq c "+") by done.
  rewrite (span_digits_all _ Hd), app_nil_r. cbn -[digits_Z Z.pow].
  unfold integer_value. destruct (Z.eqb_spec (digits_Z 0 (c :: cs')) 0) as [->|_]; cbn -[digits_Z Z.pow].
  - done.
  - replace (0 - Z.of_nat 0)%Z with 0%Z by lia. cbn -[digits_Z]. rewrite Z.mul_1_r.
    by rewrite (proj2 (Z.leb_le _ _) Hpos), (proj2 (Z.ltb_lt _ _) Hlt).
Qed.

(** How [WHERE id = ?] reads some parameters. *)
Example rowid_of_param_affinity :
  rowid_of_param "1.0" = Some 1 /\ rowid_of_param " +1 " = Some 1 /\
  rowid_of_param "1e0" = Some 1 /\ rowid_of_param "10e-1" = Some 1 /\
  rowid_of_param "007" = Some 7 /\ rowid_of_param "1.5" = None /\
  rowid_of_param "1e" = None /\ rowid_of_param "0x1" = None /\
  rowid_of_param "-1" = None /\ rowid_of_param "" = None /\
  rowid_of_param "9223372036854775808" = None.
Proof. vm_compute. repeat split. Qed.

(** ** Lemmas on the statements *)

Section Statements.
Context {A : Type}.
Implicit Types (t : table A) (r : A).

Lemma StronglySorted_snoc (l : list nat) x :
  StronglySorted lt l -> Forall (fun y => y < x) l -> StronglySorted lt (l ++ [x]).
Proof.
  induction 1 as [|a l Hs IH Hall]; intros Hx; simpl.
  - repeat constructor.
  - invc Hx. constructor; [by apply IH|].
    apply List.Forall_app; split; [done|]. by constructor.
Qed.

Lemma next_rowid_fresh t i r : In (i, r) t -> i < next_rowid t.
Proof.
  intros H. unfold next_rowid. apply Nat.lt_succ_r.
  pose proof (proj1 (list_max_le (map fst t) _) (le_n _)) as Hall.
  rewrite List.Forall_forall in Hall. apply Hall.
  by apply (in_map fst) in H.
Qed.

Lemma next_rowid_fresh_all t : Forall (fun y => y < next_rowid t) (map fst t).
Proof.
  apply List.Forall_forall. intros y Hy. apply in_map_iff in Hy as [[i r] [<- Hin]].
  by eapply next_rowid_fresh.
Qed.

Lemma sql_insert_sorted t r : rowids_sorted t -> rowids_sorted (sql_insert t r).
Proof.
  unfold rowids_sorted, sql_insert. rewrite map_app. intros H.
  apply StronglySorted_snoc; [done|apply next_rowid_fresh_all].
Qed.

Lemma sql_update_ids id f t : map fst (sql_update id f t) = map fst t.
Proof.
  unfold sql_update. rewrite map_map. apply map_ext. intros [i r]; simpl.
  by destruct (id_matches id i).
Qed.

Lemma sql_update_sorted id f t : rowids_sorted t -> rowids_sorted (sql_update id f t).
Proof. unfold rowids_sorted. by rewrite sql_update_ids. Qed.

Lemma sql_delete_sorted id t : rowids_sorted t -> rowids_sorted (sql_delete id t).
Proof.
  unfold rowids_sorted, sql_delete. intros H.
  induction t as [|[i r] t IH]; simpl in *; [constructor|].
  invc H. destruct (negb _); simpl; [|by apply IH].
  constructor; [by apply IH|].
  rewrite List.Forall_forall in *. intros y Hy. apply H3.
  apply in_map_iff in Hy as [p [<- Hp]]. apply filter_In in Hp as [Hp _].
  by apply in_map.
Qed.

(** An UPDATE or a DELETE whose id matches no row leaves the table as
    it is. *)
Lemma sql_update_absent id f t :
  (forall i r, In (i, r) t -> id_matches id i = false) -> sql_update id f t = t.
Proof.
  intros H. unfold sql_update. induction t as [|[i r] t IH]; simpl; [done|].
  rewrite (H i r) by (by left). f_equal. apply IH. intros; eapply H; by right.
Qed.

Lemma sql_delete_absent id t :
  (forall i r, In (i, r) t -> id_matches id i = false) -> sql_delete id t = t.
Proof.
  intros H. apply filter_all_true. intros [i r] Hin. simpl. by rewrite (H i r Hin).
Qed.

Lemma In_sql_delete id t i r :
  In (i, r) (sql_delete id t) <-> In (i, r) t /\ id_matches id i = false.
Proof.
  unfold sql_delete. rewrite filter_In. simpl. by rewrite negb_true_iff.
Qed.

Lemma In_sql_update id f t i r :
  In (i, r) (sql_update id f t) <->
  exists r0, In (i, r0) t /\ r = if id_matches id i then f r0 else r0.
Proof.
  unfold sql_update. rewrite in_map_iff. split.
  - intros [[j r0] [Heq Hin]]. simpl in Heq.
    destruct (id_matches id j) eqn:E; injection Heq as <- <-;
      exists r0; rewrite E; auto.
  - intros [r0 [Hin ->]]. exists (i, r0). simpl. by destruct (id_matches id i).
Qed.

Lemma id_matches_None i : id_matches None i = false.
Proof. done. Qed.

Lemma id_matches_Some j i : id_matches (Some j) i = true <-> i = j.
Proof. unfold id_matches. rewrite bool_decide_eq_true. split; congruence. Qed.

(** An UPDATE that overwrites what an earlier one wrote hides it. *)
Lemma sql_update_twice id (f g : A -> A) t :
  (forall r, f (g r) = f r) -> sql_update id f (sql_update id g t) = sql_update id f t.
Proof.
  intros Hfg. unfold sql_update. rewrite map_map. apply map_ext. intros [i r]. cbn [fst snd].
  destruct (id_matches id i) eqn:E; cbn [fst snd]; rewrite E; [by rewrite Hfg|done].
Qed.

(** With strictly increasing rowids, a rowid names at most one row. *)
Lemma sorted_rowid_unique t i r r' :
  rowids_sorted t -> In (i, r) t -> In (i, r') t -> r = r'.
Proof.
  unfold rowids_sorted. induction t as [|[j x] t IH]; intros Hs Hi Hi'; [done|].
  simpl in Hs. apply StronglySorted_inv in Hs as [Hs Hall].
  assert (Hlt : forall r0, In (i, r0) t -> j < i).
  { intros r0 H. rewrite List.Forall_forall in Hall. apply Hall. by apply (in_map fst) in H. }
  destruct Hi as [Hi|Hi], Hi' as [Hi'|Hi'].
  - congruence.
  - injection Hi as <- <-. specialize (Hlt _ Hi'). lia.
  - injection Hi' as <- <-. specialize (Hlt _ Hi). lia.
  - by apply IH.
Qed.

End Statements.

(** The statements keep a table typed when the rows they write are. *)
Section Typed.
Context {A : Type} (typed : A -> bool).
Implicit Types (t : table A) (r : A).

Lemma table_typed_insert t r :
  table_typed typed t -> typed r = true -> table_typed typed (sql_insert t r).
Proof. intros Ht Hr. apply List.Forall_app. split; [done|]. by constructor. Qed.

Lemma table_typed_update id f t :
  (forall r, typed r = true -> typed (f r) = true) ->
  table_typed typed t -> table_typed typed (sql_update id f t).
Proof.
  intros Hf Ht. unfold table_typed in *. rewrite List.Forall_forall in *.
  intros [i r] Hin. apply In_sql_update in Hin as [r0 [Hin ->]].
  specialize (Ht _ Hin). simpl in *. destruct (id_matches id i); auto.
Qed.

Lemma table_typed_filter (f : nat * A -> bool) t :
  table_typed typed t -> table_typed typed (List.filter f t).
Proof.
  unfold table_typed. rewrite !List.Forall_forall. intros Ht p Hp.
  apply filter_In in Hp as [Hp _]. by apply Ht.
Qed.

End Typed.

Lemma sql_bind_value v : sql_value (sql_bind v) = true.
Proof. by destruct v as [| |[]| |]. Qed.

#[export] Hint Resolve table_typed_insert table_typed_filter sql_bind_value : booking.

(** Inserting a row whose (data, hora) an active row already holds
    breaks [no_double_booking]: the new rowid is fresh. *)
Lemma sql_insert_same_slot t i r r' :
  In (i, r) t -> data r = data r' -> hora r = hora r' ->
  ~ no_double_booking (sql_insert t r').
Proof.
  intros Hin Hd Hh Hnd. pose proof (next_rowid_fresh t i r Hin) as Hlt.
  enough (i = next_rowid t) by lia.
  apply (Hnd i _ r r'); try done; unfold sql_insert; apply in_or_app; [by left|right; by left].
Qed.

#[export] Hint Resolve sql_insert_sorted sql_update_sorted sql_delete_sorted : booking.

End Store.
