(* ===== verification/Server.v ===== *)
(** The Express handlers of [src/api.js] (lines 12 to 109). Each handler
    takes its request, the storage outcome of its one SQL statement
    ([fault = true] when the callback receives [err]) and the database,
    and returns the HTTP response and the new database. *)

From S2P Require Import Prelude JsValue Store.
Import Js Store.

Local Open Scope string_scope.

Module Server.

Inductive payload :=
| PMessage (m : string)
| PHoras (l : list jsval)
| PClientes (t : table cliente)
| PServicos (l : list servico_row)
| PArquivo (caminho : string).

Record response := mkResponse { status : Z; json : payload }.

Definition set_clientes (t : table cliente) (s : db) : db :=
  mkDb (gestao s) (servicos s) t (concluidos s).

(** [GET /]: [res.sendFile] of [index.html] beside the server. The
    file is not in the repository; its contents are not modelled. *)
Definition get_root : response := mkResponse 200 (PArquivo "index.html").

(** [GET /api/gestao]: [SELECT hora FROM gestao], then the [hora]
    column. *)
Definition get_gestao (fault : bool) (s : db) : response :=
  if fault then mkResponse 500 (PMessage "Erro ao buscar dados da gestão.")
  else mkResponse 200 (PHoras (gestao s)).

(** [GET /api/clientes]: [SELECT * FROM clientes]. *)
Definition get_clientes (fault : bool) (s : db) : response :=
  if fault then mkResponse 500 (PMessage "Erro ao consultar orçamentos")
  else mkResponse 200 (PClientes (clientes s)).

(** [GET /api/servicos]: [SELECT nome, preco FROM servicos]. *)
Definition get_servicos (fault : bool) (s : db) : response :=
  if fault then mkResponse 500 (PMessage "Erro ao obter os dados de serviços")
  else mkResponse 200 (PServicos (servicos s)).

(** [POST /api/cadastro]. Both guards come before the INSERT: a missing
    or falsy field, then a date or time that fails its regex. No
    statement checks whether the slot is already taken. *)
Definition post_cadastro (b : body) (fault : bool) (s : db) : response * db :=
  let nomeCliente := prop b "nomeCliente" in
  let data := prop b "data" in
  let hora := prop b "hora" in
  let servico := prop b "servico" in
  let valorOrcamento := prop b "valorOrcamento" in
  if negb (js_truthy nomeCliente) || negb (js_truthy data) || negb (js_truthy hora)
     || negb (js_truthy servico) || negb (js_truthy valorOrcamento) then
    (mkResponse 400 (PMessage "Todos os campos devem ser preenchidos."), s)
  else if negb (regex_test dataRegex data) || negb (regex_test horaRegex hora) then
    (mkResponse 400 (PMessage "Formato de data ou hora inválido."), s)
  else if fault then
    (mkResponse 500 (PMessage "Erro ao salvar o orçamento"), s)
  else
    (mkResponse 201 (PMessage "Orçamento cadastrado com sucesso"),
     set_clientes
       (sql_insert (clientes s)
          (mkCliente (sql_bind nomeCliente) (sql_bind data) (sql_bind hora)
                     (sql_bind servico) (sql_bind valorOrcamento)))
       s).

(** The row after [SET nome_cliente = ?, servico = ?, valor_orcamento = ?]. *)
Definition set_edit (nome servico valor : jsval) (r : cliente) : cliente :=
  mkCliente (sql_bind nome) (data r) (hora r) (sql_bind servico) (sql_bind valor).

(** [PUT /api/agendamentos/:id]: the UPDATE, whatever the number of rows
    it changes. *)
Definition put_agendamento (id : string) (b : body) (fault : bool) (s : db)
    : response * db :=
  let nome_cliente := prop b "nome_cliente" in
  let servico := prop b "servico" in
  let valor_orcamento := prop b "valor_orcamento" in
  if fault then (mkResponse 500 (PMessage "Erro ao atualizar agendamento."), s)
  else
    (mkResponse 200 (PMessage "Agendamento atualizado com sucesso!"),
     set_clientes
       (sql_update (rowid_of_param id) (set_edit nome_cliente servico valor_orcamento)
          (clientes s))
       s).

(** [DELETE /api/agendamentos/:id]: the DELETE, whatever the number of
    rows it removes. *)
Definition delete_agendamento (id : string) (fault : bool) (s : db) : response * db :=
  if fault then (mkResponse 500 (PMessage "Erro ao excluir o agendamento."), s)
  else
    (mkResponse 200 (PMessage "Agendamento excluído com sucesso!"),
     set_clientes (sql_delete (rowid_of_param id) (clientes s)) s).

(** The routes of the Express app. *)
Inductive request :=
| GetRoot
| GetGestao
| GetClientes
| GetServicos
| PostCadastro (b : body)
| PutAgendamento (id : string) (b : body)
| DeleteAgendamento (id : string).

Definition handle (rq : request) (fault : bool) (s : db) : response * db :=
  match rq with
  | GetRoot => (get_root, s)
  | GetGestao => (get_gestao fault s, s)
  | GetClientes => (get_clientes fault s, s)
  | GetServicos => (get_servicos fault s, s)
  | PostCadastro b => post_cadastro b fault s
  | PutAgendamento id b => put_agendamento id b fault s
  | DeleteAgendamento id => delete_agendamento id fault s
  end.

(** ** Well-formed rows *)

(** A row whose [data] and [hora] pass the two regular expressions of
    [POST /api/cadastro]. *)
Definition row_valid (r : cliente) : bool :=
  regex_test dataRegex (data r) && regex_test horaRegex (hora r).

Definition clientes_valid (t : table cliente) : Prop :=
  Forall (fun p => row_valid p.2 = true) t.

(** The guards of [POST /api/cadastro], as one test. *)
Definition cadastro_ok (b : body) : bool :=
  js_truthy (prop b "nomeCliente") && js_truthy (prop b "data")
  && js_truthy (prop b "hora") && js_truthy (prop b "servico")
  && js_truthy (prop b "valorOrcamento")
  && regex_test dataRegex (prop b "data") && regex_test horaRegex (prop b "hora").

(** The row [POST /api/cadastro] inserts. *)
Definition cadastro_row (b : body) : cliente :=
  mkCliente (sql_bind (prop b "nomeCliente")) (sql_bind (prop b "data"))
            (sql_bind (prop b "hora")) (sql_bind (prop b "servico"))
            (sql_bind (prop b "valorOrcamento")).

(** ** Sample data: one booking on 2025-01-10 at 09:00:00 *)

Definition sample_row : cliente :=
  mkCliente (JString "Ana") (JString "2025-01-10") (JString "09:00:00")
            (JString "Corte") (js_int 50).

Definition sample_db : db :=
  mkDb [JString "09:00:00"; JString "10:00:00"]
       [mkServico (JString "Corte") (js_int 50)]
       [(1, sample_row)] [].

(** A second client asks for the same slot. *)
Definition sample_body : body :=
  <["nomeCliente" := JString "Bia"]> (<["data" := JString "2025-01-10"]>
  (<["hora" := JString "09:00:00"]> (<["servico" := JString "Corte"]>
  (<["valorOrcamento" := js_int 50]> ∅)))).

(** ** Lemmas *)

Lemma regex_test_truthy p v :
  (p = dataRegex \/ p = horaRegex) -> regex_test p v = true -> js_truthy v = true.
Proof.
  intros Hp H. destruct (regex_test_string p v Hp H) as [s [-> Hm]].
  apply js_truthy_string. intros ->. destruct Hp as [-> | ->]; discriminate Hm.
Qed.

Lemma sql_bind_string s : sql_bind (JString s) = JString s.
Proof. done. Qed.

Lemma regex_test_bind p v :
  (p = dataRegex \/ p = horaRegex) -> regex_test p v = true -> regex_test p (sql_bind v) = true.
Proof.
  intros Hp H. by destruct (regex_test_string p v Hp H) as [s [-> _]].
Qed.

Lemma post_cadastro_guard b :
  cadastro_ok b = true <->
  (negb (js_truthy (prop b "nomeCliente")) || negb (js_truthy (prop b "data"))
   || negb (js_truthy (prop b "hora")) || negb (js_truthy (prop b "servico"))
   || negb (js_truthy (prop b "valorOrcamento"))) = false /\
  (negb (regex_test dataRegex (prop b "data")) || negb (regex_test horaRegex (prop b "hora"))) = false.
Proof.
  unfold cadastro_ok.
  destruct (js_truthy (prop b "nomeCliente")), (js_truthy (prop b "data")),
    (js_truthy (prop b "hora")), (js_truthy (prop b "servico")),
    (js_truthy (prop b "valorOrcamento")), (regex_test dataRegex (prop b "data")),
    (regex_test horaRegex (prop b "hora")); simpl; intuition congruence.
Qed.

Lemma cadastro_row_valid b : cadastro_ok b = true -> row_valid (cadastro_row b) = true.
Proof.
  unfold cadastro_ok, row_valid, cadastro_row. intros H. bool_hyps. simpl.
  rewrite !regex_test_bind; auto.
Qed.

Lemma set_clientes_wf t s :
  db_wf s -> rowids_sorted t -> db_wf (set_clientes t s).
Proof. intros [_ H] Ht. by split. Qed.

#[export] Hint Resolve set_clientes_wf : booking.

(** ** Properties of the handlers *)

(** The success branch of [POST /api/cadastro]. *)
Lemma post_cadastro_insert b s :
  cadastro_ok b = true ->
  post_cadastro b false s =
    (mkResponse 201 (PMessage "Orçamento cadastrado com sucesso"),
     set_clientes (clientes s ++ [(next_rowid (clientes s), cadastro_row b)])%list s).
Proof.
  intros H. apply post_cadastro_guard in H as [H1 H2].
  unfold post_cadastro. rewrite H1, H2. reflexivity.
Qed.

(** The stored row carries the body's [data] and [hora] unchanged. *)
Lemma cadastro_row_fields b :
  cadastro_ok b = true ->
  data (cadastro_row b) = prop b "data" /\ hora (cadastro_row b) = prop b "hora".
Proof.
  unfold cadastro_ok. intros H. bool_hyps. simpl.
  destruct (regex_test_string dataRegex (prop b "data")) as [d [-> _]]; auto.
  destruct (regex_test_string horaRegex (prop b "hora")) as [h [-> _]]; auto.
Qed.

(** A valid booking names a non-empty date. *)
Lemma cadastro_ok_data b d : cadastro_ok b = true -> prop b "data" = JString d -> d <> "".
Proof.
  unfold cadastro_ok. intros H Hd ->. bool_hyps. rewrite Hd in *.
  destruct (regex_test_string dataRegex (JString "")) as [d [Hs Hm]]; auto.
  injection Hs as <-. apply match_exact_length in Hm. discriminate.
Qed.

(** C1. A request that passes both guards and whose INSERT succeeds is
    answered 201 and appends the new row at the end of [clientes],
    nothing else changing. The row's rowid is larger than every rowid
    in the table. Its [data] and [hora] are the body's strings as sent. *)
Theorem post_cadastro_created b s :
  cadastro_ok b = true ->
  post_cadastro b false s =
    (mkResponse 201 (PMessage "Orçamento cadastrado com sucesso"),
     set_clientes (clientes s ++ [(next_rowid (clientes s), cadastro_row b)])%list s) /\
  (forall i r, In (i, r) (clientes s) -> i < next_rowid (clientes s)) /\
  data (cadastro_row b) = prop b "data" /\ hora (cadastro_row b) = prop b "hora".
Proof.
  intros H. split; [by apply post_cadastro_insert|].
  split; [intros i r; apply next_rowid_fresh|]. by apply cadastro_row_fields.
Qed.

(** The error branches of [POST /api/cadastro]. *)
Lemma post_cadastro_rejects b fault s :
  (status (post_cadastro b fault s).1 = 400%Z <-> cadastro_ok b = false) /\
  (cadastro_ok b = false \/ fault = true -> (post_cadastro b fault s).2 = s).
Proof.
  unfold post_cadastro. pose proof (post_cadastro_guard b) as G.
  destruct (negb (js_truthy (prop b "nomeCliente")) || _ || _ || _ || _) eqn:E1;
    [|destruct (negb (regex_test dataRegex (prop b "data")) || _) eqn:E2];
    [..|destruct fault]; simpl;
    (split; [|intros [H|H]; try done]);
    try (destruct (cadastro_ok b) eqn:E; intuition congruence).
Qed.

(** C2. [POST /api/cadastro] answers 400 exactly when a guard fails: a
    missing or falsy field, or a date or time off its pattern. It then
    leaves the database as it is. A valid request whose INSERT fails is
    answered 500 and also changes nothing. *)
Theorem post_cadastro_errors b fault s :
  (status (post_cadastro b fault s).1 = 400%Z <-> cadastro_ok b = false) /\
  (cadastro_ok b = false \/ fault = true -> (post_cadastro b fault s).2 = s) /\
  (cadastro_ok b = true -> fault = true ->
   post_cadastro b fault s = (mkResponse 500 (PMessage "Erro ao salvar o orçamento"), s)).
Proof.
  destruct (post_cadastro_rejects b fault s) as [H400 Hsame].
  do 2 (split; [done|]). intros H ->.
  apply post_cadastro_guard in H as [H1 H2]. unfold post_cadastro. by rewrite H1, H2.
Qed.

(** Every handler keeps [db_wf]. *)
Lemma handle_wf rq fault s :
  db_wf s -> db_wf (handle rq fault s).2.
Proof.
  intros Hwf. pose proof Hwf as [Hc _].
  destruct rq; simpl; try done.
  - unfold post_cadastro. repeat case_match; simpl; auto with booking.
  - unfold put_agendamento. case_match; simpl; auto with booking.
  - unfold delete_agendamento. case_match; simpl; auto with booking.
Qed.

Lemma set_edit_typed n sv v r :
  cliente_typed r = true -> cliente_typed (set_edit n sv v r) = true.
Proof.
  unfold cliente_typed, set_edit. intros H. bool_hyps. simpl. rewrite !sql_bind_value.
  by repeat match goal with Hv : sql_value _ = true |- _ => rewrite Hv; clear Hv end.
Qed.

(** Every handler writes only stored values: its parameters go through
    [sql_bind], and the UPDATE keeps [data] and [hora]. *)
Lemma handle_typed rq fault s :
  db_typed s -> db_typed (handle rq fault s).2.
Proof.
  intros [Hc Hk]. destruct rq; simpl; try done.
  - unfold post_cadastro. repeat case_match; try done. split; [|done]. simpl.
    apply table_typed_insert; [done|]. unfold cliente_typed. simpl. by rewrite !sql_bind_value.
  - unfold put_agendamento. case_match; [done|]. split; [|done]. simpl.
    apply table_typed_update; [apply set_edit_typed|done].
  - unfold delete_agendamento. case_match; [done|]. split; [|done]. by apply table_typed_filter.
Qed.

(** C3. Every request keeps the table invariant: the rowids of
    [clientes] and [concluidos] stay strictly increasing. No request
    writes the slot catalog, the service catalog or the history. *)
Theorem handle_preserves_wf rq fault s :
  db_wf s ->
  db_wf (handle rq fault s).2 /\ gestao (handle rq fault s).2 = gestao s /\
  servicos (handle rq fault s).2 = servicos s /\
  concluidos (handle rq fault s).2 = concluidos s.
Proof.
  intros Hwf. split; [by apply handle_wf|].
  destruct rq; simpl; unfold post_cadastro, put_agendamento, delete_agendamento;
    repeat case_match; done.
Qed.

(** Every handler keeps [clientes_valid]. *)
Lemma handle_valid rq fault s :
  clientes_valid (clientes s) -> clientes_valid (clientes (handle rq fault s).2).
Proof.
  unfold clientes_valid. intros Hv. destruct rq; simpl; try done.
  - destruct (cadastro_ok b) eqn:Hok.
    + destruct fault; [by rewrite (proj2 (post_cadastro_rejects b true s)); auto|].
      rewrite post_cadastro_insert by done. simpl.
      apply List.Forall_app; split; [done|]. constructor; [|constructor].
      by apply cadastro_row_valid.
    + by rewrite (proj2 (post_cadastro_rejects b fault s)); auto.
  - unfold put_agendamento. destruct fault; simpl; [done|].
    rewrite List.Forall_forall in *. intros [i r] Hin.
    apply In_sql_update in Hin as [r0 [Hin ->]].
    destruct (id_matches _ i); [|by apply (Hv (i, r0))].
    apply (Hv (i, r0)) in Hin. done.
  - unfold delete_agendamento. destruct fault; simpl; [done|].
    rewrite List.Forall_forall in *. intros [i r] Hin.
    apply In_sql_delete in Hin as [Hin _]. by apply (Hv (i, r)).
Qed.

(** C4. Any sequence of requests, each with its storage outcome,
    keeps every row of [clientes] valid: its [data] and [hora] match
    [dataRegex] and [horaRegex]. *)
Theorem handle_preserves_valid (rs : list (request * bool)) s :
  clientes_valid (clientes s) ->
  clientes_valid (clientes (fold_left (fun st q => (handle q.1 q.2 st).2) rs s)).
Proof.
  revert s. induction rs as [|q rs IH]; intros s H; simpl; [done|].
  by apply IH, handle_valid.
Qed.

(** C6. [POST /api/cadastro] does not check the slot. When an active
    appointment already holds the requested date and time, a valid
    booking is still answered 201, and two active appointments share
    the slot (the spec requires a [ConflictError]). *)
Theorem post_cadastro_double_booking b s i r :
  cadastro_ok b = true -> In (i, r) (clientes s) ->
  data r = sql_bind (prop b "data") -> hora r = sql_bind (prop b "hora") ->
  status (post_cadastro b false s).1 = 201%Z /\
  ~ no_double_booking (clientes (post_cadastro b false s).2).
Proof.
  intros Hok Hin Hd Hh. rewrite post_cadastro_insert by done. split; [done|].
  by apply (sql_insert_same_slot (clientes s) i r).
Qed.

(** [PUT /api/agendamentos/:id] for an id that names no active
    appointment answers 200 with the success message and changes
    nothing (the spec requires a [NotFoundError]). *)
Theorem put_agendamento_unknown_id id b s :
  (forall i r, In (i, r) (clientes s) -> rowid_of_param id <> Some i) ->
  put_agendamento id b false s =
    (mkResponse 200 (PMessage "Agendamento atualizado com sucesso!"), s).
Proof.
  intros H. unfold put_agendamento. rewrite sql_update_absent.
  - by destruct s.
  - intros i r Hin. apply bool_decide_eq_false. by apply (H i r).
Qed.

(** [PUT /api/agendamentos/:id] never moves an appointment: every
    rowid keeps its [data] and [hora], and no row appears or
    disappears. *)
Theorem put_agendamento_keeps_slots id b fault s :
  map (fun p => (p.1, data p.2, hora p.2)) (clientes (put_agendamento id b fault s).2) =
  map (fun p => (p.1, data p.2, hora p.2)) (clientes s).
Proof.
  unfold put_agendamento. destruct fault; simpl; [done|].
  unfold sql_update. rewrite map_map. apply map_ext. intros [i r]; simpl.
  by destruct (id_matches _ i).
Qed.

(** C32. [PUT /api/agendamentos/:id] never moves an appointment: every
    rowid keeps its [data] and [hora], and no row appears or disappears.
    It writes all three edited columns: a body without [servico] sets
    the service of the appointment to NULL. The spec describes a
    partial update. *)
Theorem put_agendamento_nulls_missing id b s :
  (forall fault,
     map (fun p => (p.1, data p.2, hora p.2)) (clientes (put_agendamento id b fault s).2) =
     map (fun p => (p.1, data p.2, hora p.2)) (clientes s)) /\
  (forall i r, rowid_of_param id = Some i -> In (i, r) (clientes s) -> prop b "servico" = JUndefined ->
   exists r', In (i, r') (clientes (put_agendamento id b false s).2) /\
     servico r' = JNull /\ data r' = data r /\ hora r' = hora r).
Proof.
  split; [intros; apply put_agendamento_keeps_slots|].
  intros i r Hid Hin Hs. exists (set_edit (prop b "nome_cliente") (prop b "servico")
                                         (prop b "valor_orcamento") r).
  simpl. rewrite Hs. split; [|done].
  apply In_sql_update. exists r. split; [done|]. rewrite Hid.
  unfold id_matches. by rewrite bool_decide_eq_true_2.
Qed.

(** [DELETE /api/agendamentos/:id] removes the appointment with that
    id and keeps the others. Deleting it a second time is answered 200
    again and changes nothing (the spec requires a [NotFoundError]). *)
Theorem delete_agendamento_twice id s :
  let s1 := (delete_agendamento id false s).2 in
  (forall i r, In (i, r) (clientes s1) <->
     In (i, r) (clientes s) /\ rowid_of_param id <> Some i) /\
  delete_agendamento id false s1 =
    (mkResponse 200 (PMessage "Agendamento excluído com sucesso!"), s1).
Proof.
  simpl. split.
  - intros i r. rewrite In_sql_delete. unfold id_matches.
    by rewrite bool_decide_eq_false.
  - unfold delete_agendamento. simpl.
    rewrite (sql_delete_absent _ (sql_delete _ _)); [done|].
    intros i r Hin. by apply In_sql_delete in Hin as [_ Hin].
Qed.

(** C31. Scenario E: an update or a delete of an id that names no
    active appointment is answered 200 with the success message and
    changes nothing, where the spec requires a [NotFoundError]. The
    text of [:id] names a row when SQLite's NUMERIC affinity reads it as
    that rowid ([rowid_of_param]: ["1.0"], [" +1 "] and ["1e0"] all name
    row 1); any other text names none. A delete
    of an existing id removes exactly that row, so deleting it a second
    time is such a request. *)
Theorem unknown_id_answers_200 id b s :
  ((forall i r, In (i, r) (clientes s) -> rowid_of_param id <> Some i) ->
   put_agendamento id b false s =
     (mkResponse 200 (PMessage "Agendamento atualizado com sucesso!"), s) /\
   delete_agendamento id false s =
     (mkResponse 200 (PMessage "Agendamento excluído com sucesso!"), s)) /\
  (let s1 := (delete_agendamento id false s).2 in
   (forall i r, In (i, r) (clientes s1) <-> In (i, r) (clientes s) /\ rowid_of_param id <> Some i) /\
   delete_agendamento id false s1 =
     (mkResponse 200 (PMessage "Agendamento excluído com sucesso!"), s1)).
Proof.
  split; [|apply delete_agendamento_twice].
  intros H. split; [by apply put_agendamento_unknown_id|].
  unfold delete_agendamento. rewrite sql_delete_absent; [by destruct s|].
  intros i r Hin. apply bool_decide_eq_false. by apply (H i r).
Qed.

(** ** Witnesses *)

Lemma post_cadastro_created_witness :
  post_cadastro sample_body false sample_db =
    (mkResponse 201 (PMessage "Orçamento cadastrado com sucesso"),
     set_clientes ([(1, sample_row); (2, cadastro_row sample_body)]) sample_db) /\
  (forall i r, In (i, r) (clientes sample_db) -> i < 2) /\
  data (cadastro_row sample_body) = JString "2025-01-10" /\
  hora (cadastro_row sample_body) = JString "09:00:00".
Proof. apply (post_cadastro_created sample_body sample_db). reflexivity. Defined.

Lemma post_cadastro_errors_witness :
  status (post_cadastro (delete "hora" sample_body) false sample_db).1 = 400%Z /\
  (post_cadastro (delete "hora" sample_body) false sample_db).2 = sample_db /\
  post_cadastro sample_body true sample_db =
    (mkResponse 500 (PMessage "Erro ao salvar o orçamento"), sample_db).
Proof.
  destruct (post_cadastro_errors (delete "hora" sample_body) false sample_db) as [H1 [H2 _]].
  destruct (post_cadastro_errors sample_body true sample_db) as [_ [_ H3]].
  split; [apply H1; reflexivity|split; [apply H2; left; reflexivity|]].
  apply H3; reflexivity.
Defined.

Lemma handle_preserves_wf_witness :
  let s' := (handle (PostCadastro sample_body) false sample_db).2 in
  db_wf s' /\ gestao s' = gestao sample_db /\ servicos s' = servicos sample_db /\
  concluidos s' = concluidos sample_db.
Proof.
  apply handle_preserves_wf. split; repeat constructor.
Defined.

Lemma handle_preserves_valid_witness :
  clientes_valid (clientes (fold_left (fun st q => (handle q.1 q.2 st).2)
    [(PostCadastro sample_body, false); (DeleteAgendamento "1", false)] sample_db)).
Proof.
  apply handle_preserves_valid. apply List.Forall_cons; [reflexivity|constructor].
Defined.

Lemma post_cadastro_double_booking_witness :
  status (post_cadastro sample_body false sample_db).1 = 201%Z /\
  ~ no_double_booking (clientes (post_cadastro sample_body false sample_db).2).
Proof.
  apply (post_cadastro_double_booking sample_body sample_db 1 sample_row);
    [reflexivity|left; reflexivity|reflexivity|reflexivity].
Defined.

Lemma unknown_id_answers_200_witness :
  put_agendamento "7" sample_body false sample_db =
    (mkResponse 200 (PMessage "Agendamento atualizado com sucesso!"), sample_db) /\
  delete_agendamento "7" false sample_db =
    (mkResponse 200 (PMessage "Agendamento excluído com sucesso!"), sample_db).
Proof.
  apply (proj1 (unknown_id_answers_200 "7" sample_body sample_db)).
  intros i r [Hin|[]]. injection Hin as <- _. vm_compute. discriminate.
Defined.

Lemma put_agendamento_nulls_missing_witness :
  exists r', In (1, r') (clientes (put_agendamento "1"
                  (<["nome_cliente" := JString "Ana Maria"]> ∅) false sample_db).2) /\
    servico r' = JNull /\ data r' = data sample_row /\ hora r' = hora sample_row.
Proof.
  apply (proj2 (put_agendamento_nulls_missing "1" (<["nome_cliente" := JString "Ana Maria"]> ∅)
                  sample_db) 1 sample_row); [reflexivity|left; reflexivity|reflexivity].
Defined.

End Server.
