(* ===== verification/Availability.v ===== *)
(** The free slots of a date, as the booking screen computes them
    ([consultarHorariosDisponiveis], [src/app/(tabs)/cadastrar.tsx]
    lines 47 to 66). The screen reads [GET /api/clientes] and then
    [GET /api/gestao], and keeps the catalog slots that no appointment
    of the chosen date uses. *)

From Stdlib Require Import SpecFloat.
From S2P Require Import Prelude JsValue Store Server.
Import Js Store Server.

Local Open Scope string_scope.

Module Availability.

(** [x === y] on numbers: [NaN] equals nothing, the two zeros are equal.
    Other doubles are compared by value, which is structural on the
    canonical representation. *)
Definition num_strict_eq (x y : spec_float) : bool :=
  match x, y with
  | S754_nan, _ | _, S754_nan => false
  | S754_zero _, S754_zero _ => true
  | _, _ => bool_decide (x = y)
  end.

(** [x === y] (IsStrictlyEqual). *)
Definition strict_eq (x y : jsval) : bool :=
  match x, y with
  | JUndefined, JUndefined | JNull, JNull => true
  | JBool a, JBool b => Bool.eqb a b
  | JNumber a, JNumber b => num_strict_eq a b
  | JString a, JString b => String.eqb a b
  | _, _ => false
  end.

(** SameValueZero, the equality of [Array.prototype.includes]: like
    [===], except that [NaN] equals [NaN]. *)
Definition same_value_zero (x y : jsval) : bool :=
  match x, y with
  | JNumber S754_nan, JNumber S754_nan => true
  | _, _ => strict_eq x y
  end.

(** [l.includes(x)]. *)
Definition includes_svz (l : list jsval) (x : jsval) : bool :=
  existsb (fun y => same_value_zero y x) l.

(** [responseClientes.data.filter(item => item.data === dataEscolhida)
      .map(item => item.hora)] *)
Definition horariosOcupados (rows : table cliente) (dataEscolhida : string) : list jsval :=
  map (fun p => hora p.2)
      (List.filter (fun p => strict_eq (data p.2) (JString dataEscolhida)) rows).

(** [todosHorarios.filter(hora => !horariosOcupados.includes(hora))] *)
Definition horariosDisponiveis (todos ocupados : list jsval) : list jsval :=
  List.filter (fun h => negb (includes_svz ocupados h)) todos.

(** axios resolves a response with a 2xx status and rejects any other. *)
Definition ok_json (r : response) : option payload :=
  if ((200 <=? status r) && (status r <? 300))%Z then Some (json r) else None.

(** The effect: the new value of the [horariosDisponiveis] state, [cur]
    being the old one. An empty date returns early. A rejected request
    goes to the [catch] branch (an alert) and leaves the state as it
    is. The catalog is fetched only after the appointments. *)
Definition consultarHorariosDisponiveis (dataEscolhida : string)
    (rc rg : response) (cur : list jsval) : list jsval :=
  if String.eqb dataEscolhida "" then cur
  else match ok_json rc with
       | Some (PClientes rows) =>
           match ok_json rg with
           | Some (PHoras todos) =>
               horariosDisponiveis todos (horariosOcupados rows dataEscolhida)
           | _ => cur
           end
       | _ => cur
       end.

(** The abstract specification: the slot [h] is taken on the date [d]
    when an active appointment has that date and that slot. *)
Definition occupied (t : table cliente) (d : string) (h : jsval) : bool :=
  existsb (fun p => bool_decide (data p.2 = JString d) && bool_decide (hora p.2 = h)) t.

Definition is_string (v : jsval) : bool :=
  match v with JString _ => true | _ => false end.

(** A booking of the free slot 10:00:00 on the date of [sample_db]. *)
Definition free_body : body := <["hora" := JString "10:00:00"]> sample_body.

(** ** Lemmas *)

Lemma strict_eq_string v s : strict_eq v (JString s) = bool_decide (v = JString s).
Proof.
  destruct v; simpl; try done. destruct (String.eqb_spec s0 s) as [->|Hne].
  - by rewrite bool_decide_eq_true_2.
  - rewrite bool_decide_eq_false_2; [done|congruence].
Qed.

Lemma same_value_zero_string v s :
  same_value_zero v (JString s) = bool_decide (v = JString s).
Proof. destruct v as [| | |[]|]; apply strict_eq_string. Qed.

Lemma includes_ocupados_string rows d s :
  includes_svz (horariosOcupados rows d) (JString s) = occupied rows d (JString s).
Proof.
  unfold includes_svz, horariosOcupados, occupied.
  rewrite existsb_map_comp, existsb_filter_and. apply existsb_ext_eq. intros p.
  by rewrite strict_eq_string, same_value_zero_string.
Qed.

Lemma occupied_spec t d h :
  occupied t d h = true <-> exists i r, In (i, r) t /\ data r = JString d /\ hora r = h.
Proof.
  unfold occupied. rewrite existsb_exists. split.
  - intros [[i r] [Hin Hb]]. bool_hyps. eauto.
  - intros (i & r & Hin & Hd & Hh). exists (i, r). split; [done|].
    by rewrite !bool_decide_eq_true_2.
Qed.

(** The spec lets [list()] return the appointments in any order: the
    free slots do not depend on it. [includes] only sees which values
    the list holds. *)
#[export] Instance includes_svz_proper : Proper (@Permutation jsval ==> eq ==> eq) includes_svz.
Proof.
  intros l1 l2 Hp x ? <-. apply Bool.eq_iff_eq_true. unfold includes_svz.
  rewrite !existsb_exists. by setoid_rewrite Hp.
Qed.

#[export] Instance horariosOcupados_proper :
  Proper (@Permutation (nat * cliente) ==> eq ==> @Permutation jsval) horariosOcupados.
Proof.
  intros r1 r2 Hp d ? <-. unfold horariosOcupados.
  by apply Permutation_map, filter_Permutation_bool.
Qed.

#[export] Instance horariosDisponiveis_proper :
  Proper (eq ==> @Permutation jsval ==> eq) horariosDisponiveis.
Proof.
  intros todos ? <- o1 o2 Ho. unfold horariosDisponiveis. apply filter_ext. intros h.
  by rewrite Ho.
Qed.

(** ** Properties *)

(** The screen's free slots as the unoccupied catalog slots. *)
Lemma consultar_occupied d s cur :
  d <> "" -> Forall (fun h => is_string h = true) (gestao s) ->
  consultarHorariosDisponiveis d (get_clientes false s) (get_gestao false s) cur =
  List.filter (fun h => negb (occupied (clientes s) d h)) (gestao s).
Proof.
  intros Hd Hstr. unfold consultarHorariosDisponiveis.
  rewrite (proj2 (String.eqb_neq d "") Hd). simpl.
  apply filter_ext_in. intros h Hin.
  rewrite List.Forall_forall in Hstr. specialize (Hstr h Hin).
  destruct h; try discriminate. by rewrite includes_ocupados_string.
Qed.

(** C8. The screen's free slots refine the spec's
    [allSlots() \ occupiedSlots(date)]. For a non-empty date, when both
    requests succeed, they are exactly the catalog slots not occupied on
    that date in [clientes], in catalog order. An empty date, or a
    failure of either request, leaves the previous list as it is. The
    catalog is assumed to hold strings. The spec lets [list()] answer in
    any order, and the result is the same for every order of the rows
    the GET sends. *)
Theorem consultar_refines_spec d s cur fc fg :
  Forall (fun h => is_string h = true) (gestao s) ->
  consultarHorariosDisponiveis d (get_clientes fc s) (get_gestao fg s) cur =
    (if String.eqb d "" || fc || fg then cur
     else List.filter (fun h => negb (occupied (clientes s) d h)) (gestao s)) /\
  (forall rows, Permutation rows (clientes s) ->
     consultarHorariosDisponiveis d (mkResponse 200 (PClientes rows)) (get_gestao fg s) cur =
     consultarHorariosDisponiveis d (get_clientes false s) (get_gestao fg s) cur).
Proof.
  intros Hstr. split.
  - destruct (String.eqb d "") eqn:E.
    + unfold consultarHorariosDisponiveis. by rewrite E.
    + apply String.eqb_neq in E. destruct fc; [|destruct fg].
      * unfold consultarHorariosDisponiveis. by rewrite (proj2 (String.eqb_neq d "") E).
      * unfold consultarHorariosDisponiveis. by rewrite (proj2 (String.eqb_neq d "") E).
      * by apply consultar_occupied.
  - intros rows Hp. unfold consultarHorariosDisponiveis, get_clientes, get_gestao.
    destruct (String.eqb d ""), fg; cbn; [done..|]. by rewrite Hp.
Qed.

(** Completeness and disjointness: the free slots and the catalog
    slots that are occupied on the date together are a permutation of
    the catalog, and no slot is in both. *)
Theorem disponiveis_partition todos ocupados :
  Permutation todos
    (horariosDisponiveis todos ocupados ++ List.filter (includes_svz ocupados) todos) /\
  (forall h, In h (horariosDisponiveis todos ocupados) ->
             ~ In h (List.filter (includes_svz ocupados) todos)).
Proof.
  split.
  - unfold horariosDisponiveis. etransitivity; [apply (filter_complement_perm (includes_svz ocupados))|].
    apply Permutation_app_comm.
  - intros h H1 H2. apply filter_In in H1 as [_ H1]. apply filter_In in H2 as [_ H2].
    by rewrite H2 in H1.
Qed.

(** Sequentially, a fault-free booking whose (date, slot) the screen
    offered leaves no slot double-booked. *)
Lemma post_free_slot_unique b s d h cur :
  no_double_booking (clientes s) ->
  Forall (fun h => is_string h = true) (gestao s) ->
  cadastro_ok b = true -> prop b "data" = JString d -> prop b "hora" = h ->
  In h (consultarHorariosDisponiveis d (get_clientes false s) (get_gestao false s) cur) ->
  no_double_booking (clientes (post_cadastro b false s).2).
Proof.
  intros Hnd Hstr Hok Hd Hh Hin.
  assert (Hne : d <> "").
  { intros ->. unfold cadastro_ok in Hok. bool_hyps. rewrite Hd in *. discriminate. }
  rewrite consultar_occupied in Hin by done.
  apply filter_In in Hin as [_ Hfree]. apply negb_true_iff in Hfree.
  assert (Hnew : forall i r, In (i, r) (clientes s) ->
            data r = data (cadastro_row b) -> hora r = hora (cadastro_row b) -> False).
  { intros i r Hr Hdr Hhr. simpl in Hdr, Hhr. rewrite Hd in Hdr. rewrite Hh in Hhr.
    assert (Hbind : sql_bind h = h).
    { unfold cadastro_ok in Hok. bool_hyps. rewrite Hh in *.
      match goal with Hr : regex_test horaRegex h = true |- _ =>
        by destruct (regex_test_string horaRegex h (or_intror eq_refl) Hr) as [? [-> _]] end. }
    rewrite Hbind in Hhr.
    assert (occupied (clientes s) d h = true) by (apply occupied_spec; eauto).
    congruence. }
  rewrite post_cadastro_insert by done. simpl.
  intros i j ri rj Hi Hj Hdij Hhij.
  apply in_app_or in Hi as [Hi|[Hi|[]]]; apply in_app_or in Hj as [Hj|[Hj|[]]].
  - by apply (Hnd i j ri rj).
  - invc Hj. exfalso. by apply (Hnew i ri).
  - invc Hi. exfalso. by apply (Hnew j rj).
  - invc Hi. by invc Hj.
Qed.

(** ** Witnesses *)

(** Scenario A of the spec: catalog {09:00:00, 10:00:00}, one booking at
    09:00:00 on 2025-01-10; the free slots of that date are [10:00:00]. *)
Lemma consultar_refines_spec_witness :
  consultarHorariosDisponiveis "2025-01-10" (get_clientes false sample_db)
    (get_gestao false sample_db) [] = [JString "10:00:00"] /\
  consultarHorariosDisponiveis "2025-01-10" (get_clientes true sample_db)
    (get_gestao false sample_db) [] = [].
Proof.
  split.
  - rewrite (proj1 (consultar_refines_spec "2025-01-10" sample_db [] false false
                       ltac:(repeat constructor))).
    reflexivity.
  - rewrite (proj1 (consultar_refines_spec "2025-01-10" sample_db [] true false
                       ltac:(repeat constructor))).
    reflexivity.
Defined.

Lemma disponiveis_partition_witness :
  Permutation (gestao sample_db)
    (horariosDisponiveis (gestao sample_db) [JString "09:00:00"] ++
     List.filter (includes_svz [JString "09:00:00"]) (gestao sample_db)) /\
  (forall h, In h (horariosDisponiveis (gestao sample_db) [JString "09:00:00"]) ->
     ~ In h (List.filter (includes_svz [JString "09:00:00"]) (gestao sample_db))).
Proof. apply disponiveis_partition. Defined.

End Availability.
