(* ===== verification/Calendar.v ===== *)
(** The date arithmetic of the program. Two pieces of code rely on it:
    the candidate dates of the booking screen ([gerarDatasDisponiveis],
    [src/app/(tabs)/cadastrar.tsx] lines 25 to 41) and the archival
    cutoff ([src/api.js] lines 114 to 119). Both run on JavaScript [Date]
    objects. The [Date] operations they call are written after ECMA-262
    (section 21.4.1): a time value is an integer number of milliseconds
    since 1970-01-01T00:00Z, and the local time zone has a fixed offset
    [off] in milliseconds (no daylight saving time). [TimeClip] and
    [NaN] dates are out of range here and not modelled. *)

From S2P Require Import Prelude JsValue.
Import Js.

Local Open Scope Z_scope.

Module Calendar.

(** ** ECMA-262 day and year arithmetic *)

Definition msPerDay : Z := 86400000.

Definition Day (t : Z) : Z := t / msPerDay.
Definition TimeWithinDay (t : Z) : Z := t mod msPerDay.

Definition DaysInYear (y : Z) : Z :=
  if negb (y mod 4 =? 0) then 365
  else if negb (y mod 100 =? 0) then 366
  else if negb (y mod 400 =? 0) then 365
  else 366.

Definition DayFromYear (y : Z) : Z :=
  365 * (y - 1970) + (y - 1969) / 4 - (y - 1901) / 100 + (y - 1601) / 400.

(** [YearFromTime] is the largest [y] with [DayFromYear y <= Day t].
    This computes it from an estimate that is off by at most one year
    ([YearFromDay_spec] proves the bracket). *)
Definition YearFromDay (d : Z) : Z :=
  let y0 := 1970 + (400 * d) / 146097 in
  if DayFromYear (y0 + 1) <=? d then y0 + 1
  else if DayFromYear y0 <=? d then y0
  else y0 - 1.

Definition InLeapYear (y : Z) : Z := if DaysInYear y =? 366 then 1 else 0.

Definition DayWithinYear (d : Z) : Z := d - DayFromYear (YearFromDay d).

(** [MonthFromTime]: the thresholds of ECMA-262 21.4.1.11. *)
Definition MonthFromDay (d : Z) : Z :=
  let dwy := DayWithinYear d in
  let l := InLeapYear (YearFromDay d) in
  if dwy <? 31 then 0
  else if dwy <? 59 + l then 1
  else if dwy <? 90 + l then 2
  else if dwy <? 120 + l then 3
  else if dwy <? 151 + l then 4
  else if dwy <? 181 + l then 5
  else if dwy <? 212 + l then 6
  else if dwy <? 243 + l then 7
  else if dwy <? 273 + l then 8
  else if dwy <? 304 + l then 9
  else if dwy <? 334 + l then 10
  else 11.

(** The day within the year on which month [m] (0 to 11) starts. *)
Definition month_start (m l : Z) : Z :=
  nth (Z.to_nat m) [0; 31; 59; 90; 120; 151; 181; 212; 243; 273; 304; 334] 0
  + (if 2 <=? m then l else 0).

(** [DateFromTime] (ECMA-262 21.4.1.12): one table entry per month, each
    of the form [DayWithinYear + 1 - month_start]. *)
Definition DateFromDay (d : Z) : Z :=
  DayWithinYear d + 1 - month_start (MonthFromDay d) (InLeapYear (YearFromDay d)).

(** [WeekDay]: 1970-01-01 was a Thursday (4). *)
Definition WeekDay (d : Z) : Z := (d + 4) mod 7.

(** [MakeDay(year, month, date)]: the month may overflow into the year,
    the date into the following days. *)
Definition MakeDay (year month date : Z) : Z :=
  let ym := year + month / 12 in
  let mn := month mod 12 in
  DayFromYear ym + month_start mn (InLeapYear ym) + date - 1.

Definition MakeDate (day time : Z) : Z := day * msPerDay + time.

(** ** The [Date] methods the code calls, in a zone of offset [off] *)

Section Methods.
Context (off : Z).

Definition LocalTime (t : Z) : Z := t + off.
Definition UTC (t : Z) : Z := t - off.

Definition getDate (t : Z) : Z := DateFromDay (Day (LocalTime t)).
Definition getMonth (t : Z) : Z := MonthFromDay (Day (LocalTime t)).
Definition getFullYear (t : Z) : Z := YearFromDay (Day (LocalTime t)).
Definition getDay (t : Z) : Z := WeekDay (Day (LocalTime t)).

(** [Date.prototype.setDate(dt)]: the new time value. *)
Definition setDate (t dt : Z) : Z :=
  let lt := LocalTime t in
  UTC (MakeDate (MakeDay (YearFromDay (Day lt)) (MonthFromDay (Day lt)) dt)
                (TimeWithinDay lt)).

End Methods.

(** ** Number and string helpers *)

Definition digit_char (n : Z) : ascii := ascii_of_nat (48 + Z.to_nat n).

(** The decimal digits of [n >= 0], before [acc]. Twenty digits are more
    than any field of a date in range needs. *)
Fixpoint dec_digits (fuel : nat) (n : Z) (acc : list ascii) : list ascii :=
  match fuel with
  | O => acc
  | S f =>
      let acc' := digit_char (n mod 10) :: acc in
      if n <? 10 then acc' else dec_digits f (n / 10) acc'
  end.

(** [String(n)] for an integer-valued number. *)
Definition number_to_string (n : Z) : string :=
  string_of_list_ascii
    (if n <? 0 then "-"%char :: dec_digits 20 (- n) [] else dec_digits 20 n []).

(** [s.padStart(n, c)] with a one-character filler. *)
Definition padStart (n : nat) (c : ascii) (s : string) : string :=
  if (n <=? String.length s)%nat then s
  else (string_of_list_ascii (repeat c (n - String.length s)) ++ s)%string.

(** ** Candidate dates of the booking screen *)

Section Screen.
Context (off : Z).

(** [`${ano}-${mes}-${dia}`] with the two [padStart(2, '0')]. *)
Definition formatarData (t : Z) : string :=
  let dia := padStart 2 "0" (number_to_string (getDate off t)) in
  let mes := padStart 2 "0" (number_to_string (getMonth off t + 1)) in
  let ano := getFullYear off t in
  (number_to_string ano ++ "-" ++ mes ++ "-" ++ dia)%string.

(** The [for] loop, [n] iterations left: move [hoje] one day on; skip
    Sundays (0) and Saturdays (6); push the others. *)
Fixpoint gerar_loop (n : nat) (hoje : Z) (datas : list string) : list string :=
  match n with
  | O => datas
  | S n' =>
      let hoje' := setDate off hoje (getDate off hoje + 1) in
      let diaSemana := getDay off hoje' in
      if (diaSemana =? 0) || (diaSemana =? 6) then gerar_loop n' hoje' datas
      else gerar_loop n' hoje' (datas ++ [formatarData hoje'])
  end.

(** [gerarDatasDisponiveis], started at [agora] ([new Date()]). *)
Definition gerarDatasDisponiveis (agora : Z) : list string :=
  gerar_loop 14 agora [].

End Screen.

(** ** The archival cutoff *)

Definition HourFromTime (t : Z) : Z := (t / 3600000) mod 24.
Definition MinFromTime (t : Z) : Z := (t / 60000) mod 60.
Definition SecFromTime (t : Z) : Z := (t / 1000) mod 60.
Definition msFromTime (t : Z) : Z := t mod 1000.

Definition pad (n : nat) (z : Z) : string := padStart n "0" (number_to_string z).

(** The date part of [toISOString] for a day. Years outside 0 to 9999
    get a sign and six digits. *)
Definition isoDate (d : Z) : string :=
  let y := YearFromDay d in
  let yyyy := if (0 <=? y) && (y <=? 9999) then pad 4 y
              else ((if Z.ltb y 0 then "-" else "+") ++ pad 6 (Z.abs y))%string in
  (yyyy ++ "-" ++ pad 2 (MonthFromDay d + 1) ++ "-" ++ pad 2 (DateFromDay d))%string.

(** [Date.prototype.toISOString]: always in UTC. *)
Definition toISOString (t : Z) : string :=
  (isoDate (Day t) ++ "T" ++ pad 2 (HourFromTime t) ++ ":" ++ pad 2 (MinFromTime t) ++ ":"
   ++ pad 2 (SecFromTime t) ++ "." ++ pad 3 (msFromTime t) ++ "Z")%string.

(** [s.split(sep)[0]]: the text before the first [sep]. *)
Fixpoint before_char (sep : ascii) (s : list ascii) : list ascii :=
  match s with
  | [] => []
  | c :: s' => if bool_decide (c = sep) then [] else c :: before_char sep s'
  end.

Definition split_first (sep : ascii) (s : string) : string :=
  string_of_list_ascii (before_char sep (list_ascii_of_string s)).

(** Lines 114 to 119: [dataAtual = new Date()], a copy moved back two
    days with [setDate(getDate() - 2)], then
    [toISOString().split('T')[0]]. *)
Definition dataFormatadaCorte (off agora : Z) : string :=
  let doisDiasAtras := setDate off agora (getDate off agora - 2) in
  split_first "T" (toISOString doisDiasAtras).

(** ** Specifications *)

(** Saturday or Sunday. *)
Definition fim_de_semana (d : Z) : bool := (WeekDay d =? 0) || (WeekDay d =? 6).

(** The weekdays among the [n] days after the day [d0], in order. *)
Definition proximos_dias_uteis (d0 : Z) (n : nat) : list Z :=
  List.filter (fun d => negb (fim_de_semana d)) (map (fun k => d0 + Z.of_nat k) (seq 1 n)).

(** The text the screen writes for a local day. *)
Definition formatDay (d : Z) : string :=
  (number_to_string (YearFromDay d) ++ "-" ++
   padStart 2 "0" (number_to_string (MonthFromDay d + 1)) ++ "-" ++
   padStart 2 "0" (number_to_string (DateFromDay d)))%string.

(** The day within the year after the last day of month [m]. *)
Definition month_end (m l : Z) : Z :=
  if m =? 11 then 365 + l else month_start (m + 1) l.

(** Sample instants: 2025-01-10T01:00Z and 12:00Z, in the zone of
    Brasilia (UTC-3, [off = -3 h]). *)
Definition brt : Z := -10800000.
Definition jan10_0100Z : Z := 20098 * msPerDay + 3600000.
Definition jan10_1200Z : Z := 20098 * msPerDay + 43200000.

(** ** Arithmetic lemmas *)

Lemma MonthFromDay_range d : 0 <= MonthFromDay d <= 11.
Proof.
  unfold MonthFromDay.
  repeat match goal with |- context [if ?c then _ else _] => destruct c end; lia.
Qed.

(** [setDate(getDate() + k)] moves a date exactly [k] days, keeping the
    time of day (with a fixed offset). *)
Lemma setDate_add_days off t k :
  setDate off t (getDate off t + k) = t + k * msPerDay.
Proof.
  unfold setDate, getDate, MakeDay, MakeDate, UTC, LocalTime, DateFromDay, DayWithinYear.
  pose proof (MonthFromDay_range (Day (t + off))) as Hm.
  rewrite (Z.div_small (MonthFromDay _) 12), (Z.mod_small (MonthFromDay _) 12) by lia.
  rewrite Z.add_0_r. unfold Day, TimeWithinDay, msPerDay.
  pose proof (Z.div_mod (t + off) 86400000). lia.
Qed.

Lemma Day_add_days t k : Day (t + k * msPerDay) = Day t + k.
Proof. unfold Day. apply Z.div_add. unfold msPerDay. lia. Qed.

(** [YearFromDay] is [YearFromTime]: the day lies between the first days
    of its year and of the next, so its year is the largest [y] with
    [DayFromYear y <= d] ([DayFromYear] increases, [DayFromYear_succ]). *)
Lemma YearFromDay_spec d :
  DayFromYear (YearFromDay d) <= d < DayFromYear (YearFromDay d + 1).
Proof.
  assert (Hlo : forall y, 146097 * (y - 1970) - 506 <= 400 * DayFromYear y).
  { intros y. unfold DayFromYear. Z.div_mod_to_equations. lia. }
  assert (Hhi : forall y, 400 * DayFromYear y <= 146097 * (y - 1970) + 589).
  { intros y. unfold DayFromYear. Z.div_mod_to_equations. lia. }
  unfold YearFromDay. set (q := 400 * d / 146097).
  assert (Hq : 146097 * q <= 400 * d < 146097 * q + 146097).
  { unfold q. pose proof (Z.div_mod (400 * d) 146097).
    pose proof (Z.mod_pos_bound (400 * d) 146097). lia. }
  pose proof (Hhi (1970 + q - 1)). pose proof (Hlo (1970 + q + 1 + 1)).
  destruct (DayFromYear (1970 + q + 1) <=? d) eqn:E1;
    [|destruct (DayFromYear (1970 + q) <=? d) eqn:E2];
    rewrite ?Z.leb_le, ?Z.leb_gt in *;
    replace (1970 + q - 1 + 1) with (1970 + q) in * by lia; lia.
Qed.

Lemma DayFromYear_succ y : DayFromYear (y + 1) = DayFromYear y + DaysInYear y.
Proof.
  unfold DayFromYear, DaysInYear.
  destruct (y mod 4 =? 0) eqn:E4; [destruct (y mod 100 =? 0) eqn:E100;
    [destruct (y mod 400 =? 0) eqn:E400|]|]; simpl;
    rewrite ?Z.eqb_eq, ?Z.eqb_neq in *; Z.div_mod_to_equations; lia.
Qed.

(** ** The candidate dates *)

Lemma formatarData_day off t : formatarData off t = formatDay (Day (t + off)).
Proof. reflexivity. Qed.

Lemma seq_shift_Z (d0 : Z) n :
  map (fun k => d0 + Z.of_nat k) (seq 2 n) = map (fun k => (d0 + 1) + Z.of_nat k) (seq 1 n).
Proof.
  rewrite <- seq_shift, map_map. apply map_ext. intros k. lia.
Qed.

Lemma Day_local_next off t : Day (t + 1 * msPerDay + off) = Day (t + off) + 1.
Proof. replace (t + 1 * msPerDay + off) with ((t + off) + 1 * msPerDay) by lia. apply Day_add_days. Qed.

Lemma gerar_loop_spec off n t datas :
  gerar_loop off n t datas =
  datas ++ map formatDay (proximos_dias_uteis (Day (t + off)) n).
Proof.
  revert t datas. induction n as [|n IH]; intros t datas; cbn [gerar_loop].
  - by rewrite app_nil_r.
  - rewrite setDate_add_days. unfold proximos_dias_uteis. cbn [seq map].
    rewrite seq_shift_Z, <- Day_local_next.
    replace (Day (t + 1 * msPerDay + off) - 1 + Z.of_nat 1) with (Day (t + 1 * msPerDay + off)) by lia.
    unfold getDay, LocalTime. cbn [List.filter]. unfold fim_de_semana.
    destruct ((WeekDay (Day (t + 1 * msPerDay + off)) =? 0) || (WeekDay (Day (t + 1 * msPerDay + off)) =? 6));
      cbn [negb]; rewrite IH.
    + f_equal. by rewrite <- Day_local_next.
    + rewrite <- app_assoc, formatarData_day. cbn [map app]. do 3 f_equal.
      by rewrite <- Day_local_next.
Qed.

(** The weekday test over consecutive days depends on the first day only
    modulo 7. *)
Lemma proximos_dias_uteis_mod7 d0 n :
  length (proximos_dias_uteis d0 n) = length (proximos_dias_uteis (d0 mod 7) n).
Proof.
  unfold proximos_dias_uteis. rewrite !filter_map_swap_len.
  f_equal. apply filter_ext. intros k. unfold fim_de_semana, WeekDay.
  replace ((d0 + Z.of_nat k + 4) mod 7) with ((d0 mod 7 + Z.of_nat k + 4) mod 7); [done|].
  Z.div_mod_to_equations. lia.
Qed.

Lemma consecutive_sorted (d0 : Z) a n :
  StronglySorted Z.lt (map (fun k => d0 + Z.of_nat k) (seq a n)).
Proof.
  revert a. induction n as [|n IH]; intros a; simpl; constructor; [apply IH|].
  apply List.Forall_forall. intros x Hx. apply in_map_iff in Hx as [k [<- Hk]].
  apply in_seq in Hk. lia.
Qed.

Lemma proximos_dias_uteis_length d0 : length (proximos_dias_uteis d0 14) = 10%nat.
Proof.
  rewrite proximos_dias_uteis_mod7.
  assert (Hr : 0 <= d0 mod 7 < 7) by (apply Z.mod_pos_bound; lia).
  assert (d0 mod 7 = 0 \/ d0 mod 7 = 1 \/ d0 mod 7 = 2 \/ d0 mod 7 = 3 \/
          d0 mod 7 = 4 \/ d0 mod 7 = 5 \/ d0 mod 7 = 6) as Hc by lia.
  repeat destruct Hc as [Hc|Hc]; rewrite Hc; reflexivity.
Qed.

Lemma In_proximos_dias_uteis d0 n d :
  In d (proximos_dias_uteis d0 n) <->
  (exists k, (1 <= k <= n)%nat /\ d = d0 + Z.of_nat k) /\ 1 <= WeekDay d <= 5.
Proof.
  unfold proximos_dias_uteis, fim_de_semana. rewrite filter_In, in_map_iff.
  assert (Hw : 0 <= WeekDay d < 7) by (apply Z.mod_pos_bound; lia).
  rewrite negb_true_iff, orb_false_iff, !Z.eqb_neq. split.
  - intros [[k [<- Hk]] Hwd]. apply in_seq in Hk. split; [exists k; split; [lia|done]|].
    pose proof (Z.mod_pos_bound (d0 + Z.of_nat k + 4) 7). unfold WeekDay in *. lia.
  - intros [[k [Hk ->]] Hwd]. split; [exists k; split; [done|apply in_seq; lia]|lia].
Qed.

(** ** Properties of the candidate dates *)

(** The date loop as a filter of the next fourteen days. *)
Lemma gerar_loop_weekdays off t :
  gerarDatasDisponiveis off t = map formatDay (proximos_dias_uteis (Day (t + off)) 14).
Proof. unfold gerarDatasDisponiveis. by rewrite gerar_loop_spec. Qed.

(** C36. Whatever the day and the time zone, the screen offers exactly
    ten dates: the formatted days are strictly increasing, all after
    today and at most fourteen days ahead, and all Monday to Friday. The
    spec says the walk goes on until a requested number of dates is
    collected; the code walks fourteen calendar days. *)
Theorem gerar_ten_weekdays off t :
  let ds := proximos_dias_uteis (Day (t + off)) 14 in
  gerarDatasDisponiveis off t = map formatDay ds /\
  length (gerarDatasDisponiveis off t) = 10%nat /\
  StronglySorted Z.lt ds /\
  Forall (fun d => Day (t + off) < d <= Day (t + off) + 14 /\ 1 <= WeekDay d <= 5) ds.
Proof.
  cbv zeta. rewrite gerar_loop_weekdays. split; [done|]. split.
  { by rewrite length_map, proximos_dias_uteis_length. }
  split.
  - unfold proximos_dias_uteis. apply StronglySorted_filter, consecutive_sorted.
  - apply List.Forall_forall. intros d Hd. apply In_proximos_dias_uteis in Hd as [[k [Hk ->]] Hw].
    split; [lia|done].
Qed.

(** ** The archival cutoff *)

Lemma digit_char_digit n : is_digit (digit_char (n mod 10)) = true.
Proof.
  apply is_digit_spec. unfold digit_char. pose proof (Z.mod_pos_bound n 10).
  rewrite nat_ascii_embedding; lia.
Qed.

Lemma dec_digits_digits f n acc :
  Forall (fun c => is_digit c = true) acc ->
  Forall (fun c => is_digit c = true) (dec_digits f n acc).
Proof.
  revert n acc. induction f as [|f IH]; intros n acc Hacc; simpl; [done|].
  assert (Forall (fun c => is_digit c = true) (digit_char (n mod 10) :: acc))
    by (constructor; [apply digit_char_digit|done]).
  destruct (n <? 10); [done|]. by apply IH.
Qed.

(** A character that is a digit, a sign or the [padStart] filler. *)
Definition number_char (c : ascii) : Prop :=
  is_digit c = true \/ c = "-"%char \/ c = "+"%char.

Lemma pad_chars n z : Forall number_char (list_ascii_of_string (pad n z)).
Proof.
  assert (Hn : Forall number_char (list_ascii_of_string (number_to_string z))).
  { unfold number_to_string. rewrite list_ascii_of_string_of_list_ascii.
    assert (Forall number_char (dec_digits 20 (if z <? 0 then - z else z) [])).
    { eapply List.Forall_impl; [|apply dec_digits_digits; constructor].
      intros c Hc. by left. }
    destruct (z <? 0); [constructor; [by right; left|]|]; done. }
  unfold pad, padStart. destruct (_ <=? _)%nat; [done|].
  rewrite list_ascii_of_string_app, list_ascii_of_string_of_list_ascii.
  apply List.Forall_app; split; [|done].
  apply List.Forall_forall. intros c Hc. apply repeat_spec in Hc as ->. by left.
Qed.

Lemma number_char_not_T c : number_char c -> c <> "T"%char.
Proof.
  intros [H|[->| ->]]; [|discriminate|discriminate]. intros ->. discriminate H.
Qed.

Lemma isoDate_no_T d : Forall (fun c => c <> "T"%char) (list_ascii_of_string (isoDate d)).
Proof.
  unfold isoDate. rewrite !list_ascii_of_string_app.
  assert (Hp : forall n z, Forall (fun c => c <> "T"%char) (list_ascii_of_string (pad n z))).
  { intros n z. eapply List.Forall_impl; [apply number_char_not_T|apply pad_chars]. }
  repeat (apply List.Forall_app; split); try apply Hp;
    try (repeat constructor; discriminate).
  destruct (_ && _); [apply Hp|]. rewrite list_ascii_of_string_app.
  apply List.Forall_app; split; [|apply Hp].
  destruct (Z.ltb _ 0); repeat constructor; discriminate.
Qed.

Lemma before_char_app sep l1 l2 :
  Forall (fun c => c <> sep) l1 -> before_char sep (l1 ++ sep :: l2) = l1.
Proof.
  induction 1 as [|c l1 Hc _ IH]; simpl.
  - by rewrite bool_decide_eq_true_2.
  - rewrite bool_decide_eq_false_2 by done. by rewrite IH.
Qed.

Lemma split_toISOString t : split_first "T" (toISOString t) = isoDate (Day t).
Proof.
  unfold split_first, toISOString. rewrite list_ascii_of_string_app. simpl.
  rewrite before_char_app by apply isoDate_no_T.
  apply string_of_list_ascii_of_string.
Qed.

(** The cutoff as a UTC date. *)
Lemma dataFormatadaCorte_utc off t :
  dataFormatadaCorte off t = isoDate (Day t - 2).
Proof.
  unfold dataFormatadaCorte.
  replace (getDate off t - 2) with (getDate off t + -2) by lia.
  rewrite setDate_add_days, split_toISOString, Day_add_days. done.
Qed.

(** West of UTC, late in the local evening (when the UTC date is
    already the next day), the cutoff is the local date minus one day,
    not minus two: the retention window is one day shorter. *)
Theorem cutoff_local_evening off t :
  - msPerDay < off < 0 -> TimeWithinDay t < - off ->
  dataFormatadaCorte off t = isoDate (Day (LocalTime off t) - 1).
Proof.
  intros Hoff Ht. rewrite dataFormatadaCorte_utc. f_equal.
  unfold LocalTime, Day, TimeWithinDay, msPerDay in *.
  pose proof (Z.div_mod t 86400000). pose proof (Z.mod_pos_bound t 86400000).
  assert ((t + off) / 86400000 = t / 86400000 - 1); [|lia].
  symmetry. apply Z.div_unique with (r := t mod 86400000 + off + 86400000); lia.
Qed.

(** ** Ranges of the date fields *)

Lemma InLeapYear_DaysInYear y : DaysInYear y = 365 + InLeapYear y /\ 0 <= InLeapYear y <= 1.
Proof.
  unfold InLeapYear, DaysInYear.
  destruct (y mod 4 =? 0), (y mod 100 =? 0), (y mod 400 =? 0); simpl; lia.
Qed.

Lemma DayWithinYear_range d : 0 <= DayWithinYear d < 365 + InLeapYear (YearFromDay d).
Proof.
  pose proof (YearFromDay_spec d) as Hs. rewrite DayFromYear_succ in Hs.
  pose proof (InLeapYear_DaysInYear (YearFromDay d)) as [Hd _].
  unfold DayWithinYear. lia.
Qed.

Lemma DateFromDay_range d : 1 <= DateFromDay d <= 31.
Proof.
  pose proof (DayWithinYear_range d) as Hr.
  pose proof (InLeapYear_DaysInYear (YearFromDay d)) as [_ Hl].
  unfold DateFromDay, MonthFromDay. cbv zeta.
  set (w := DayWithinYear d) in *. set (l := InLeapYear (YearFromDay d)) in *.
  repeat match goal with |- context [if ?c then _ else _] => destruct c eqn:? end;
    rewrite ?Z.ltb_lt, ?Z.ltb_ge in *; unfold month_start; simpl; lia.
Qed.

Lemma DayFromYear_mono y1 y2 : y1 <= y2 -> DayFromYear y1 <= DayFromYear y2.
Proof. unfold DayFromYear. Z.div_mod_to_equations. lia. Qed.

Lemma YearFromDay_mono d1 d2 : d1 <= d2 -> YearFromDay d1 <= YearFromDay d2.
Proof.
  intros Hd. pose proof (YearFromDay_spec d1). pose proof (YearFromDay_spec d2).
  destruct (Z.le_gt_cases (YearFromDay d1) (YearFromDay d2)) as [|Hlt]; [done|].
  pose proof (DayFromYear_mono (YearFromDay d2 + 1) (YearFromDay d1)). lia.
Qed.

(** ** Digits *)

Lemma dec_digits_1 n : 0 <= n < 10 -> dec_digits 20 n [] = [digit_char n].
Proof.
  intros Hn. cbn [dec_digits]. rewrite (proj2 (Z.ltb_lt n 10)) by lia.
  by rewrite Z.mod_small.
Qed.

Lemma dec_digits_2 n :
  10 <= n < 100 -> dec_digits 20 n [] = [digit_char (n / 10); digit_char (n mod 10)].
Proof.
  intros Hn. cbn [dec_digits]. rewrite (proj2 (Z.ltb_ge n 10)) by lia.
  assert (0 <= n / 10 < 10) by (split; [apply Z.div_pos|apply Z.div_lt_upper_bound]; lia).
  rewrite (proj2 (Z.ltb_lt (n / 10) 10)) by lia. by rewrite (Z.mod_small (n / 10)).
Qed.

Lemma dec_digits_4 n :
  1000 <= n < 10000 ->
  exists a b c e, dec_digits 20 n [] = [a; b; c; e] /\
    Forall (fun x => is_digit x = true) [a; b; c; e].
Proof.
  intros Hn. cbn [dec_digits].
  assert (H1 : 100 <= n / 10 < 1000) by (split; [apply Z.div_le_lower_bound|apply Z.div_lt_upper_bound]; lia).
  assert (H2 : 10 <= n / 10 / 10 < 100) by (split; [apply Z.div_le_lower_bound|apply Z.div_lt_upper_bound]; lia).
  assert (H3 : 1 <= n / 10 / 10 / 10 < 10) by (split; [apply Z.div_le_lower_bound|apply Z.div_lt_upper_bound]; lia).
  rewrite (proj2 (Z.ltb_ge n 10)), (proj2 (Z.ltb_ge (n / 10) 10)),
    (proj2 (Z.ltb_ge (n / 10 / 10) 10)), (proj2 (Z.ltb_lt (n / 10 / 10 / 10) 10)) by lia.
  do 4 eexists. split; [reflexivity|]. repeat constructor; apply digit_char_digit.
Qed.

Lemma digit_char_small n : 0 <= n < 10 -> is_digit (digit_char n) = true.
Proof. intros Hn. rewrite <- (Z.mod_small n 10) by lia. apply digit_char_digit. Qed.

(** [padStart(2, '0')] of a number from 1 to 99 is two digits. *)
Lemma pad2_digits n :
  1 <= n < 100 ->
  exists a b, list_ascii_of_string (padStart 2 "0" (number_to_string n)) = [a; b] /\
    is_digit a = true /\ is_digit b = true.
Proof.
  intros Hn. unfold number_to_string. rewrite (proj2 (Z.ltb_ge n 0)) by lia.
  destruct (Z.lt_ge_cases n 10).
  - rewrite dec_digits_1 by lia. exists "0"%char, (digit_char n).
    split; [reflexivity|]. split; [reflexivity|]. apply digit_char_small. lia.
  - rewrite dec_digits_2 by lia. exists (digit_char (n / 10)), (digit_char (n mod 10)).
    split; [reflexivity|]. split; [|apply digit_char_digit].
    apply digit_char_small. split; [apply Z.div_pos|apply Z.div_lt_upper_bound]; lia.
Qed.

Lemma formatDay_regex d :
  1000 <= YearFromDay d <= 9999 ->
  match_exact dataRegex (list_ascii_of_string (formatDay d)) = true.
Proof.
  intros Hy. unfold formatDay. rewrite !list_ascii_of_string_app.
  unfold number_to_string at 1. rewrite (proj2 (Z.ltb_ge _ 0)) by lia.
  rewrite list_ascii_of_string_of_list_ascii.
  destruct (dec_digits_4 (YearFromDay d)) as (a & b & c & e & -> & Hy4); [lia|].
  pose proof (MonthFromDay_range d). pose proof (DateFromDay_range d).
  destruct (pad2_digits (MonthFromDay d + 1)) as (m1 & m2 & -> & Hm1 & Hm2); [lia|].
  destruct (pad2_digits (DateFromDay d)) as (d1 & d2 & -> & Hd1 & Hd2); [lia|].
  apply dataRegex_shape. exists a, b, c, e, m1, m2, d1, d2. split; [|reflexivity].
  repeat (match goal with H : Forall _ (_ :: _) |- _ => invc H end).
  by repeat constructor.
Qed.

(** [padStart(4, '0')] leaves a four-digit year as it is. *)
Lemma padStart_year y : 1000 <= y <= 9999 -> padStart 4 "0" (number_to_string y) = number_to_string y.
Proof.
  intros Hy. unfold padStart, number_to_string. rewrite (proj2 (Z.ltb_ge y 0)) by lia.
  destruct (dec_digits_4 y) as (a & b & c & e & -> & _); [lia|]. reflexivity.
Qed.

(** In years 1000 to 9999 the date part of [toISOString] is the text the
    booking screen writes. *)
Lemma isoDate_formatDay d : 1000 <= YearFromDay d <= 9999 -> isoDate d = formatDay d.
Proof.
  intros Hy. unfold isoDate, formatDay. cbv zeta.
  replace ((0 <=? YearFromDay d) && (YearFromDay d <=? 9999)) with true
    by (symmetry; apply andb_true_iff; split; apply Z.leb_le; lia).
  unfold pad. by rewrite padStart_year.
Qed.

(** C35. The archival cutoff is the UTC calendar date two days before
    now, whatever the time zone: [toISOString] converts back to UTC after
    the local [setDate]. In years 1000 to 9999 it is written as the
    booking screen writes dates, so [data <= ?] compares texts of the
    same shape. West of UTC, late in the local evening (when the UTC
    date is already the next day), it is therefore the local date minus
    one day, not minus two. *)
Theorem cutoff_is_utc_date off t :
  dataFormatadaCorte off t = isoDate (Day t - 2) /\
  (1000 <= YearFromDay (Day t - 2) <= 9999 -> dataFormatadaCorte off t = formatDay (Day t - 2)) /\
  (- msPerDay < off < 0 -> TimeWithinDay t < - off ->
   dataFormatadaCorte off t = isoDate (Day (LocalTime off t) - 1)).
Proof.
  split; [|split]; [by rewrite dataFormatadaCorte_utc| |apply cutoff_local_evening].
  rewrite dataFormatadaCorte_utc. apply isoDate_formatDay.
Qed.

(** C37. In years 1000 to 9999, every date the booking screen offers
    passes the server's [dataRegex.test] in [POST /api/cadastro]. *)
Theorem gerar_dates_pass_dataRegex off t :
  1000 <= YearFromDay (Day (t + off)) -> YearFromDay (Day (t + off) + 14) <= 9999 ->
  Forall (fun s => regex_test dataRegex (JString s) = true) (gerarDatasDisponiveis off t).
Proof.
  intros Hlo Hhi. rewrite gerar_loop_weekdays. apply List.Forall_map, List.Forall_forall.
  intros d Hd. apply In_proximos_dias_uteis in Hd as [[k [Hk ->]] _].
  apply formatDay_regex. split.
  - etransitivity; [exact Hlo|]. apply YearFromDay_mono. lia.
  - etransitivity; [|exact Hhi]. apply YearFromDay_mono. lia.
Qed.

(** ** Round trip between day numbers and calendar dates *)

Lemma YearFromDay_unique d y :
  DayFromYear y <= d < DayFromYear (y + 1) -> YearFromDay d = y.
Proof.
  intros Hy. pose proof (YearFromDay_spec d).
  destruct (Z.lt_trichotomy (YearFromDay d) y) as [Hlt|[Heq|Hgt]]; [|done|].
  - pose proof (DayFromYear_mono (YearFromDay d + 1) y). lia.
  - pose proof (DayFromYear_mono (y + 1) (YearFromDay d)). lia.
Qed.

(** Decoding a day number built by [MakeDay] from a valid calendar
    date gives that date back: [YearFromTime], [MonthFromTime] and
    [DateFromTime] invert [MakeDay] on the days of each month. *)
Theorem make_day_roundtrip y m dt :
  0 <= m <= 11 -> 1 <= dt ->
  month_start m (InLeapYear y) + dt - 1 < month_end m (InLeapYear y) ->
  YearFromDay (MakeDay y m dt) = y /\ MonthFromDay (MakeDay y m dt) = m /\
  DateFromDay (MakeDay y m dt) = dt.
Proof.
  intros Hm Hdt Hend.
  pose proof (InLeapYear_DaysInYear y) as [Hdays Hl].
  unfold MakeDay. rewrite Z.div_small, Z.mod_small, Z.add_0_r by lia.
  set (l := InLeapYear y) in *.
  assert (Hrange : 0 <= month_start m l /\ month_end m l <= 365 + l).
  { assert (m = 0 \/ m = 1 \/ m = 2 \/ m = 3 \/ m = 4 \/ m = 5 \/ m = 6 \/
            m = 7 \/ m = 8 \/ m = 9 \/ m = 10 \/ m = 11) as Hc by lia.
    repeat destruct Hc as [Hc|Hc]; subst m; unfold month_end, month_start; simpl; lia. }
  assert (Hy : YearFromDay (DayFromYear y + month_start m l + dt - 1) = y).
  { apply YearFromDay_unique. rewrite DayFromYear_succ. lia. }
  assert (Hw : DayWithinYear (DayFromYear y + month_start m l + dt - 1) = month_start m l + dt - 1).
  { unfold DayWithinYear. rewrite Hy. lia. }
  assert (Hmo : MonthFromDay (DayFromYear y + month_start m l + dt - 1) = m).
  { unfold MonthFromDay. rewrite Hw, Hy. fold l.
    assert (m = 0 \/ m = 1 \/ m = 2 \/ m = 3 \/ m = 4 \/ m = 5 \/ m = 6 \/
            m = 7 \/ m = 8 \/ m = 9 \/ m = 10 \/ m = 11) as Hc by lia.
    repeat destruct Hc as [Hc|Hc]; subst m; unfold month_end, month_start in *; simpl in *;
      repeat match goal with |- context [if ?c then _ else _] => destruct c eqn:? end;
      rewrite ?Z.ltb_lt, ?Z.ltb_ge in *; lia. }
  split; [done|]. split; [done|].
  unfold DateFromDay. rewrite Hmo, Hy, Hw. fold l. lia.
Qed.

(** The other direction: a day is rebuilt from its year, month and
    date. *)
Lemma day_roundtrip d : MakeDay (YearFromDay d) (MonthFromDay d) (DateFromDay d) = d.
Proof.
  pose proof (MonthFromDay_range d).
  unfold MakeDay, DateFromDay, DayWithinYear.
  rewrite Z.div_small, Z.mod_small, Z.add_0_r by lia. lia.
Qed.

(** ** Witnesses *)

(** At 22:00 on 2025-01-09 in Brasilia the cutoff is 2025-01-08, one day
    before the local date. *)
Lemma cutoff_is_utc_date_witness :
  dataFormatadaCorte brt jan10_1200Z = formatDay (Day jan10_1200Z - 2) /\
  formatDay (Day jan10_1200Z - 2) = "2025-01-08"%string /\
  dataFormatadaCorte brt jan10_0100Z = isoDate (Day (LocalTime brt jan10_0100Z) - 1) /\
  isoDate (Day (LocalTime brt jan10_0100Z) - 1) = "2025-01-08"%string /\
  isoDate (Day (LocalTime brt jan10_0100Z) - 2) = "2025-01-07"%string.
Proof.
  split; [apply (proj1 (proj2 (cutoff_is_utc_date brt jan10_1200Z))); vm_compute; split; discriminate|].
  split; [reflexivity|].
  split; [apply (proj2 (proj2 (cutoff_is_utc_date brt jan10_0100Z)));
          [unfold brt, msPerDay; lia|vm_compute; reflexivity]|].
  split; reflexivity.
Defined.

Lemma gerar_dates_pass_dataRegex_witness :
  Forall (fun s => regex_test dataRegex (JString s) = true) (gerarDatasDisponiveis brt jan10_1200Z).
Proof.
  apply gerar_dates_pass_dataRegex; apply Z.leb_le; vm_compute; reflexivity.
Defined.

(** 29 February 2024 decodes back to itself. *)
Lemma make_day_roundtrip_witness :
  YearFromDay (MakeDay 2024 1 29) = 2024 /\ MonthFromDay (MakeDay 2024 1 29) = 1 /\
  DateFromDay (MakeDay 2024 1 29) = 29.
Proof.
  apply make_day_roundtrip; [lia|lia|vm_compute; reflexivity].
Defined.

End Calendar.
