(* ===== verification/Datas.v ===== *)
(** Dates as the program writes them, [YYYY-MM-DD], compared as texts.
    The archival run selects [data <= ?] with SQLite's BINARY collation,
    a bytewise comparison of the two texts ([String.compare]). For
    years 1000 to 9999 the texts have fixed width, so the bytewise order
    is the order of the days they name: this file proves it, from the
    digits of each field to the day numbers of [Calendar]. *)

From S2P Require Import Prelude JsValue Calendar.
Import Js Calendar.

Local Open Scope Z_scope.

Module Datas.

(** The [k] last decimal digits of [n], most significant first. *)
Fixpoint digitos (k : nat) (n : Z) : list ascii :=
  match k with
  | O => []
  | S k' => digitos k' (n / 10) ++ [digit_char (n mod 10)]
  end.

(** A day as the number [YYYYMMDD]. *)
Definition chave (d : Z) : Z :=
  YearFromDay d * 10000 + (MonthFromDay d + 1) * 100 + DateFromDay d.

(** ** Bytewise comparison of texts *)

Lemma length_digitos k n : length (digitos k n) = k.
Proof. revert n. induction k as [|k IH]; intros n; [done|]. cbn [digitos]. rewrite length_app, IH. simpl. lia. Qed.

(** Two texts that start with parts of the same length compare first by
    those parts, then by the rest. *)
Lemma compare_app (l1 l2 r1 r2 : list ascii) :
  length l1 = length l2 ->
  String.compare (string_of_list_ascii (l1 ++ r1)) (string_of_list_ascii (l2 ++ r2)) =
  match String.compare (string_of_list_ascii l1) (string_of_list_ascii l2) with
  | Eq => String.compare (string_of_list_ascii r1) (string_of_list_ascii r2)
  | c => c
  end.
Proof.
  revert l2. induction l1 as [|c1 l1 IH]; intros [|c2 l2] Hl; try discriminate Hl; [done|].
  cbn [app string_of_list_ascii String.compare]. injection Hl as Hl.
  destruct (Ascii.compare c1 c2); [by apply IH|done|done].
Qed.

(** The digits compare as their values. *)
Lemma compare_digit_char x y :
  0 <= x < 10 -> 0 <= y < 10 -> Ascii.compare (digit_char x) (digit_char y) = Z.compare x y.
Proof.
  intros Hx Hy.
  assert (x = 0 \/ x = 1 \/ x = 2 \/ x = 3 \/ x = 4 \/ x = 5 \/ x = 6 \/ x = 7 \/ x = 8 \/ x = 9)
    as Hcx by lia.
  assert (y = 0 \/ y = 1 \/ y = 2 \/ y = 3 \/ y = 4 \/ y = 5 \/ y = 6 \/ y = 7 \/ y = 8 \/ y = 9)
    as Hcy by lia.
  repeat destruct Hcx as [->|Hcx]; repeat destruct Hcy as [->|Hcy]; subst; reflexivity.
Qed.

(** Fixed-width digits compare as the numbers they write. *)
Lemma compare_digitos k a b :
  0 <= a < 10 ^ Z.of_nat k -> 0 <= b < 10 ^ Z.of_nat k ->
  String.compare (string_of_list_ascii (digitos k a)) (string_of_list_ascii (digitos k b)) =
  Z.compare a b.
Proof.
  revert a b. induction k as [|k IH]; intros a b Ha Hb.
  - simpl in Ha, Hb. by replace a with 0 by lia; replace b with 0 by lia.
  - rewrite Nat2Z.inj_succ, Z.pow_succ_r in Ha, Hb by lia. cbn [digitos].
    rewrite compare_app by (by rewrite !length_digitos). cbn [string_of_list_ascii String.compare].
    pose proof (Z.mod_pos_bound a 10) as Hma. pose proof (Z.mod_pos_bound b 10) as Hmb.
    rewrite IH by (split; [apply Z.div_pos|apply Z.div_lt_upper_bound]; lia).
    rewrite compare_digit_char by lia.
    rewrite (Z.div_mod a 10) at 3 by lia. rewrite (Z.div_mod b 10) at 3 by lia.
    destruct (Z.compare_spec (a / 10) (b / 10)) as [He|Hl|Hg].
    + rewrite He. destruct (Z.compare_spec (a mod 10) (b mod 10)); symmetry;
        [apply Z.compare_eq_iff|apply Z.compare_lt_iff|apply Z.compare_gt_iff]; lia.
    + symmetry. apply Z.compare_lt_iff. lia.
    + symmetry. apply Z.compare_gt_iff. lia.
Qed.

(** ** The text of a day *)

Lemma string_of_list_ascii_app (l1 l2 : list ascii) :
  string_of_list_ascii (l1 ++ l2) = (string_of_list_ascii l1 ++ string_of_list_ascii l2)%string.
Proof. induction l1 as [|c l1 IH]; simpl; [done|]. by rewrite IH. Qed.

Lemma dec_digits_digitos4 n : 1000 <= n < 10000 -> dec_digits 20 n [] = digitos 4 n.
Proof.
  intros Hn. cbn [dec_digits].
  assert (100 <= n / 10 < 1000) by (split; [apply Z.div_le_lower_bound|apply Z.div_lt_upper_bound]; lia).
  assert (10 <= n / 10 / 10 < 100) by (split; [apply Z.div_le_lower_bound|apply Z.div_lt_upper_bound]; lia).
  assert (1 <= n / 10 / 10 / 10 < 10) by (split; [apply Z.div_le_lower_bound|apply Z.div_lt_upper_bound]; lia).
  by rewrite (proj2 (Z.ltb_ge n 10)), (proj2 (Z.ltb_ge (n / 10) 10)),
    (proj2 (Z.ltb_ge (n / 10 / 10) 10)), (proj2 (Z.ltb_lt (n / 10 / 10 / 10) 10)) by lia.
Qed.

(** [padStart(2, '0')] of a number from 1 to 99 is its two last digits. *)
Lemma pad2_digitos n :
  1 <= n < 100 -> padStart 2 "0" (number_to_string n) = string_of_list_ascii (digitos 2 n).
Proof.
  intros Hn. unfold number_to_string. rewrite (proj2 (Z.ltb_ge n 0)) by lia. cbn [digitos app].
  destruct (Z.lt_ge_cases n 10).
  - rewrite dec_digits_1 by lia. rewrite Z.div_small, Zmod_0_l, (Z.mod_small n) by lia. reflexivity.
  - rewrite dec_digits_2 by lia.
    assert (0 <= n / 10 < 10) by (split; [apply Z.div_pos|apply Z.div_lt_upper_bound]; lia).
    rewrite (Z.mod_small (n / 10)) by lia. reflexivity.
Qed.

Lemma formatDay_digitos d :
  1000 <= YearFromDay d <= 9999 ->
  formatDay d = string_of_list_ascii
    (digitos 4 (YearFromDay d) ++ "-"%char :: digitos 2 (MonthFromDay d + 1) ++
     "-"%char :: digitos 2 (DateFromDay d)).
Proof.
  intros Hy. pose proof (MonthFromDay_range d). pose proof (DateFromDay_range d).
  unfold formatDay. rewrite !pad2_digitos by lia.
  unfold number_to_string at 1. rewrite (proj2 (Z.ltb_ge _ 0)), dec_digits_digitos4 by lia.
  rewrite !string_of_list_ascii_app. reflexivity.
Qed.

(** Two texts of days compare as their [YYYYMMDD] numbers. *)
Lemma formatDay_compare d1 d2 :
  1000 <= YearFromDay d1 <= 9999 -> 1000 <= YearFromDay d2 <= 9999 ->
  String.compare (formatDay d1) (formatDay d2) = Z.compare (chave d1) (chave d2).
Proof.
  intros Hy1 Hy2. rewrite !formatDay_digitos by done.
  pose proof (MonthFromDay_range d1). pose proof (DateFromDay_range d1).
  pose proof (MonthFromDay_range d2). pose proof (DateFromDay_range d2).
  rewrite compare_app by (by rewrite !length_digitos). rewrite compare_digitos by (cbn; lia).
  cbn [string_of_list_ascii String.compare Ascii.compare N_of_ascii N_of_digits N.compare Pos.compare
       Pos.compare_cont].
  rewrite compare_app by (by rewrite !length_digitos). rewrite compare_digitos by (cbn; lia).
  cbn [string_of_list_ascii String.compare Ascii.compare N_of_ascii N_of_digits N.compare Pos.compare
       Pos.compare_cont].
  rewrite compare_digitos by (cbn; lia). unfold chave.
  destruct (Z.compare_spec (YearFromDay d1) (YearFromDay d2));
    [destruct (Z.compare_spec (MonthFromDay d1 + 1) (MonthFromDay d2 + 1));
     [destruct (Z.compare_spec (DateFromDay d1) (DateFromDay d2))|..]|..]; symmetry;
    first [apply Z.compare_eq_iff|apply Z.compare_lt_iff|apply Z.compare_gt_iff]; lia.
Qed.

(** Within a year, the month never goes back. *)
Lemma MonthFromDay_mono d1 d2 :
  d1 <= d2 -> YearFromDay d1 = YearFromDay d2 -> MonthFromDay d1 <= MonthFromDay d2.
Proof.
  intros Hd Hy. unfold MonthFromDay, DayWithinYear. rewrite Hy.
  set (l := InLeapYear (YearFromDay d2)). set (y0 := DayFromYear (YearFromDay d2)).
  repeat match goal with |- context [if ?c then _ else _] => destruct c eqn:? end;
    rewrite ?Z.ltb_lt, ?Z.ltb_ge in *; lia.
Qed.

(** A later day has a larger [YYYYMMDD] number. *)
Lemma chave_mono d1 d2 : d1 < d2 -> chave d1 < chave d2.
Proof.
  intros Hd. unfold chave.
  pose proof (YearFromDay_mono d1 d2 ltac:(lia)) as Hy.
  pose proof (MonthFromDay_range d1). pose proof (DateFromDay_range d1).
  pose proof (MonthFromDay_range d2). pose proof (DateFromDay_range d2).
  destruct (Z.eq_dec (YearFromDay d1) (YearFromDay d2)) as [He|Hne]; [|nia].
  pose proof (MonthFromDay_mono d1 d2 ltac:(lia) He) as Hm.
  destruct (Z.eq_dec (MonthFromDay d1) (MonthFromDay d2)) as [Hme|Hmne]; [|nia].
  enough (DateFromDay d1 < DateFromDay d2) by nia.
  unfold DateFromDay, DayWithinYear. rewrite Hme, He. lia.
Qed.

(** The text of a later day is bytewise greater, in years 1000 to 9999. *)
Lemma formatDay_gt d1 d2 :
  d1 < d2 -> 1000 <= YearFromDay d1 -> YearFromDay d2 <= 9999 ->
  String.compare (formatDay d2) (formatDay d1) = Gt.
Proof.
  intros Hd Hlo Hhi. pose proof (YearFromDay_mono d1 d2 ltac:(lia)).
  rewrite formatDay_compare by lia. apply Z.compare_gt_iff, chave_mono, Hd.
Qed.

(** ** The booking screen's dates against the archival cutoff *)

(** A date the booking screen offers, mounted at [tf] in the zone
    [offC], is after the cutoff of a run at [tr] on a server in any zone,
    when the run comes at most two days after the screen's day. *)
Lemma candidatos_apos_corte offS offC tf tr d :
  Day tr <= Day (tf + offC) + 2 ->
  1000 <= YearFromDay (Day tr - 2) -> YearFromDay (Day (tf + offC) + 14) <= 9999 ->
  In d (gerarDatasDisponiveis offC tf) -> String.compare d (dataFormatadaCorte offS tr) = Gt.
Proof.
  intros Hday Hlo Hhi Hd. rewrite gerar_loop_weekdays, in_map_iff in Hd.
  destruct Hd as [x [<- Hx]]. apply In_proximos_dias_uteis in Hx as [[k [Hk ->]] _].
  assert (Hyx : YearFromDay (Day (tf + offC) + Z.of_nat k) <= 9999)
    by (etransitivity; [apply YearFromDay_mono|exact Hhi]; lia).
  rewrite dataFormatadaCorte_utc, isoDate_formatDay.
  - apply formatDay_gt; [lia|done|done].
  - split; [done|]. etransitivity; [apply YearFromDay_mono|exact Hyx]. lia.
Qed.

End Datas.
