(* ===== verification/Archival.v ===== *)
(** The archival job [arquivarAgendamentosConcluidos] of [src/api.js]
    (lines 112 to 158). One run selects the active appointments whose
    [data] is at most the cutoff. For each one, in the order of the
    selection, it INSERTs a copy into [concluidos]. Only when that copy
    succeeds does it DELETE the row from [clientes] by its id. A failure
    of either statement is logged and the next record goes on. The
    candidates are a snapshot taken by the SELECT.

    The storage outcome of every statement is an input ([faults]), and
    so are the cutoff string and the timestamps: each INSERT evaluates
    its own [new Date().toISOString()], so [agora i] is the text it
    gives for the candidate of rowid [i]. [Calendar] computes the
    cutoff. *)

From S2P Require Import Prelude JsValue Store Server Availability Calendar Datas.
Import Js Store Server.

Module Archival.

(** Which statements of a run fail: the SELECT, and the INSERT and the
    DELETE of the candidate with a given rowid. *)
Record faults := mkFaults {
  f_select : bool;
  f_insert : nat -> bool;
  f_delete : nat -> bool
}.

Definition no_faults : faults := mkFaults false (fun _ => false) (fun _ => false).

Definition set_concluidos (t : table concluido) (s : db) : db :=
  mkDb (gestao s) (servicos s) (clientes s) t.

(** The row [INSERT INTO concluidos (...) VALUES (?, ?, ?, ?, ?, ?)]
    writes: the candidate's five columns, then the timestamp. *)
Definition to_concluido (agora : string) (r : cliente) : concluido :=
  mkConcluido (nome_cliente r) (data r) (hora r) (servico r) (valor_orcamento r)
              (JString agora).

(** The body of [agendamentos.forEach], for one candidate, with the
    timestamp [agora p.1] of its own [new Date()]. *)
Definition archive_one (fl : faults) (agora : nat -> string) (s : db) (p : nat * cliente) : db :=
  if f_insert fl p.1 then s
  else
    let s1 := set_concluidos (sql_insert (concluidos s) (to_concluido (agora p.1) p.2)) s in
    if f_delete fl p.1 then s1
    else set_clientes (sql_delete (Some p.1) (clientes s1)) s1.

(** One run, from the SELECT on. A failed SELECT ends the run. *)
Definition arquivar (cutoff : string) (agora : nat -> string) (fl : faults) (s : db) : db :=
  if f_select fl then s
  else fold_left (archive_one fl agora) (select_data_le cutoff (clientes s)) s.

(** A candidate whose copy and deletion both succeeded. *)
Definition moved (fl : faults) (q : nat * cliente) : bool :=
  negb (f_insert fl q.1) && negb (f_delete fl q.1).

(** A history row that copies the five columns of an appointment. *)
Definition archived_as (r : cliente) (c : concluido) : bool :=
  bool_decide (c_nome_cliente c = nome_cliente r /\ c_data c = data r /\
               c_hora c = hora r /\ c_servico c = servico r /\
               c_valor_orcamento c = valor_orcamento r).

(** How many history rows copy the appointment [r]. *)
Definition copies_of (r : cliente) (t : table concluido) : nat :=
  length (List.filter (archived_as r) (map snd t)).

(** Sample: an appointment of 2025-01-05, before the cutoff 2025-01-08,
    and one of 2025-01-10, after it. *)
Definition old_row : cliente :=
  mkCliente (JString "Caio") (JString "2025-01-05") (JString "09:00:00")
            (JString "Corte") (js_int 50).

Definition archive_db : db :=
  mkDb (gestao sample_db) (servicos sample_db) [(1, old_row); (2, sample_row)] [].

(** A run in which only the DELETE of rowid 1 fails. *)
Definition delete_fails_1 : faults :=
  mkFaults false (fun _ => false) (fun i => bool_decide (i = 1)).

(** ** Lemmas: one candidate, then the whole loop *)

Section Run.
Context (fl : faults) (agora : nat -> string).

Lemma id_matches_eq (i j : nat) : id_matches (Some i) j = bool_decide (i = j).
Proof. unfold id_matches. apply bool_decide_ext. split; congruence. Qed.

Lemma archive_one_clientes s q :
  clientes (archive_one fl agora s q) =
  List.filter (fun p => negb (bool_decide (q.1 = p.1) && moved fl q)) (clientes s).
Proof.
  unfold archive_one, moved. destruct (f_insert fl q.1), (f_delete fl q.1); simpl;
    try (symmetry; apply filter_all_true; intros p _; by rewrite andb_false_r).
  unfold sql_delete. apply filter_ext. intros p. by rewrite id_matches_eq, andb_true_r.
Qed.

Lemma archive_one_concluidos s q :
  map snd (concluidos (archive_one fl agora s q)) =
  map snd (concluidos s) ++ (if f_insert fl q.1 then [] else [to_concluido (agora q.1) q.2]).
Proof.
  unfold archive_one. destruct (f_insert fl q.1); simpl; [by rewrite app_nil_r|].
  unfold sql_insert. destruct (f_delete fl q.1); simpl; by rewrite map_app.
Qed.

Lemma archive_one_wf s q : db_wf s -> db_wf (archive_one fl agora s q).
Proof.
  intros [Hc Hk]. unfold archive_one.
  destruct (f_insert fl q.1); [by split|].
  destruct (f_delete fl q.1); split; simpl; auto with booking.
Qed.

Lemma to_concluido_typed a r :
  cliente_typed r = true -> concluido_typed (to_concluido a r) = true.
Proof. unfold cliente_typed, concluido_typed. intros H. simpl. by rewrite H. Qed.

Lemma archive_fold_clientes l s :
  clientes (fold_left (archive_one fl agora) l s) =
  List.filter (fun p => negb (existsb (fun q => bool_decide (q.1 = p.1) && moved fl q) l))
              (clientes s).
Proof.
  revert s. induction l as [|q l IH]; intros s; simpl.
  - symmetry. by apply filter_all_true.
  - rewrite IH, archive_one_clientes, filter_filter_and. apply filter_ext. intros p.
    by rewrite negb_orb.
Qed.

Lemma archive_fold_concluidos l s :
  map snd (concluidos (fold_left (archive_one fl agora) l s)) =
  map snd (concluidos s) ++
  map (fun q => to_concluido (agora q.1) q.2) (List.filter (fun q => negb (f_insert fl q.1)) l).
Proof.
  revert s. induction l as [|q l IH]; intros s; simpl; [by rewrite app_nil_r|].
  rewrite IH, archive_one_concluidos, <- app_assoc.
  by destruct (f_insert fl q.1).
Qed.

Lemma archive_fold_wf l s : db_wf s -> db_wf (fold_left (archive_one fl agora) l s).
Proof.
  revert s. induction l as [|q l IH]; intros s Hs; simpl; [done|].
  by apply IH, archive_one_wf.
Qed.

(** The candidates that share a rowid with a row of a well-formed table
    are that row alone. *)
Lemma existsb_moved_select t c i r :
  rowids_sorted t -> In (i, r) t ->
  existsb (fun q => bool_decide (q.1 = i) && moved fl q) (select_data_le c t) =
  sql_le_text (data r) c && moved fl (i, r).
Proof.
  intros Hs Hin. apply Bool.eq_iff_eq_true. rewrite existsb_exists, andb_true_iff. split.
  - intros [[j r'] [Hq Hb]]. apply filter_In in Hq as [Hq Hle]. bool_hyps. simpl in *. subst j.
    rewrite (sorted_rowid_unique t i r r') by done. done.
  - intros [Hle Hm]. exists (i, r). split; [by apply filter_In|].
    simpl. by rewrite bool_decide_eq_true_2.
Qed.

(** A run only appends to the history: the old rows keep their rowids. *)
Lemma archive_fold_concluidos_prefix l s :
  exists l', concluidos (fold_left (archive_one fl agora) l s) = (concluidos s ++ l')%list.
Proof.
  revert s. induction l as [|q l IH]; intros s; simpl.
  - exists []. by rewrite app_nil_r.
  - destruct (IH (archive_one fl agora s q)) as [l' ->].
    unfold archive_one. destruct (f_insert fl q.1).
    + by exists l'.
    + exists ((next_rowid (concluidos s), to_concluido (agora q.1) q.2) :: l').
      destruct (f_delete fl q.1); simpl; unfold sql_insert; by rewrite <- app_assoc.
Qed.

End Run.

Lemma copies_of_app r l1 l2 :
  length (List.filter (archived_as r) (l1 ++ l2)) =
  length (List.filter (archived_as r) l1) + length (List.filter (archived_as r) l2).
Proof. by rewrite List.filter_app, length_app. Qed.

Lemma archived_as_copy a r : archived_as r (to_concluido a r) = true.
Proof. by apply bool_decide_eq_true_2. Qed.

Lemma filter_length_pos {A} (f : A -> bool) l x :
  In x l -> f x = true -> 1 <= length (List.filter f l).
Proof.
  intros Hin Hf. destruct (List.filter f l) eqn:E; simpl; [|lia].
  assert (In x (List.filter f l)) by (by apply filter_In). by rewrite E in H.
Qed.

(** ** Properties of one run *)

(** A run never adds an active appointment. *)
Lemma arquivar_clientes_sub c a fl s p :
  In p (clientes (arquivar c a fl s)) -> In p (clientes s).
Proof.
  unfold arquivar. destruct (f_select fl); [done|].
  rewrite archive_fold_clientes, filter_In. tauto.
Qed.

(** Which rows a run leaves active. *)
Lemma arquivar_fate c a fl s i r :
  rowids_sorted (clientes s) -> f_select fl = false -> In (i, r) (clientes s) ->
  (In (i, r) (clientes (arquivar c a fl s)) <->
   sql_le_text (data r) c = false \/ moved fl (i, r) = false).
Proof.
  intros Hs Hsel Hin. unfold arquivar. rewrite Hsel, archive_fold_clientes, filter_In.
  simpl. rewrite (existsb_moved_select fl (clientes s) c i r) by done.
  destruct (sql_le_text (data r) c), (moved fl (i, r)); simpl; intuition congruence.
Qed.

(** C24. Per-record fault isolation. In a run whose SELECT succeeds, an
    active appointment stays active exactly when it was not a candidate
    ([data] after the cutoff), or when its own INSERT or DELETE failed.
    The other records' failures do not matter. *)
Theorem arquivar_record_fate c a fl s i r :
  rowids_sorted (clientes s) -> f_select fl = false ->
  (In (i, r) (clientes (arquivar c a fl s)) <->
   In (i, r) (clientes s) /\ (sql_le_text (data r) c = false \/ moved fl (i, r) = false)).
Proof.
  intros Hs Hsel. split.
  - intros Hin. pose proof (arquivar_clientes_sub c a fl s _ Hin) as Hin0.
    split; [done|]. by apply (arquivar_fate c a fl s i r Hs Hsel Hin0).
  - intros [Hin0 H]. by apply (arquivar_fate c a fl s i r Hs Hsel Hin0).
Qed.

(** The history table after a run. *)
Lemma arquivar_concluidos c a fl s :
  map snd (concluidos (arquivar c a fl s)) =
  map snd (concluidos s) ++
  (if f_select fl then []
   else map (fun q => to_concluido (a q.1) q.2)
          (List.filter (fun q => negb (f_insert fl q.1)) (select_data_le c (clientes s)))).
Proof.
  unfold arquivar. destruct (f_select fl); [by rewrite app_nil_r|].
  apply archive_fold_concluidos.
Qed.

(** C29. The history a run writes, whatever its storage outcomes. The
    old rows stay as they are, with their rowids. After them come, in
    selection order, a copy of every candidate whose INSERT succeeded,
    stamped with the run's timestamp. A failed SELECT writes nothing.
    Both tables keep strictly increasing rowids. *)
Theorem arquivar_history c a fl s :
  db_wf s ->
  db_wf (arquivar c a fl s) /\
  exists l,
  concluidos (arquivar c a fl s) = (concluidos s ++ l)%list /\
  map snd l =
  (if f_select fl then []
   else map (fun q => to_concluido (a q.1) q.2)
          (List.filter (fun q => negb (f_insert fl q.1)) (select_data_le c (clientes s)))).
Proof.
  intros Hwf. split.
  { unfold arquivar. destruct (f_select fl); [done|]. by apply archive_fold_wf. }
  assert (Hp : exists l, concluidos (arquivar c a fl s) = (concluidos s ++ l)%list).
  { unfold arquivar. destruct (f_select fl); [exists []; by rewrite app_nil_r|].
    apply archive_fold_concluidos_prefix. }
  destruct Hp as [l Hl]. exists l. split; [done|].
  apply (app_inv_head (map snd (concluidos s))).
  by rewrite <- map_app, <- Hl, arquivar_concluidos.
Qed.

(** The tables after a fault-free run. *)
Lemma arquivar_moves_selected c a s :
  rowids_sorted (clientes s) ->
  clientes (arquivar c a no_faults s) =
    List.filter (fun p => negb (sql_le_text (data p.2) c)) (clientes s) /\
  map snd (concluidos (arquivar c a no_faults s)) =
    map snd (concluidos s) ++ map (fun q => to_concluido (a q.1) q.2) (select_data_le c (clientes s)).
Proof.
  intros Hs. split.
  - unfold arquivar. change (f_select no_faults) with false. cbv beta iota.
    rewrite archive_fold_clientes. apply filter_ext_in.
    intros [i r] Hin. cbv beta. cbn [fst snd]. by rewrite (existsb_moved_select no_faults (clientes s) c i r), andb_true_r.
  - rewrite arquivar_concluidos. simpl. f_equal. f_equal. by apply filter_all_true.
Qed.

(** The appointments of a date after the cutoff, as the booking screen
    collects them, are the same after a run, whatever its faults. *)
(** A run writes neither the slot catalog nor the service catalog. *)
Lemma arquivar_gestao c a fl s : gestao (arquivar c a fl s) = gestao s.
Proof.
  unfold arquivar. destruct (f_select fl); [done|].
  generalize (select_data_le c (clientes s)). intros l. revert s.
  induction l as [|q l IH]; intros s; [done|]. cbn [fold_left]. rewrite IH.
  unfold archive_one. by destruct (f_insert fl q.1), (f_delete fl q.1).
Qed.

Lemma arquivar_ocupados_futuros c a fl s d :
  rowids_sorted (clientes s) -> String.compare d c = Gt ->
  Availability.horariosOcupados (clientes (arquivar c a fl s)) d =
  Availability.horariosOcupados (clientes s) d.
Proof.
  intros Hs Hgt. unfold arquivar. destruct (f_select fl); [done|].
  rewrite archive_fold_clientes. unfold Availability.horariosOcupados. f_equal.
  rewrite filter_filter_and. apply filter_ext_in. intros [i r] Hin. cbn [fst snd].
  destruct (Availability.strict_eq (data r) (JString d)) eqn:E; [|by rewrite andb_false_r].
  rewrite (existsb_moved_select fl (clientes s) c i r Hs Hin).
  rewrite Availability.strict_eq_string in E. apply bool_decide_eq_true in E. rewrite E.
  cbn [sql_le_text]. by rewrite Hgt.
Qed.

(** After a fault-free run, no active appointment has a date at or
    before the cutoff. *)
Lemma arquivar_ocupados_passados c a s d :
  rowids_sorted (clientes s) -> String.compare d c <> Gt ->
  Availability.horariosOcupados (clientes (arquivar c a no_faults s)) d = [].
Proof.
  intros Hs Hle. rewrite (proj1 (arquivar_moves_selected c a s Hs)).
  unfold Availability.horariosOcupados. rewrite filter_filter_and, filter_none; [done|].
  intros [i r] _. cbn [fst snd]. rewrite Availability.strict_eq_string.
  case_bool_decide as E; [rewrite E; cbn [sql_le_text]|by rewrite andb_false_r].
  by destruct (String.compare d c).
Qed.

(** C23. Conservation in a fault-free run: the active appointments dated
    on or before the cutoff leave [clientes], the others stay, and each
    one that left appears exactly once in the history, in order (Scenario
    D of the spec). The rows that stay and the rows selected together are
    the table before the run, up to order: no row is lost or made. *)
Theorem arquivar_conservation c a s :
  rowids_sorted (clientes s) ->
  clientes (arquivar c a no_faults s) =
    List.filter (fun p => negb (sql_le_text (data p.2) c)) (clientes s) /\
  map snd (concluidos (arquivar c a no_faults s)) =
    map snd (concluidos s) ++ map (fun q => to_concluido (a q.1) q.2) (select_data_le c (clientes s)) /\
  Permutation (clientes s) (clientes (arquivar c a no_faults s) ++ select_data_le c (clientes s)).
Proof.
  intros Hs. destruct (arquivar_moves_selected c a s Hs) as [Hc Hh].
  split; [done|]. split; [done|]. rewrite Hc. unfold select_data_le.
  etransitivity; [apply (filter_complement_perm (fun p => sql_le_text (data p.2) c))|].
  apply Permutation_app_comm.
Qed.

(** C26. A second run with the same cutoff right after a fault-free run
    finds nothing to archive and changes nothing, whatever its own
    storage outcomes and timestamp. *)
Theorem arquivar_rerun_idempotent c a a' fl s :
  rowids_sorted (clientes s) ->
  arquivar c a' fl (arquivar c a no_faults s) = arquivar c a no_faults s.
Proof.
  intros Hs. unfold arquivar at 1. destruct (f_select fl); [done|].
  destruct (arquivar_moves_selected c a s Hs) as [Hc _]. rewrite Hc.
  unfold select_data_le. rewrite filter_filter_and.
  rewrite filter_none; [done|]. intros p _. by destruct (sql_le_text (data p.2) c).
Qed.

(** C25. A record whose INSERT into [concluidos] succeeded but whose
    DELETE failed stays active, and the next run archives it again: the
    history then holds two more copies of it. The spec promises that each
    record is archived at most once. *)
Theorem arquivar_duplicates_on_delete_fault c a1 a2 fl s i r :
  rowids_sorted (clientes s) -> In (i, r) (clientes s) ->
  sql_le_text (data r) c = true ->
  f_select fl = false -> f_insert fl i = false -> f_delete fl i = true ->
  copies_of r (concluidos s) + 2 <=
  copies_of r (concluidos (arquivar c a2 no_faults (arquivar c a1 fl s))).
Proof.
  intros Hs Hin Hle Hsel Hins Hdel.
  set (s1 := arquivar c a1 fl s).
  assert (Hin1 : In (i, r) (clientes s1)).
  { apply arquivar_fate; try done. right. unfold moved. simpl. by rewrite Hdel, andb_false_r. }
  unfold copies_of. rewrite (arquivar_concluidos c a2 no_faults s1). unfold s1 at 1.
  rewrite arquivar_concluidos, Hsel. simpl. rewrite !copies_of_app.
  assert (1 <= length (List.filter (archived_as r) (map (fun q => to_concluido (a1 q.1) q.2)
             (List.filter (fun q => negb (f_insert fl q.1)) (select_data_le c (clientes s)))))).
  { eapply (filter_length_pos _ _ (to_concluido (a1 i) r)); [|apply archived_as_copy].
    apply (in_map (fun q => to_concluido (a1 q.1) q.2) _ (i, r)).
    apply filter_In. split; [by apply filter_In|]. simpl. by rewrite Hins. }
  assert (1 <= length (List.filter (archived_as r) (map (fun q => to_concluido (a2 q.1) q.2)
             (List.filter (fun _ => true) (select_data_le c (clientes s1)))))).
  { eapply (filter_length_pos _ _ (to_concluido (a2 i) r)); [|apply archived_as_copy].
    apply (in_map (fun q => to_concluido (a2 q.1) q.2) _ (i, r)).
    apply filter_In. split; [by apply filter_In|]. done. }
  lia.
Qed.

(** A run never changes the free slots of a date after the cutoff,
    whatever its faults; a fault-free run frees every slot of a date up
    to the cutoff. *)
Lemma arquivar_consultar c a fl s d cur :
  rowids_sorted (clientes s) -> d <> "" ->
  (String.compare d c = Gt ->
     Availability.consultarHorariosDisponiveis d (get_clientes false (arquivar c a fl s))
       (get_gestao false (arquivar c a fl s)) cur =
     Availability.consultarHorariosDisponiveis d (get_clientes false s) (get_gestao false s) cur) /\
  (String.compare d c <> Gt ->
     Availability.consultarHorariosDisponiveis d (get_clientes false (arquivar c a no_faults s))
       (get_gestao false (arquivar c a no_faults s)) cur = gestao s).
Proof.
  intros Hs Hd. unfold Availability.consultarHorariosDisponiveis.
  rewrite (proj2 (String.eqb_neq d "") Hd). cbn -[Availability.horariosOcupados arquivar].
  rewrite !arquivar_gestao. split; intros Hc.
  - by rewrite arquivar_ocupados_futuros.
  - rewrite arquivar_ocupados_passados by done. by apply filter_all_true.
Qed.

(** C21. An archival run and the booking screen. A run at the instant
    [tr], on a server in any time zone, never changes the free slots the
    booking screen computes for any date it offers, whatever the run's
    storage outcomes, when the screen was mounted at most two days
    before. The offered dates are after the cutoff, and [data <= ?]
    compares the texts bytewise, which for years 1000 to 9999 is the
    order of the days. After a fault-free run, every catalog slot of a
    date up to the cutoff is free. *)
Theorem arquivar_disponibilidade offS offC tf tr a fl s cur :
  rowids_sorted (clientes s) ->
  (Calendar.Day tr <= Calendar.Day (tf + offC) + 2)%Z ->
  (1000 <= Calendar.YearFromDay (Calendar.Day tr - 2))%Z ->
  (Calendar.YearFromDay (Calendar.Day (tf + offC) + 14) <= 9999)%Z ->
  let c := Calendar.dataFormatadaCorte offS tr in
  (forall d, In d (Calendar.gerarDatasDisponiveis offC tf) ->
     Availability.consultarHorariosDisponiveis d (get_clientes false (arquivar c a fl s))
       (get_gestao false (arquivar c a fl s)) cur =
     Availability.consultarHorariosDisponiveis d (get_clientes false s) (get_gestao false s) cur) /\
  (forall d, d <> "" -> String.compare d c <> Gt ->
     Availability.consultarHorariosDisponiveis d (get_clientes false (arquivar c a no_faults s))
       (get_gestao false (arquivar c a no_faults s)) cur = gestao s).
Proof.
  intros Hs Hday Hlo Hhi c. split.
  - intros d Hd. pose proof (Datas.candidatos_apos_corte offS offC tf tr d Hday Hlo Hhi Hd) as Hgt.
    apply arquivar_consultar; [done| |done]. intros ->. fold c in Hgt.
    destruct c; discriminate Hgt.
  - intros d Hd Hle. by apply arquivar_consultar.
Qed.

(** ** Witnesses *)

Ltac solve_sorted := unfold rowids_sorted; simpl; repeat constructor.

Lemma arquivar_record_fate_witness :
  In (1, old_row) (clientes (arquivar "2025-01-08" (fun _ => "t") delete_fails_1 archive_db)) <->
  In (1, old_row) (clientes archive_db) /\
  (sql_le_text (data old_row) "2025-01-08" = false \/ moved delete_fails_1 (1, old_row) = false).
Proof. apply arquivar_record_fate; [solve_sorted|reflexivity]. Defined.

(** Scenario D: the appointment of 2025-01-05 leaves [clientes] and is in
    the history with its timestamp. *)
Lemma arquivar_conservation_witness :
  (clientes (arquivar "2025-01-08" (fun _ => "2025-01-10T12:00:00.000Z") no_faults archive_db) =
     List.filter (fun p => negb (sql_le_text (data p.2) "2025-01-08")) (clientes archive_db) /\
   map snd (concluidos (arquivar "2025-01-08" (fun _ => "2025-01-10T12:00:00.000Z") no_faults archive_db)) =
     map snd (concluidos archive_db) ++
     map (fun q => to_concluido "2025-01-10T12:00:00.000Z" q.2)
         (select_data_le "2025-01-08" (clientes archive_db)) /\
   Permutation (clientes archive_db)
     (clientes (arquivar "2025-01-08" (fun _ => "2025-01-10T12:00:00.000Z") no_faults archive_db)
      ++ select_data_le "2025-01-08" (clientes archive_db))) /\
  clientes (arquivar "2025-01-08" (fun _ => "2025-01-10T12:00:00.000Z") no_faults archive_db) =
    [(2, sample_row)] /\
  map snd (concluidos (arquivar "2025-01-08" (fun _ => "2025-01-10T12:00:00.000Z") no_faults archive_db)) =
    [to_concluido "2025-01-10T12:00:00.000Z" old_row].
Proof.
  split; [apply arquivar_conservation; solve_sorted|].
  split; reflexivity.
Defined.

Lemma arquivar_rerun_idempotent_witness :
  arquivar "2025-01-08" (fun _ => "b") delete_fails_1 (arquivar "2025-01-08" (fun _ => "a") no_faults archive_db) =
  arquivar "2025-01-08" (fun _ => "a") no_faults archive_db.
Proof. apply arquivar_rerun_idempotent. solve_sorted. Defined.

Lemma arquivar_duplicates_on_delete_fault_witness :
  copies_of old_row (concluidos archive_db) + 2 <=
  copies_of old_row (concluidos (arquivar "2025-01-08" (fun _ => "b") no_faults
                                  (arquivar "2025-01-08" (fun _ => "a") delete_fails_1 archive_db))).
Proof.
  apply (arquivar_duplicates_on_delete_fault "2025-01-08" (fun _ => "a") (fun _ => "b") delete_fails_1 archive_db 1);
    [solve_sorted|left; reflexivity|reflexivity..].
Defined.

Lemma arquivar_history_witness :
  db_wf (arquivar "2025-01-08" (fun _ => "a") delete_fails_1 archive_db) /\
  exists l,
  concluidos (arquivar "2025-01-08" (fun _ => "a") delete_fails_1 archive_db) = (concluidos archive_db ++ l)%list /\
  map snd l =
  (if f_select delete_fails_1 then []
   else map (fun q => to_concluido "a" q.2)
          (List.filter (fun q => negb (f_insert delete_fails_1 q.1))
                       (select_data_le "2025-01-08" (clientes archive_db)))).
Proof. apply arquivar_history. split; solve_sorted. Defined.

Lemma arquivar_disponibilidade_witness :
  let c := Calendar.dataFormatadaCorte Calendar.brt Calendar.jan10_1200Z in
  (forall d, In d (Calendar.gerarDatasDisponiveis Calendar.brt Calendar.jan10_1200Z) ->
     Availability.consultarHorariosDisponiveis d (get_clientes false (arquivar c (fun _ => "a") delete_fails_1 archive_db))
       (get_gestao false (arquivar c (fun _ => "a") delete_fails_1 archive_db)) [] =
     Availability.consultarHorariosDisponiveis d (get_clientes false archive_db)
       (get_gestao false archive_db) []) /\
  (forall d, d <> "" -> String.compare d c <> Gt ->
     Availability.consultarHorariosDisponiveis d (get_clientes false (arquivar c (fun _ => "a") no_faults archive_db))
       (get_gestao false (arquivar c (fun _ => "a") no_faults archive_db)) [] = gestao archive_db).
Proof.
  apply arquivar_disponibilidade; [solve_sorted|..]; apply Z.leb_le; vm_compute; reflexivity.
Defined.

End Archival.
