(* ===== verification/System.v ===== *)
(** The whole server as a transition system. Its HTTP requests
    ([Server.handle]) and the statements of an archival run
    ([arquivarAgendamentosConcluidos], [src/api.js] lines 112 to 158)
    interleave. An archival run is one SELECT, which fixes the list of
    candidates. Then come the INSERTs into [concluidos], queued in
    candidate order by [forEach]. Each successful INSERT queues the
    DELETE of its candidate. The single SQLite connection runs each
    queue in order, and the event loop lets requests and the two queues
    interleave at statement boundaries.

    The theorems:
    - the invariants of the database hold in every reachable state, and
      so does the type invariant (only NULL, numbers and texts stored);
    - the queued statements of a run terminate, and from any state they
      can drain to an idle state with the queued rows archived;
    - the atomic run of [Archival] is one schedule of this system;
    - an edit made while a run is in progress is lost, against the
      spec. Two clients booking the same slot is in [Composicao], through
      the booking forms. *)

From S2P Require Import Prelude JsValue Store Server Availability Archival.
Import Js Store Server Availability Archival.

Module System.

Record sys := mkSys {
  store : db;
  to_insert : table cliente;   (** candidates whose INSERT is queued *)
  to_delete : list nat         (** rowids whose DELETE is queued *)
}.

(** A request runs to completion: its one statement. *)
Definition sys_request (rq : request) (fault : bool) (s : sys) : sys :=
  mkSys (handle rq fault (store s)).2 (to_insert s) (to_delete s).

(** The SELECT of a run ([db.all(... WHERE data <= ?)]). *)
Definition sys_select (cutoff : string) (fault : bool) (s : sys) : sys :=
  if fault then s
  else mkSys (store s) (select_data_le cutoff (clientes (store s))) [].

(** The next queued INSERT; on success its callback queues the DELETE. *)
Definition sys_insert (agora : string) (ok : bool) (s : sys) : sys :=
  match to_insert s with
  | [] => s
  | q :: rest =>
      if ok then
        mkSys (set_concluidos (sql_insert (concluidos (store s)) (to_concluido agora q.2))
                              (store s))
              rest (to_delete s ++ [q.1])
      else mkSys (store s) rest (to_delete s)
  end.

(** The next queued DELETE ([DELETE FROM clientes WHERE id = ?]). *)
Definition sys_delete (ok : bool) (s : sys) : sys :=
  match to_delete s with
  | [] => s
  | i :: rest =>
      mkSys (if ok then set_clientes (sql_delete (Some i) (clientes (store s))) (store s)
             else store s)
            (to_insert s) rest
  end.

(** A new run starts when the previous one has drained (the 24-hour
    period is far longer than a run). *)
Inductive step : sys -> sys -> Prop :=
| step_request rq fault s : step s (sys_request rq fault s)
| step_select c fault s :
    to_insert s = [] -> to_delete s = [] -> step s (sys_select c fault s)
| step_insert a ok s : to_insert s <> [] -> step s (sys_insert a ok s)
| step_delete ok s : to_delete s <> [] -> step s (sys_delete ok s).

(** The invariant of reachable states. *)
Definition sys_inv (s : sys) : Prop :=
  db_wf (store s) /\ clientes_valid (clientes (store s)).

(** The type invariant: the tables hold stored values only, and so do
    the queued candidates, which the SELECT read from [clientes]. *)
Definition sys_typed (s : sys) : Prop :=
  db_typed (store s) /\ table_typed cliente_typed (to_insert s).

Definition idle (st : db) : sys := mkSys st [] [].

(** A staff edit of the name, as [gerenciar.tsx] sends it. *)
Definition edit_body : body :=
  <["nome_cliente" := JString "Caio Souza"]> (<["servico" := JString "Corte"]>
  (<["valor_orcamento" := js_int 50]> ∅)).

(** The run of 2025-01-10 has selected the appointment of 2025-01-05. *)
Definition selected : sys := sys_select "2025-01-08" false (idle archive_db).

(** The statements of a run that the SQLite connection runs once the
    SELECT has queued them: the INSERTs and the DELETEs. *)
Inductive arch_step : sys -> sys -> Prop :=
| arch_insert a ok s : to_insert s <> [] -> arch_step s (sys_insert a ok s)
| arch_delete ok s : to_delete s <> [] -> arch_step s (sys_delete ok s).

(** What is left of a run: each queued candidate costs its INSERT and
    perhaps its DELETE, each queued DELETE one statement. *)
Definition pending (s : sys) : nat := 2 * length (to_insert s) + length (to_delete s).

(** ** Lemmas *)

Lemma clientes_valid_delete id t : clientes_valid t -> clientes_valid (sql_delete id t).
Proof.
  unfold clientes_valid. rewrite !List.Forall_forall. intros H [i r] Hin.
  apply In_sql_delete in Hin as [Hin _]. by apply (H (i, r)).
Qed.

Lemma step_preserves_inv s s' : step s s' -> sys_inv s -> sys_inv s'.
Proof.
  intros Hs [Hwf Hv]. destruct Hs as [rq fault s|c fault s _ _|a ok s _|ok s _].
  - split; [by apply handle_wf|by apply handle_valid].
  - unfold sys_select. by destruct fault.
  - unfold sys_insert. destruct (to_insert s) as [|q rest]; [done|].
    destruct Hwf as [Hc Hk]. destruct ok; (split; [split|]); simpl; auto with booking.
  - unfold sys_delete. destruct (to_delete s) as [|i rest]; [done|].
    destruct Hwf as [Hc Hk]. destruct ok; (split; [split|]); simpl; auto with booking.
    by apply clientes_valid_delete.
Qed.

#[export] Instance step_inv : Preserved step sys_inv.
Proof. exact step_preserves_inv. Qed.

#[export] Instance step_typed : Preserved step sys_typed.
Proof.
  intros s s' Hs Hty. pose proof Hty as [[Hc Hk] Hq].
  destruct Hs as [rq fault s|c fault s _ _|a ok s _|ok s _].
  - split; [by apply handle_typed|done].
  - unfold sys_select. destruct fault; [done|]. split; [by split|]. by apply table_typed_filter.
  - unfold sys_insert. destruct (to_insert s) as [|q rest] eqn:E; [done|].
    invc Hq. destruct ok; (split; [split|]); simpl; try done.
    apply table_typed_insert; [done|]. by apply to_concluido_typed.
  - unfold sys_delete. destruct (to_delete s) as [|i rest]; [done|].
    destruct ok; (split; [split|]); simpl; try done. by apply table_typed_filter.
Qed.

(** The two statements of one candidate make [Archival.archive_one]. *)
Lemma candidate_steps fl a st q l :
  star step (mkSys st (q :: l) []) (mkSys (archive_one fl a st q) l []).
Proof.
  unfold archive_one. destruct (f_insert fl q.1) eqn:Ei.
  - apply star_one. replace (mkSys st l []) with (sys_insert (a q.1) false (mkSys st (q :: l) []))
      by reflexivity. by constructor.
  - eapply star_step.
    { apply (step_insert (a q.1) true). discriminate. }
    apply star_one. cbn [sys_insert to_insert to_delete app].
    replace (mkSys (if f_delete fl q.1 then _ else _) l [])
      with (sys_delete (negb (f_delete fl q.1))
              (mkSys (set_concluidos (sql_insert (concluidos st) (to_concluido (a q.1) q.2)) st)
                     l [q.1])).
    + constructor. discriminate.
    + unfold sys_delete. cbn. by destruct (f_delete fl q.1).
Qed.

Lemma candidates_steps fl a l st :
  star step (mkSys st l []) (mkSys (fold_left (archive_one fl a) l st) [] []).
Proof.
  revert st. induction l as [|q l IH]; intros st; simpl; [constructor|].
  eapply star_trans; [apply candidate_steps|apply IH].
Qed.

Lemma arch_step_step s s' : arch_step s s' -> step s s'.
Proof. destruct 1; by constructor. Qed.

Lemma arch_step_pending s s' : arch_step s s' -> pending s' < pending s.
Proof.
  unfold pending. destruct 1 as [a ok s Hne|ok s Hne].
  - unfold sys_insert. destruct (to_insert s) as [|q rest]; [done|].
    destruct ok; simpl; rewrite ?length_app; simpl; lia.
  - unfold sys_delete. destruct (to_delete s) as [|i rest]; [done|]. simpl. lia.
Qed.

(** The queued DELETEs, all successful, one after the other. *)
Lemma filter_sql_delete_notin (d : list nat) i (t : table cliente) :
  List.filter (fun p => negb (bool_decide (p.1 ∈ d))) (sql_delete (Some i) t) =
  List.filter (fun p => negb (bool_decide (p.1 ∈ i :: d))) t.
Proof.
  unfold sql_delete. rewrite filter_filter_and. apply filter_ext. intros [j r]. simpl.
  rewrite id_matches_eq. apply Bool.eq_iff_eq_true.
  rewrite andb_true_iff, !negb_true_iff, !bool_decide_eq_false, elem_of_cons.
  split; [intros [H1 H2] [H3|H3]; [by apply H1|by apply H2]|].
  intros H; split; intros H3; apply H; [by left|by right].
Qed.

Lemma drain_deletes st l d :
  star step (mkSys st l d)
    (mkSys (set_clientes (List.filter (fun p => negb (bool_decide (p.1 ∈ d))) (clientes st)) st) l []).
Proof.
  revert st. induction d as [|i d IH]; intros st.
  - rewrite filter_all_true by (intros p _; by rewrite bool_decide_eq_false_2 by apply not_elem_of_nil).
    destruct st. constructor.
  - eapply star_step; [apply (step_delete true); discriminate|].
    specialize (IH (set_clientes (sql_delete (Some i) (clientes st)) st)).
    cbn [sys_delete to_delete store to_insert]. by rewrite <- filter_sql_delete_notin.
Qed.

(** ** Properties *)

(** C5. Every state reachable by any interleaving of requests and
    archival statements keeps the invariant: strictly increasing rowids
    in both tables, and every active appointment's [data] and [hora]
    matching the server's patterns. *)
Theorem reachable_inv s s' : star step s s' -> sys_inv s -> sys_inv s'.
Proof. apply star_invariant, step_preserves_inv. Qed.

(** C27. The atomic run of [Archival.arquivar] is one schedule of the
    system: the SELECT, then for each candidate its INSERT, immediately
    followed by its DELETE when the INSERT succeeded, with the same
    storage outcomes. *)
Theorem arquivar_is_schedule c a fl st :
  star step (idle st) (idle (arquivar c a fl st)).
Proof.
  unfold arquivar. eapply star_step.
  - apply (step_select c (f_select fl)); done.
  - unfold sys_select, idle. destruct (f_select fl); [constructor|].
    apply candidates_steps.
Qed.

(** C28. An edit made while an archival run is in progress is lost. The
    run's SELECT has queued the appointment [i]. A staff edit of [i]
    is answered 200 and changes the row. The queued INSERT then copies
    the pre-edit values into the history, and the DELETE removes the
    edited row, so no table holds the edit. *)
Theorem archival_loses_concurrent_edit s i r rest id b a :
  to_insert s = (i, r) :: rest -> to_delete s = [] ->
  rowid_of_param id = Some i ->
  let s1 := sys_request (PutAgendamento id b) false s in
  let s2 := sys_insert a true s1 in
  let s3 := sys_delete true s2 in
  star step s s3 /\
  status (put_agendamento id b false (store s)).1 = 200%Z /\
  (In (i, r) (clientes (store s)) ->
     In (i, set_edit (prop b "nome_cliente") (prop b "servico") (prop b "valor_orcamento") r)
        (clientes (store s1))) /\
  (forall r', ~ In (i, r') (clientes (store s3))) /\
  last (map snd (concluidos (store s3))) = Some (to_concluido a r).
Proof.
  intros Hins Hdel Hid s1 s2 s3.
  assert (H1 : to_insert s1 = (i, r) :: rest /\ to_delete s1 = []) by (unfold s1; simpl; done).
  split.
  { eapply star_step; [apply (step_request (PutAgendamento id b) false)|].
    eapply star_step; [apply (step_insert a true); cbn; rewrite Hins; discriminate|].
    apply star_one. apply step_delete. unfold s2, sys_insert. rewrite (proj1 H1).
    cbn. rewrite Hdel. discriminate. }
  split; [done|]. split.
  { intros Hin. unfold s1, sys_request. simpl. apply In_sql_update.
    exists r. split; [done|]. unfold id_matches. rewrite Hid. by rewrite bool_decide_eq_true_2. }
  unfold s3, s2, sys_delete, sys_insert. rewrite (proj1 H1), (proj2 H1). simpl. split.
  - intros r' Hin. apply In_sql_delete in Hin as [_ Hin].
    unfold id_matches in Hin. by rewrite bool_decide_eq_true_2 in Hin.
  - unfold sql_insert. rewrite map_app. simpl. by rewrite last_app.
Qed.

(** The type invariant. Starting from a database whose two tables
    hold only stored values (NULL, numbers, texts), every state reached
    by any interleaving of requests and archival statements still does,
    and so do the queued candidates: no [undefined] and no boolean is
    ever written, whatever the request bodies hold. *)
Theorem reachable_typed st s : db_typed st -> star step (idle st) s -> sys_typed s.
Proof. intros Ht Hs. apply (star_preserved step sys_typed _ _ Hs). split; [done|constructor]. Qed.

(** C15. Every run terminates, in at most two statements per queued
    candidate plus one per queued DELETE: no sequence of INSERTs and
    DELETEs of the queues is infinite, and one of [n] statements from a
    state leaves at most [pending] of it minus [n]. *)
Theorem archival_terminates :
  well_founded (fun s' s => arch_step s s') /\
  forall n s s', starn arch_step n s s' -> n + pending s' <= pending s.
Proof.
  split; [apply (wf_by_measure _ pending)|apply starn_measure]; apply arch_step_pending.
Qed.

(** C16. Liveness of a run: from any state, the queued statements can
    all run and succeed, and the system is idle again. Then every row
    queued for archival or deletion has left [clientes], the other rows
    stay, and the history has gained one copy of each queued candidate,
    in queue order. *)
Theorem queues_drain a s :
  exists st, star step s (idle st) /\
    clientes st = List.filter (fun p => negb (bool_decide (p.1 ∈ map fst (to_insert s) ++ to_delete s)))
                              (clientes (store s)) /\
    map snd (concluidos st) =
      map snd (concluidos (store s)) ++ map (fun q => to_concluido (a q.1) q.2) (to_insert s).
Proof.
  destruct s as [st l d]. cbn [store to_insert to_delete].
  set (st1 := set_clientes (List.filter (fun p => negb (bool_decide (p.1 ∈ d))) (clientes st)) st).
  exists (fold_left (archive_one no_faults a) l st1). split; [|split].
  - eapply star_trans; [apply drain_deletes|apply candidates_steps].
  - rewrite archive_fold_clientes. unfold st1. cbn [set_clientes clientes].
    rewrite filter_filter_and. apply filter_ext. intros p.
    rewrite (existsb_ext_eq _ (fun q => bool_decide (fst q = p.1))) by (intros q; cbn [moved no_faults f_insert f_delete negb]; apply andb_true_r).
    rewrite existsb_eq_elem. apply Bool.eq_iff_eq_true.
    rewrite andb_true_iff, !negb_true_iff, !bool_decide_eq_false, elem_of_app. tauto.
  - rewrite archive_fold_concluidos. by rewrite filter_all_true.
Qed.

(** ** Witnesses *)

Lemma reachable_inv_witness :
  sys_inv (sys_request (PostCadastro free_body) false (idle sample_db)).
Proof.
  apply (reachable_inv (idle sample_db)).
  - apply star_one, step_request.
  - split; [split; repeat constructor|]. apply List.Forall_cons; [reflexivity|constructor].
Defined.

Lemma reachable_typed_witness :
  sys_typed (sys_insert "2025-01-10" true (sys_select "2025-01-08" false (idle archive_db))).
Proof.
  apply (reachable_typed archive_db).
  - split; repeat constructor.
  - eapply star_step; [apply (step_select "2025-01-08" false); reflexivity|].
    apply star_one, step_insert. vm_compute. discriminate.
Defined.

Lemma archival_loses_concurrent_edit_witness :
  let s1 := sys_request (PutAgendamento "1" edit_body) false selected in
  let s2 := sys_insert "2025-01-10" true s1 in
  let s3 := sys_delete true s2 in
  star step selected s3 /\
  status (put_agendamento "1" edit_body false (store selected)).1 = 200%Z /\
  (In (1, old_row) (clientes (store selected)) ->
     In (1, set_edit (prop edit_body "nome_cliente") (prop edit_body "servico")
                     (prop edit_body "valor_orcamento") old_row)
        (clientes (store s1))) /\
  (forall r', ~ In (1, r') (clientes (store s3))) /\
  last (map snd (concluidos (store s3))) = Some (to_concluido "2025-01-10" old_row).
Proof.
  apply (archival_loses_concurrent_edit selected 1 old_row []); vm_compute; reflexivity.
Defined.

End System.
