(* ===== verification/Gerenciar.v ===== *)
(** The management screen, [src/app/(tabs)/gerenciar.tsx]. The staff
    use it to list, edit and cancel appointments. It keeps its own copy
    of [clientes] ([agendamentos]), loaded once by [GET /api/clientes].
    After each successful [PUT] or [DELETE] it patches that copy instead
    of reloading it.

    The state of the component (its [useState] hooks) is the record
    [tela]. There is one function per handler. A handler that sends a
    request takes the server's store and the storage outcome, runs the
    handler of [Server], and returns the new screen and the new store.
    The HTTP exchange is modelled by its effect on values: [fetch]'s
    [response.ok] is a 2xx status, and a JSON body goes through
    [JSON.stringify] and [JSON.parse] ([json_rt]). [parseFloat] and
    [Number.prototype.toString] are JavaScript builtins that the
    development does not model: they are variables of the section
    [Handlers], so every theorem holds for any implementation of them.
    Alerts and console output are not part of the state. *)

From S2P Require Import Prelude JsValue Store Server Calendar.
Import Js Store Server Calendar.

Module Gerenciar.

(** ** JSON and HTTP *)

(** A row as the screen receives it from [res.json(rows)]. *)
Definition row_rt (r : cliente) : cliente :=
  mkCliente (json_rt (nome_cliente r)) (json_rt (data r)) (json_rt (hora r))
            (json_rt (servico r)) (json_rt (valor_orcamento r)).

Definition view (t : table cliente) : table cliente :=
  map (fun p => (p.1, row_rt p.2)) t.

(** [response.ok]. *)
Definition resp_ok (r : response) : bool := ((200 <=? status r) && (status r <=? 299))%Z.

(** The path segment [`${id}`] of a numeric id. *)
Definition id_path (i : nat) : string := number_to_string (Z.of_nat i).

(** ** The state of the screen *)

Record tela := mkTela {
  agendamentos : table cliente;
  modalVisible : bool;
  modalExcluirVisible : bool;
  editandoAgendamento : option (nat * cliente);
  excluirAgendamento : option (nat * jsval);
  nomeCliente : jsval;
  servico_input : jsval;        (** [servico] *)
  valorOrcamento : string
}.

(** The initial values of the [useState] hooks. *)
Definition tela0 : tela := mkTela [] false false None None (JString "") (JString "") "".

Definition set_agendamentos (l : table cliente) (t : tela) : tela :=
  mkTela l (modalVisible t) (modalExcluirVisible t) (editandoAgendamento t)
         (excluirAgendamento t) (nomeCliente t) (servico_input t) (valorOrcamento t).

(** The screen's copy is what [GET /api/clientes] would answer now. *)
Definition in_sync (t : tela) (s : db) : Prop := agendamentos t = view (clientes s).

Section Handlers.
Context (parseFloat : string -> SpecFloat.spec_float).
Context (number_toString : SpecFloat.spec_float -> string).

(** [buscarAgendamentos], the effect run once on mount. A non-2xx
    status throws (an alert); a body that is not an array is logged. *)
Definition buscarAgendamentos (r : response) (t : tela) : tela :=
  if resp_ok r then
    match json r with
    | PClientes rows => set_agendamentos (view rows) t
    | _ => t
    end
  else t.

(** [x.toString()]: [null] and [undefined] have no method, a
    [TypeError] ([None]). *)
Definition to_string (v : jsval) : option string :=
  match v with
  | JUndefined | JNull => None
  | JBool true => Some "true"
  | JBool false => Some "false"
  | JNumber f => Some (number_toString f)
  | JString s => Some s
  end.

(** [editar(agendamento)]: the five setters in order. The fourth calls
    [valor_orcamento.toString()], which throws on [null]; the three
    updates queued before it still apply, and the modal does not open.
    The flag is [false] when the handler threw. *)
Definition editar (a : nat * cliente) (t : tela) : tela * bool :=
  match to_string (valor_orcamento a.2) with
  | None =>
      (mkTela (agendamentos t) (modalVisible t) (modalExcluirVisible t) (Some a)
              (excluirAgendamento t) (nome_cliente a.2) (servico a.2) (valorOrcamento t), false)
  | Some v =>
      (mkTela (agendamentos t) true (modalExcluirVisible t) (Some a)
              (excluirAgendamento t) (nome_cliente a.2) (servico a.2) v, true)
  end.

(** The three [TextInput]s' [onChangeText], and the edit modal's
    [Cancelar] and [onRequestClose]. *)
Definition setNomeCliente (s : string) (t : tela) : tela :=
  mkTela (agendamentos t) (modalVisible t) (modalExcluirVisible t) (editandoAgendamento t)
         (excluirAgendamento t) (JString s) (servico_input t) (valorOrcamento t).

Definition setServico (s : string) (t : tela) : tela :=
  mkTela (agendamentos t) (modalVisible t) (modalExcluirVisible t) (editandoAgendamento t)
         (excluirAgendamento t) (nomeCliente t) (JString s) (valorOrcamento t).

Definition setValorOrcamento (s : string) (t : tela) : tela :=
  mkTela (agendamentos t) (modalVisible t) (modalExcluirVisible t) (editandoAgendamento t)
         (excluirAgendamento t) (nomeCliente t) (servico_input t) s.

Definition fecharModal (t : tela) : tela :=
  mkTela (agendamentos t) false (modalExcluirVisible t) (editandoAgendamento t)
         (excluirAgendamento t) (nomeCliente t) (servico_input t) (valorOrcamento t).

(** [updatedAgendamento]: the edited row, [{...editandoAgendamento,
    nome_cliente, servico, valor_orcamento: parseFloat(valorOrcamento)}]. *)
Definition updated (r : cliente) (t : tela) : cliente :=
  mkCliente (nomeCliente t) (data r) (hora r) (servico_input t)
            (JNumber (parseFloat (valorOrcamento t))).

(** The JSON body of the PUT. *)
Definition put_body (i : nat) (r : cliente) : body :=
  json_obj [("id", js_int (Z.of_nat i)); ("nome_cliente", nome_cliente r); ("data", data r);
            ("hora", hora r); ("servico", servico r); ("valor_orcamento", valor_orcamento r)].

(** [salvarEdicao]. On a 2xx answer, the local copy replaces the row of
    that id by [updatedAgendamento] and the modal closes; otherwise an
    alert, and nothing changes on the screen. *)
Definition salvarEdicao (fault : bool) (t : tela) (s : db) : tela * db :=
  match editandoAgendamento t with
  | None => (t, s)
  | Some (i, r) =>
      let u := updated r t in
      let (resp, s') := put_agendamento (id_path i) (put_body i u) fault s in
      if resp_ok resp then
        (mkTela (map (fun item => if bool_decide (item.1 = i) then (i, u) else item)
                     (agendamentos t))
                false (modalExcluirVisible t) None (excluirAgendamento t)
                (nomeCliente t) (servico_input t) (valorOrcamento t), s')
      else (t, s')
  end.

(** [excluir(id, nome_cliente)]: remember the row, open the modal. *)
Definition excluir (i : nat) (nome : jsval) (t : tela) : tela :=
  mkTela (agendamentos t) (modalVisible t) true (editandoAgendamento t) (Some (i, nome))
         (nomeCliente t) (servico_input t) (valorOrcamento t).

(** [confirmarExclusao]. On a 2xx answer, the row leaves the local copy. *)
Definition confirmarExclusao (fault : bool) (t : tela) (s : db) : tela * db :=
  match excluirAgendamento t with
  | None => (t, s)
  | Some (i, _) =>
      let (resp, s') := delete_agendamento (id_path i) fault s in
      if resp_ok resp then
        (mkTela (List.filter (fun item => negb (bool_decide (item.1 = i))) (agendamentos t))
                (modalVisible t) false (editandoAgendamento t) None
                (nomeCliente t) (servico_input t) (valorOrcamento t), s')
      else (t, s')
  end.

(** [cancelarExclusao]. *)
Definition cancelarExclusao (t : tela) : tela :=
  mkTela (agendamentos t) (modalVisible t) false (editandoAgendamento t) None
         (nomeCliente t) (servico_input t) (valorOrcamento t).

(** What one staff member can do on the screen, one handler at a time,
    with no other client writing to the server. A button is pressed only
    when it is on screen: the list's icons when no modal is open, a
    modal's buttons when it is open. A save is taken with values that
    survive the JSON and SQL round trips; a property below covers the
    other case. *)
Inductive gstep : tela * db -> tela * db -> Prop :=
| gs_load fault t s : gstep (t, s) (buscarAgendamentos (get_clientes fault s) t, s)
| gs_editar a t s :
    modalVisible t = false -> modalExcluirVisible t = false -> In a (agendamentos t) ->
    gstep (t, s) ((editar a t).1, s)
| gs_nome str t s : modalVisible t = true -> gstep (t, s) (setNomeCliente str t, s)
| gs_servico str t s : modalVisible t = true -> gstep (t, s) (setServico str t, s)
| gs_valor str t s : modalVisible t = true -> gstep (t, s) (setValorOrcamento str t, s)
| gs_fechar t s : modalVisible t = true -> gstep (t, s) (fecharModal t, s)
| gs_salvar fault t s :
    modalVisible t = true -> stable (nomeCliente t) -> stable (servico_input t) ->
    stable (JNumber (parseFloat (valorOrcamento t))) ->
    gstep (t, s) (salvarEdicao fault t s)
| gs_excluir i r t s :
    modalVisible t = false -> modalExcluirVisible t = false -> In (i, r) (agendamentos t) ->
    gstep (t, s) (excluir i (nome_cliente r) t, s)
| gs_confirmar fault t s :
    modalExcluirVisible t = true -> gstep (t, s) (confirmarExclusao fault t s)
| gs_cancelar t s : modalExcluirVisible t = true -> gstep (t, s) (cancelarExclusao t, s).

End Handlers.

(** The invariant of a session: the copy is in sync with the table, the
    table's rowids are sorted SQLite rowids, and an open modal refers
    to a row of the copy. *)
Definition gerenciar_inv (st : tela * db) : Prop :=
  let (t, s) := st in
  in_sync t s /\ rowids_sorted (clientes s) /\
  Forall (fun i => (Z.of_nat i < 2 ^ 63)%Z) (map fst (clientes s)) /\
  (modalVisible t = true -> exists p, editandoAgendamento t = Some p /\ In p (agendamentos t)) /\
  (modalExcluirVisible t = true ->
     exists i nome, excluirAgendamento t = Some (i, nome) /\ (Z.of_nat i < 2 ^ 63)%Z) /\
  ~ (modalVisible t = true /\ modalExcluirVisible t = true).

(** Sample builtins for concrete runs: [parseFloat] reads 60, and
    [toString] writes 50. *)
Definition parse60 (_ : string) : SpecFloat.spec_float := SpecFloat.S754_finite false 15 2.
Definition parseNaN (_ : string) : SpecFloat.spec_float := SpecFloat.S754_nan.
Definition show50 (_ : SpecFloat.spec_float) : string := "50".

(** The screen after loading [sample_db] and opening its row. *)
Definition tela_editando : tela :=
  mkTela (view (clientes sample_db)) true false (Some (1, row_rt sample_row)) None
         (JString "Ana") (JString "Corte") "50".

(** ** The id in the URL *)

Section IdPath.
Local Open Scope Z_scope.

Lemma dec_digits_acc f n acc : dec_digits f n acc = (dec_digits f n [] ++ acc)%list.
Proof.
  revert n acc. induction f as [|f IH]; intros n acc; cbn [dec_digits]; [done|].
  destruct (n <? 10); [done|]. rewrite (IH _ (_ :: acc)), (IH _ [_]).
  by rewrite <- app_assoc.
Qed.

Lemma digits_Z_app a l1 l2 : digits_Z a (l1 ++ l2) = digits_Z (digits_Z a l1) l2.
Proof. revert a. induction l1 as [|c l1 IH]; intros a; simpl; [done|]. apply IH. Qed.

Lemma digit_char_value d : 0 <= d < 10 -> Z.of_nat (nat_of_ascii (digit_char d)) - 48 = d.
Proof. intros Hd. unfold digit_char. rewrite nat_ascii_embedding; lia. Qed.

(** Reading back the decimal digits of [n] gives [n], within the fuel. *)
Lemma dec_digits_value f n : 0 <= n < 10 ^ Z.of_nat f -> digits_Z 0 (dec_digits f n []) = n.
Proof.
  revert n. induction f as [|f IH]; intros n Hn.
  - simpl in Hn. simpl. lia.
  - cbn [dec_digits]. rewrite Nat2Z.inj_succ, Z.pow_succ_r in Hn by lia.
    pose proof (Z.mod_pos_bound n 10).
    destruct (n <? 10) eqn:E.
    + apply Z.ltb_lt in E. rewrite Z.mod_small by lia. cbn [digits_Z].
      rewrite digit_char_value by lia. lia.
    + apply Z.ltb_ge in E. rewrite dec_digits_acc, digits_Z_app, IH.
      2: { split; [apply Z.div_pos|apply Z.div_lt_upper_bound]; lia. }
      cbn [digits_Z]. rewrite digit_char_value by lia. pose proof (Z.div_mod n 10). lia.
Qed.

Lemma dec_digits_nonempty f n : dec_digits (S f) n [] <> [].
Proof.
  cbn [dec_digits]. destruct (n <? 10); [done|]. rewrite dec_digits_acc.
  by destruct (dec_digits f (n / 10) []).
Qed.

(** Every rowid SQLite can hold (below [2^63], so at most nineteen
    digits) is read back by the server as itself. *)
Lemma id_path_roundtrip i : Z.of_nat i < 2 ^ 63 -> rowid_of_param (id_path i) = Some i.
Proof.
  intros Hi. unfold id_path, number_to_string. rewrite (proj2 (Z.ltb_ge _ 0)) by lia.
  assert (Hv : digits_Z 0 (dec_digits 20 (Z.of_nat i) []) = Z.of_nat i).
  { apply dec_digits_value. assert (10 ^ Z.of_nat 20 = 100000000000000000000) by reflexivity. lia. }
  rewrite rowid_of_param_digits, Hv, Nat2Z.id; [done|apply dec_digits_nonempty| |by rewrite Hv].
  apply dec_digits_digits. constructor.
Qed.

Lemma length_string_of_list_ascii l : String.length (string_of_list_ascii l) = length l.
Proof. induction l as [|c l IH]; simpl; [done|]. by rewrite IH. Qed.

(** A number below [10 ^ (k + 1)] has at most [k + 1] digits. *)
Lemma dec_digits_length f n k :
  0 <= n < 10 ^ Z.of_nat (S k) -> (length (dec_digits f n []) <= S k)%nat.
Proof.
  revert n k. induction f as [|f IH]; intros n k Hn; cbn [dec_digits]; [simpl; lia|].
  destruct (n <? 10) eqn:E; [simpl; lia|]. apply Z.ltb_ge in E.
  rewrite dec_digits_acc, length_app. simpl length.
  destruct k as [|k]; [simpl in Hn; lia|].
  enough (length (dec_digits f (n / 10) []) <= S k)%nat by lia. apply IH.
  rewrite Nat2Z.inj_succ, Z.pow_succ_r in Hn by lia.
  split; [apply Z.div_pos|apply Z.div_lt_upper_bound]; lia.
Qed.

(** Fuel beyond the number of digits changes nothing. *)
Lemma dec_digits_fuel f k n acc :
  0 <= n < 10 ^ Z.of_nat (S f) -> dec_digits (S f + k) n acc = dec_digits (S f) n acc.
Proof.
  revert n acc. induction f as [|f IH]; intros n acc Hn.
  - simpl in Hn. cbn [dec_digits Nat.add]. by rewrite (proj2 (Z.ltb_lt n 10)) by lia.
  - cbn [dec_digits Nat.add]. destruct (n <? 10) eqn:E; [done|]. apply Z.ltb_ge in E.
    apply IH. rewrite Nat2Z.inj_succ, Z.pow_succ_r in Hn by lia.
    split; [apply Z.div_pos|apply Z.div_lt_upper_bound]; lia.
Qed.

End IdPath.

(** ** JSON round trips *)

Lemma stable_rt v : stable v -> json_rt (sql_bind (json_rt v)) = v.
Proof. intros [H1 H2]. by rewrite H1, H2, H1. Qed.

(** What the server reads from the body of the PUT. *)
Lemma put_body_fields i r :
  prop (put_body i r) "nome_cliente" = json_rt (nome_cliente r) /\
  prop (put_body i r) "servico" = json_rt (servico r) /\
  prop (put_body i r) "valor_orcamento" = json_rt (valor_orcamento r).
Proof.
  unfold put_body.
  repeat split; json_obj_simpl; done.
Qed.

Lemma In_view i r t : In (i, r) (view t) <-> exists r0, In (i, r0) t /\ r = row_rt r0.
Proof.
  unfold view. rewrite in_map_iff. split.
  - intros [[j r0] [Heq Hin]]. injection Heq as <- <-. eauto.
  - intros [r0 [Hin ->]]. by exists (i, r0).
Qed.

(** ** The local copy against the server *)

Section Sync.
Context (parseFloat : string -> SpecFloat.spec_float).

(** The screen's copy after a successful edit is the table after the
    server's UPDATE, when the edited row came from a copy in sync, its
    id is a real rowid and the three edited values survive the JSON and
    SQL round trips. A failed request changes neither side. *)
Theorem salvarEdicao_in_sync fault t s i r :
  in_sync t s -> rowids_sorted (clientes s) -> (Z.of_nat i < 2 ^ 63)%Z ->
  editandoAgendamento t = Some (i, r) -> In (i, r) (agendamentos t) ->
  stable (nomeCliente t) -> stable (servico_input t) ->
  stable (JNumber (parseFloat (valorOrcamento t))) ->
  in_sync (salvarEdicao parseFloat fault t s).1 (salvarEdicao parseFloat fault t s).2.
Proof.
  intros Hsync Hs Hi Hed Hin Hn Hsv Hv. unfold salvarEdicao. rewrite Hed.
  unfold put_agendamento. destruct fault; [done|]. unfold in_sync.
  cbn -[put_body prop view id_path rowid_of_param updated].
  rewrite Hsync in Hin |- *. rewrite id_path_roundtrip by done.
  destruct (put_body_fields i (updated parseFloat r t)) as [-> [-> ->]].
  apply In_view in Hin as [r0 [Hin0 ->]].
  unfold view, sql_update. rewrite !map_map. apply map_ext_in. intros [j r1] Hj. cbn [fst snd].
  unfold id_matches. destruct (decide (j = i)) as [->|Hne].
  - rewrite !bool_decide_eq_true_2 by done.
    rewrite (sorted_rowid_unique _ i r1 r0) by done.
    unfold row_rt, updated, set_edit. cbn [fst snd nome_cliente data hora servico valor_orcamento].
    by rewrite !stable_rt.
  - by rewrite !bool_decide_eq_false_2 by congruence.
Qed.

(** C22. An amount that does not parse ([parseFloat] gives [NaN]) is saved
    as NULL: JSON has no [NaN]. The edit succeeds and the screen shows
    the number [NaN] in that row, while the server holds NULL. After the
    next load of the list, opening that row for editing throws, as
    [null.toString()] has no method. *)
Theorem salvarEdicao_nan number_toString t s i r0 :
  in_sync t s -> (Z.of_nat i < 2 ^ 63)%Z -> In (i, r0) (clientes s) ->
  editandoAgendamento t = Some (i, row_rt r0) ->
  parseFloat (valorOrcamento t) = SpecFloat.S754_nan ->
  let p := salvarEdicao parseFloat false t s in
  In (i, updated parseFloat (row_rt r0) t) (agendamentos p.1) /\
  valor_orcamento (updated parseFloat (row_rt r0) t) = JNumber SpecFloat.S754_nan /\
  (forall r, In (i, r) (clientes p.2) -> valor_orcamento r = JNull) /\
  (forall r t', In (i, r) (agendamentos (buscarAgendamentos (get_clientes false p.2) t')) ->
     (editar number_toString (i, r) t').2 = false).
Proof.
  intros Hsync Hi Hin Hed Hnan p.
  assert (Hs2 : forall r, In (i, r) (clientes p.2) -> valor_orcamento r = JNull).
  { intros r Hr. unfold p, salvarEdicao in Hr. rewrite Hed in Hr. cbn -[put_body id_path] in Hr.
    rewrite id_path_roundtrip in Hr by done.
    apply In_sql_update in Hr as [r1 [_ ->]]. unfold id_matches.
    rewrite bool_decide_eq_true_2 by done. cbn [set_edit valor_orcamento].
    destruct (put_body_fields i (updated parseFloat (row_rt r0) t)) as [_ [_ ->]].
    cbn [updated valor_orcamento]. by rewrite Hnan. }
  split; [|split; [by cbn; rewrite Hnan|split; [done|]]].
  - unfold p, salvarEdicao. rewrite Hed. cbn -[put_body id_path updated].
    apply in_map_iff. exists (i, row_rt r0). rewrite bool_decide_eq_true_2 by done.
    split; [done|]. rewrite Hsync. apply In_view. by exists r0.
  - intros r t' Hr. unfold buscarAgendamentos, get_clientes in Hr. cbn in Hr.
    apply In_view in Hr as [r1 [Hr1 ->]]. unfold editar. cbn. by rewrite (Hs2 r1 Hr1).
Qed.

End Sync.

(** A confirmed cancellation removes the same row from the screen's copy
    and from the table. *)
Theorem confirmarExclusao_in_sync fault t s i nome :
  in_sync t s -> (Z.of_nat i < 2 ^ 63)%Z -> excluirAgendamento t = Some (i, nome) ->
  in_sync (confirmarExclusao fault t s).1 (confirmarExclusao fault t s).2.
Proof.
  intros Hsync Hi Hex. unfold confirmarExclusao. rewrite Hex.
  unfold delete_agendamento. destruct fault; [done|]. unfold in_sync. cbn.
  rewrite Hsync, id_path_roundtrip by done. unfold view, sql_delete.
  rewrite filter_map_swap. f_equal. apply filter_ext. intros [j r]. cbn.
  unfold id_matches. f_equal. apply bool_decide_ext. split; [intros ->|intros [= ->]]; done.
Qed.

(** ** A session of the screen *)

Section Session.
Context (parseFloat : string -> SpecFloat.spec_float).
Context (number_toString : SpecFloat.spec_float -> string).

Lemma view_id_bound s i r :
  Forall (fun i => (Z.of_nat i < 2 ^ 63)%Z) (map fst (clientes s)) ->
  In (i, r) (view (clientes s)) -> (Z.of_nat i < 2 ^ 63)%Z.
Proof.
  intros Hb Hin. apply In_view in Hin as [r0 [Hin _]].
  rewrite List.Forall_forall in Hb. apply Hb, in_map_iff. by exists (i, r0).
Qed.

(** A save either changes nothing or closes the edit modal and runs an
    UPDATE. *)
Lemma salvarEdicao_cases fault t s :
  salvarEdicao parseFloat fault t s = (t, s) \/
  (modalVisible (salvarEdicao parseFloat fault t s).1 = false /\
   modalExcluirVisible (salvarEdicao parseFloat fault t s).1 = modalExcluirVisible t /\
   excluirAgendamento (salvarEdicao parseFloat fault t s).1 = excluirAgendamento t /\
   exists id f, clientes (salvarEdicao parseFloat fault t s).2 = sql_update id f (clientes s)).
Proof.
  unfold salvarEdicao. destruct (editandoAgendamento t) as [[i r]|]; [|by left].
  unfold put_agendamento. destruct fault; [by left|]. right. cbn -[put_body id_path].
  do 3 (split; [done|]). by eexists _, _.
Qed.

(** A confirmation either changes nothing or closes the cancel modal and
    runs a DELETE. *)
Lemma confirmarExclusao_cases fault t s :
  confirmarExclusao fault t s = (t, s) \/
  (modalVisible (confirmarExclusao fault t s).1 = modalVisible t /\
   modalExcluirVisible (confirmarExclusao fault t s).1 = false /\
   exists id, clientes (confirmarExclusao fault t s).2 = sql_delete id (clientes s)).
Proof.
  unfold confirmarExclusao. destruct (excluirAgendamento t) as [[i nome]|]; [|by left].
  unfold delete_agendamento. destruct fault; [by left|]. right. cbn -[id_path].
  do 2 (split; [done|]). by eexists.
Qed.

Lemma ids_bound_update id f (t : table cliente) :
  Forall (fun i => (Z.of_nat i < 2 ^ 63)%Z) (map fst t) ->
  Forall (fun i => (Z.of_nat i < 2 ^ 63)%Z) (map fst (sql_update id f t)).
Proof. by rewrite sql_update_ids. Qed.

Lemma ids_bound_delete id (t : table cliente) :
  Forall (fun i => (Z.of_nat i < 2 ^ 63)%Z) (map fst t) ->
  Forall (fun i => (Z.of_nat i < 2 ^ 63)%Z) (map fst (sql_delete id t)).
Proof.
  unfold sql_delete. rewrite !List.Forall_forall.
  intros H i Hi. apply in_map_iff in Hi as [[j r] [<- Hin]].
  apply filter_In in Hin as [Hin _]. apply H, in_map_iff. by exists (j, r).
Qed.

#[export] Instance gstep_preserves : Preserved (gstep parseFloat number_toString) gerenciar_inv.
Proof.
  intros st st' Hst. destruct Hst as
    [fault t s|a t s Hm0 Hx0 Ha|str t s Hm0|str t s Hm0|str t s Hm0|t s Hm0
    |fault t s Hm0 Hn Hsv Hv|i r t s Hm0 Hx0 Hin|fault t s Hx0|t s Hx0];
    cbn [gerenciar_inv]; intros (Hsync & Hs & Hb & Hm & Hx & Hn2).
  - replace (buscarAgendamentos (get_clientes fault s) t) with t; [by repeat split|].
    unfold buscarAgendamentos, get_clientes. destruct fault; [done|]. cbn.
    rewrite <- Hsync. by destruct t.
  - unfold editar. destruct (to_string number_toString (valor_orcamento a.2));
      unfold in_sync in *; cbn; repeat split; try done;
      try (intros _; by exists a); intros [H1 H2]; congruence.
  - by repeat split.
  - by repeat split.
  - by repeat split.
  - repeat split; try done; cbn; intros H; (discriminate || tauto).
  - destruct (Hm Hm0) as [[i r] [Hed Hin]].
    assert (Hi : (Z.of_nat i < 2 ^ 63)%Z) by (rewrite Hsync in Hin; by eapply view_id_bound).
    pose proof (salvarEdicao_in_sync parseFloat fault t s i r Hsync Hs Hi Hed Hin Hn Hsv Hv) as Hsync'.
    pose proof (salvarEdicao_cases fault t s) as Hc. revert Hsync' Hc.
    destruct (salvarEdicao parseFloat fault t s) as [t' s']. cbn [fst snd].
    intros Hsync' [[= -> ->]|(Hm' & Hx' & He' & id & f & Hcl)]; [by repeat split|].
    cbn [gerenciar_inv]. rewrite Hcl. repeat split; try done.
    + by apply sql_update_sorted.
    + by apply ids_bound_update.
    + congruence.
    + rewrite Hx', He'. done.
    + intros [H _]; congruence.
  - cbn. repeat split; try done; [|intros [H _]; congruence].
    intros _. exists i, (nome_cliente r). split; [done|].
    rewrite Hsync in Hin. by eapply view_id_bound.
  - destruct (Hx Hx0) as (i & nome & Hex & Hi).
    pose proof (confirmarExclusao_in_sync fault t s i nome Hsync Hi Hex) as Hsync'.
    assert (Hm0 : modalVisible t = false) by (destruct (modalVisible t); tauto).
    pose proof (confirmarExclusao_cases fault t s) as Hc. revert Hsync' Hc.
    destruct (confirmarExclusao fault t s) as [t' s']. cbn [fst snd].
    intros Hsync' [[= -> ->]|(Hm' & Hx' & id & Hcl)]; [by repeat split|].
    cbn [gerenciar_inv]. rewrite Hcl. repeat split; try done.
    + by apply sql_delete_sorted.
    + by apply ids_bound_delete.
    + congruence.
    + congruence.
    + intros [_ H]; congruence.
  - cbn. repeat split; try done. intros [_ H]; discriminate.
Qed.

(** C11. After the screen loads the list from a server whose rowids are
    sorted SQLite rowids, any sequence of actions of the staff member
    keeps the screen's copy equal to the table, with saves whose values
    survive the JSON and SQL round trips, as long as each save or delete
    is answered before the next action: [gstep] runs a handler and its
    [await fetch] as one step. When a response is still in flight and
    the staff member goes on, the copy can be lost
    ([Assincrono.respostas_sobrepostas]). *)
Theorem gerenciar_session_in_sync s st :
  rowids_sorted (clientes s) -> Forall (fun i => (Z.of_nat i < 2 ^ 63)%Z) (map fst (clientes s)) ->
  star (gstep parseFloat number_toString) (buscarAgendamentos (get_clientes false s) tela0, s) st ->
  in_sync st.1 st.2.
Proof.
  intros Hs Hb Hstar.
  assert (Hinv : gerenciar_inv st).
  { apply (star_preserved (gstep parseFloat number_toString) gerenciar_inv _ _ Hstar).
    cbn. repeat split; try done; intros [H _]; discriminate. }
  destruct st as [t s']. apply Hinv.
Qed.

End Session.

(** Bounds of the id in the URL. For every rowid SQLite can hold (a
    signed 64-bit integer, below [2^63]), [String(id)] has at most
    nineteen digits, the twenty digits of fuel of [number_to_string]
    are enough (more fuel gives the same text), and the server reads
    the text back as the same rowid. On the screen the id is a JS
    number, a double: it is exact, and this text is the one
    [`${id}`] gives, only below [2^53]; the model keeps the id as a
    [nat]. *)
Theorem id_path_bounds i :
  (Z.of_nat i < 2 ^ 63)%Z ->
  rowid_of_param (id_path i) = Some i /\ String.length (id_path i) <= 19 /\
  forall k, dec_digits (20 + k) (Z.of_nat i) [] = dec_digits 20 (Z.of_nat i) [].
Proof.
  intros Hi. assert (H19 : (Z.of_nat i < 10 ^ Z.of_nat 19)%Z) by (cbn; lia).
  split; [by apply id_path_roundtrip|split].
  - unfold id_path, number_to_string. rewrite (proj2 (Z.ltb_ge _ 0)) by lia.
    rewrite length_string_of_list_ascii. apply dec_digits_length. lia.
  - intros k. apply (dec_digits_fuel 19). split; [lia|].
    apply (Z.lt_le_trans _ _ _ H19), Z.pow_le_mono_r; lia.
Qed.

(** ** Witnesses *)

Lemma id_path_bounds_witness :
  rowid_of_param (id_path 42) = Some 42 /\ String.length (id_path 42) <= 19 /\
  forall k, dec_digits (20 + k) (Z.of_nat 42) [] = dec_digits 20 (Z.of_nat 42) [].
Proof. apply id_path_bounds. lia. Defined.


Lemma gerenciar_session_in_sync_witness :
  in_sync (salvarEdicao parse60 false (setValorOrcamento "60" tela_editando) sample_db).1
          (salvarEdicao parse60 false (setValorOrcamento "60" tela_editando) sample_db).2.
Proof.
  apply (gerenciar_session_in_sync parse60 show50 sample_db
           (salvarEdicao parse60 false (setValorOrcamento "60" tela_editando) sample_db)).
  - unfold rowids_sorted. repeat constructor.
  - repeat constructor.
  - eapply star_step; [apply (gs_editar parse60 show50 (1, row_rt sample_row)); try reflexivity|].
    { vm_compute. left. reflexivity. }
    eapply star_step; [apply (gs_valor parse60 show50 "60"); reflexivity|].
    apply star_one. apply gs_salvar; try reflexivity; split; reflexivity.
Defined.

Lemma salvarEdicao_nan_witness :
  let p := salvarEdicao parseNaN false (setValorOrcamento "abc" tela_editando) sample_db in
  In (1, updated parseNaN (row_rt sample_row) (setValorOrcamento "abc" tela_editando))
     (agendamentos p.1) /\
  valor_orcamento (updated parseNaN (row_rt sample_row) (setValorOrcamento "abc" tela_editando))
    = JNumber SpecFloat.S754_nan /\
  (forall r, In (1, r) (clientes p.2) -> valor_orcamento r = JNull) /\
  (forall r t', In (1, r) (agendamentos (buscarAgendamentos (get_clientes false p.2) t')) ->
     (editar show50 (1, r) t').2 = false).
Proof.
  apply (salvarEdicao_nan parseNaN show50 (setValorOrcamento "abc" tela_editando) sample_db 1 sample_row);
    try reflexivity.
  vm_compute. left. reflexivity.
Defined.

End Gerenciar.
