(* ===== verification/Cadastrar.v ===== *)
(** The booking form, [src/app/(tabs)/cadastrar.tsx]. On mount it loads
    the service catalog and builds the candidate dates. When the chosen
    date changes, it recomputes the free slots
    ([Availability.consultarHorariosDisponiveis]). Choosing a service
    sets the budget to that service's price. Submitting posts the five
    fields to [POST /api/cadastro], and on a 201 clears the fields.

    The state of the component (its [useState] hooks) is the record
    [form], with one function per handler or effect. A handler that
    sends a request takes the server's store and the storage outcome,
    and returns the new form and the new store. axios resolves a 2xx
    response and rejects any other ([Availability.ok_json]); a request
    body is an object literal after the JSON round trip
    ([Js.json_obj]). The submit button ([enviar]) runs the browser's
    [required] check on the name and the three [select]s first; a
    [select] whose state matches none of its options shows its empty
    first option, and so blocks the submission. *)

From S2P Require Import Prelude JsValue Store Server Availability Calendar.
Import Js Store Server Calendar.

Module Cadastrar.

Record form := mkForm {
  servicosDisponiveis : list servico_row;
  datasDisponiveis : list string;
  horariosDisponiveis : list jsval;
  nomeCliente : string;
  dataEscolhida : string;
  horaEscolhida : string;
  servicoEscolhido : string;
  valorOrcamento : jsval
}.

(** The initial values of the [useState] hooks. *)
Definition form0 : form := mkForm [] [] [] "" "" "" "" (js_int 0).

(** [carregarServicosDisponiveis]: a rejected request is an alert. *)
Definition carregarServicosDisponiveis (r : response) (f : form) : form :=
  match Availability.ok_json r with
  | Some (PServicos l) =>
      mkForm l (datasDisponiveis f) (horariosDisponiveis f) (nomeCliente f) (dataEscolhida f)
             (horaEscolhida f) (servicoEscolhido f) (valorOrcamento f)
  | _ => f
  end.

(** The mount effect: the catalog request and the candidate dates of
    now ([agora]) in the zone of offset [off]. *)
Definition montar (r : response) (off agora : Z) : form :=
  let f := carregarServicosDisponiveis r form0 in
  mkForm (servicosDisponiveis f) (gerarDatasDisponiveis off agora) (horariosDisponiveis f)
         (nomeCliente f) (dataEscolhida f) (horaEscolhida f) (servicoEscolhido f)
         (valorOrcamento f).

Definition setNomeCliente (s : string) (f : form) : form :=
  mkForm (servicosDisponiveis f) (datasDisponiveis f) (horariosDisponiveis f) s
         (dataEscolhida f) (horaEscolhida f) (servicoEscolhido f) (valorOrcamento f).

Definition setHoraEscolhida (h : string) (f : form) : form :=
  mkForm (servicosDisponiveis f) (datasDisponiveis f) (horariosDisponiveis f) (nomeCliente f)
         (dataEscolhida f) h (servicoEscolhido f) (valorOrcamento f).

(** The date [select]'s [onChange], then the effect on [dataEscolhida]:
    it runs only when the value changed, with the answers [rc] of
    [GET /api/clientes] and [rg] of [GET /api/gestao]. *)
Definition escolherData (d : string) (rc rg : response) (f : form) : form :=
  let f1 := mkForm (servicosDisponiveis f) (datasDisponiveis f) (horariosDisponiveis f)
                   (nomeCliente f) d (horaEscolhida f) (servicoEscolhido f) (valorOrcamento f) in
  if String.eqb d (dataEscolhida f) then f1
  else mkForm (servicosDisponiveis f1) (datasDisponiveis f1)
              (Availability.consultarHorariosDisponiveis d rc rg (horariosDisponiveis f1))
              (nomeCliente f1) (dataEscolhida f1) (horaEscolhida f1) (servicoEscolhido f1)
              (valorOrcamento f1).

(** The service [select]'s [onChange]: the first service of that name,
    and its price, or 0 when there is none. *)
Definition escolherServico (v : string) (f : form) : form :=
  let servico := List.find (fun sv => Availability.strict_eq (nome sv) (JString v))
                           (servicosDisponiveis f) in
  mkForm (servicosDisponiveis f) (datasDisponiveis f) (horariosDisponiveis f) (nomeCliente f)
         (dataEscolhida f) (horaEscolhida f) v
         (match servico with Some sv => preco sv | None => js_int 0 end).

(** The body of the POST. *)
Definition cadastro_body (f : form) : body :=
  json_obj [("nomeCliente", JString (nomeCliente f)); ("data", JString (dataEscolhida f));
            ("hora", JString (horaEscolhida f)); ("servico", JString (servicoEscolhido f));
            ("valorOrcamento", valorOrcamento f)].

(** The five setters of the 201 branch. *)
Definition limpar (f : form) : form :=
  mkForm (servicosDisponiveis f) (datasDisponiveis f) (horariosDisponiveis f) "" "" "" ""
         (js_int 0).

(** [handleFormSubmit]. Without a date or a time, an alert and no
    request. A 201 clears the fields; a rejected request is an alert. *)
Definition handleFormSubmit (fault : bool) (s : db) (f : form) : form * db :=
  if negb (js_truthy (JString (dataEscolhida f))) || negb (js_truthy (JString (horaEscolhida f)))
  then (f, s)
  else
    let (resp, s') := post_cadastro (cadastro_body f) fault s in
    if Z.eqb (status resp) 201 then (limpar f, s') else (f, s').

(** ** The form element and the browser's constraint validation *)

(** The value of a [<select value={v}>]: React selects the option whose
    value is [v], and the first option when none has it. *)
Definition select_value (opcoes : list string) (v : string) : string :=
  match opcoes with
  | [] => ""
  | o :: _ => if bool_decide (v ∈ opcoes) then v else o
  end.

Section Envio.
(** The text React writes into [value={x}] for a value that is not a
    string: not modelled. A string is written as it is. *)
Context (atributo_nao_texto : jsval -> string).

Definition valor_atributo (v : jsval) : string :=
  match v with JString t => t | _ => atributo_nao_texto v end.

(** The options of the three [select]s: a first option of value [""],
    then one per candidate date, free slot, or service of the catalog. *)
Definition opcoes_data (f : form) : list string := "" :: datasDisponiveis f.

Definition opcoes_hora (f : form) : list string :=
  "" :: map valor_atributo (horariosDisponiveis f).

Definition opcoes_servico (f : form) : list string :=
  "" :: map (fun sv => valor_atributo (nome sv)) (servicosDisponiveis f).

(** The submit button of the [form]. The browser checks the four
    [required] controls first: a control whose value is empty blocks
    the submission, and [onSubmit] does not run. *)
Definition enviar (fault : bool) (s : db) (f : form) : form * db :=
  if existsb (String.eqb "")
       [nomeCliente f; select_value (opcoes_data f) (dataEscolhida f);
        select_value (opcoes_hora f) (horaEscolhida f);
        select_value (opcoes_servico f) (servicoEscolhido f)]
  then (f, s)
  else handleFormSubmit fault s f.

(** What the browser lets through: a name, and a date, a time and a
    service among the options on screen. *)
Definition escolhas_validas (f : form) : Prop :=
  nomeCliente f <> "" /\
  dataEscolhida f <> "" /\ In (dataEscolhida f) (datasDisponiveis f) /\
  horaEscolhida f <> "" /\ In (horaEscolhida f) (map valor_atributo (horariosDisponiveis f)) /\
  servicoEscolhido f <> "" /\
  In (servicoEscolhido f) (map (fun sv => valor_atributo (nome sv)) (servicosDisponiveis f)).

End Envio.

(** Sample forms over [sample_db]: Bia books the free slot 10:00:00 of
    2025-01-10 for the service Corte; the same form just mounted, offering
    the date 2025-01-10, before any date or time is chosen. *)
Definition form_bia : form :=
  mkForm (servicos sample_db) ["2025-01-10"] [JString "10:00:00"] "Bia" "2025-01-10" "10:00:00" "Corte"
         (js_int 50).

Definition form_montado : form :=
  mkForm (servicos sample_db) ["2025-01-10"] [] "Bia" "" "" "Corte" (js_int 50).

(** Bia's form after she chose 2025-01-09, where 09:00:00 and 10:00:00
    are free. *)
Definition form_anterior : form :=
  mkForm (servicos sample_db) ["2025-01-09"; "2025-01-10"] [JString "09:00:00"; JString "10:00:00"]
         "Bia" "2025-01-09" "" "Corte" (js_int 50).

(** ** Lemmas *)

(** What the server reads from the body of the POST. *)
Lemma cadastro_body_fields f :
  prop (cadastro_body f) "nomeCliente" = JString (nomeCliente f) /\
  prop (cadastro_body f) "data" = JString (dataEscolhida f) /\
  prop (cadastro_body f) "hora" = JString (horaEscolhida f) /\
  prop (cadastro_body f) "servico" = JString (servicoEscolhido f) /\
  prop (cadastro_body f) "valorOrcamento" = json_rt (valorOrcamento f).
Proof. unfold cadastro_body. repeat split; json_obj_simpl; done. Qed.

Lemma regex_nonempty p s :
  (p = dataRegex \/ p = horaRegex) -> regex_test p (JString s) = true -> s <> "".
Proof. intros [-> | ->] H ->; vm_compute in H; discriminate H. Qed.

(** After a submission the store is the one before, or the one the
    server's POST left. *)
Lemma handleFormSubmit_store fault s f :
  (handleFormSubmit fault s f).2 = s \/
  (handleFormSubmit fault s f).2 = (post_cadastro (cadastro_body f) fault s).2.
Proof.
  unfold handleFormSubmit. destruct (_ || _); [by left|right].
  destruct (post_cadastro (cadastro_body f) fault s) as [resp s']. by destruct (Z.eqb _ _).
Qed.

(** A rejected POST changes neither the form nor the store. *)
Lemma handleFormSubmit_rejected fault s f :
  cadastro_ok (cadastro_body f) = false -> handleFormSubmit fault s f = (f, s).
Proof.
  intros Hok. destruct (post_cadastro_rejects (cadastro_body f) fault s) as [H400 Hsame].
  unfold handleFormSubmit. destruct (_ || _); [done|].
  pose proof (proj2 H400 Hok) as Hst. pose proof (Hsame (or_introl Hok)) as Hs.
  destruct (post_cadastro (cadastro_body f) fault s) as [resp s']. cbn in Hst, Hs.
  by rewrite Hst, Hs.
Qed.

(** A select shows a non-empty value only when the state holds one of
    its options. *)
Lemma select_value_nonempty opts v :
  "" <> select_value ("" :: opts) v <-> v <> "" /\ In v opts.
Proof.
  unfold select_value. case_bool_decide as Hv; rewrite elem_of_cons, list_elem_of_In in *.
  - split; [|by intros [? _]]. intros Hne. destruct Hv as [->|Hv]; done.
  - split; [done|]. intros [_ Hin]. by destruct Hv; right.
Qed.

Lemma enviar_guard atributo f :
  existsb (String.eqb "")
    [nomeCliente f; select_value (opcoes_data f) (dataEscolhida f);
     select_value (opcoes_hora atributo f) (horaEscolhida f);
     select_value (opcoes_servico atributo f) (servicoEscolhido f)] = false <->
  escolhas_validas atributo f.
Proof.
  unfold escolhas_validas, opcoes_data, opcoes_hora, opcoes_servico. cbn [existsb].
  rewrite !orb_false_iff, !(String.eqb_neq ""), !select_value_nonempty.
  split; [intros (? & [? ?] & [? ?] & [? ?] & _)|intros (? & ? & ? & ? & ? & ? & ?)];
    repeat split; auto; congruence.
Qed.

(** A valid submission appends the form's row. *)
Lemma handleFormSubmit_insert s f :
  nomeCliente f <> "" -> servicoEscolhido f <> "" ->
  regex_test dataRegex (JString (dataEscolhida f)) = true ->
  regex_test horaRegex (JString (horaEscolhida f)) = true ->
  js_truthy (valorOrcamento f) = true -> stable (valorOrcamento f) ->
  handleFormSubmit false s f =
    (limpar f,
     set_clientes (clientes s ++ [(next_rowid (clientes s),
        mkCliente (JString (nomeCliente f)) (JString (dataEscolhida f))
                  (JString (horaEscolhida f)) (JString (servicoEscolhido f))
                  (valorOrcamento f))])%list s).
Proof.
  intros Hn Hs Hd Hh Hv [Hrt Hbind].
  pose proof (regex_nonempty _ _ (or_introl eq_refl) Hd) as Hdne.
  pose proof (regex_nonempty _ _ (or_intror eq_refl) Hh) as Hhne.
  destruct (cadastro_body_fields f) as (Hbn & Hbd & Hbh & Hbs & Hbv).
  assert (Hok : cadastro_ok (cadastro_body f) = true).
  { unfold cadastro_ok. rewrite Hbn, Hbd, Hbh, Hbs, Hbv, Hrt, Hv, Hd, Hh.
    by rewrite !(proj2 (js_truthy_string _)). }
  unfold handleFormSubmit. rewrite !(proj2 (js_truthy_string _)) by done. cbn [negb orb].
  rewrite post_cadastro_insert by done. cbn [fst snd status Z.eqb Pos.eqb].
  unfold cadastro_row. by rewrite Hbn, Hbd, Hbh, Hbs, Hbv, Hrt, Hbind.
Qed.

(** ** Properties *)



(** A submission that passes the browser's checks, of a date and a time
    of the server's formats and a budget that survives the round trips,
    inserts the form's row and clears the form. *)
Lemma enviar_insere atributo t g d h :
  escolhas_validas atributo g ->
  dataEscolhida g = d -> horaEscolhida g = h ->
  regex_test dataRegex (JString d) = true -> regex_test horaRegex (JString h) = true ->
  js_truthy (valorOrcamento g) = true -> stable (valorOrcamento g) ->
  enviar atributo false t g =
    (limpar g,
     set_clientes (sql_insert (clientes t)
       (mkCliente (JString (nomeCliente g)) (JString d) (JString h)
                  (JString (servicoEscolhido g)) (valorOrcamento g))) t).
Proof.
  intros Hg Hgd Hgh Hd Hh Hgv Hgst. pose proof Hg as (Hgn & _ & _ & _ & _ & Hgs & _).
  unfold enviar. rewrite (proj2 (enviar_guard atributo g) Hg).
  rewrite handleFormSubmit_insert; rewrite ?Hgd, ?Hgh; done.
Qed.

(** A date chosen while [GET /api/clientes] fails: the effect's [catch]
    leaves the slots of the previous date on screen. *)
Lemma escolherData_falha d s rg f :
  d <> dataEscolhida f ->
  let g := escolherData d (get_clientes true s) rg f in
  horariosDisponiveis g = horariosDisponiveis f /\ dataEscolhida g = d /\
  nomeCliente g = nomeCliente f /\ servicoEscolhido g = servicoEscolhido f /\
  valorOrcamento g = valorOrcamento f.
Proof.
  intros Hdiff g. unfold g, escolherData. rewrite (proj2 (String.eqb_neq _ _) Hdiff). cbn.
  unfold Availability.consultarHorariosDisponiveis. by destruct (String.eqb d "").
Qed.

(** C10. A submission through the submit button, with a name, a date
    and a time of the server's formats and a service among the options
    on screen, and a truthy budget that survives the round trips, is
    stored as one new row with exactly the form's values. The form's
    fields are then cleared. *)
Theorem enviar_books atributo s f :
  escolhas_validas atributo f ->
  regex_test dataRegex (JString (dataEscolhida f)) = true ->
  regex_test horaRegex (JString (horaEscolhida f)) = true ->
  js_truthy (valorOrcamento f) = true -> stable (valorOrcamento f) ->
  enviar atributo false s f =
    (limpar f,
     set_clientes (clientes s ++ [(next_rowid (clientes s),
        mkCliente (JString (nomeCliente f)) (JString (dataEscolhida f))
                  (JString (horaEscolhida f)) (JString (servicoEscolhido f))
                  (valorOrcamento f))])%list s).
Proof.
  intros Hval Hd Hh Hv Hst. pose proof Hval as (Hn & _ & _ & _ & _ & Hs & _).
  unfold enviar. rewrite (proj2 (enviar_guard atributo f) Hval).
  by apply handleFormSubmit_insert.
Qed.

(** C30. A service whose price is falsy (0, [NaN], missing), or a name that
    is not in the catalog (the budget is then 0), can never be booked:
    every submission is answered 400 "Todos os campos devem ser
    preenchidos." and changes nothing. The spec requires a valid service
    and a positive budget, and reports a missing field only when one is
    missing. *)
Theorem falsy_price_cannot_book v f fault s :
  (forall sv, List.find (fun sv => Availability.strict_eq (nome sv) (JString v))
                        (servicosDisponiveis f) = Some sv -> js_truthy (preco sv) = false) ->
  handleFormSubmit fault s (escolherServico v f) = (escolherServico v f, s).
Proof.
  intros Hp. apply handleFormSubmit_rejected.
  assert (Hv : js_truthy (valorOrcamento (escolherServico v f)) = false).
  { unfold escolherServico. cbn [valorOrcamento].
    destruct (List.find _ _) eqn:E; [by apply Hp|reflexivity]. }
  unfold cadastro_ok. destruct (cadastro_body_fields (escolherServico v f)) as (_ & _ & _ & _ & ->).
  rewrite (js_truthy_json_rt _ Hv). by rewrite andb_false_r, !andb_false_l.
Qed.


(** C38. The submit button of the booking form. When the name is filled
    and the date, the time and the service each hold one of the options
    on screen, it runs [handleFormSubmit]. Otherwise the browser's
    [required] check blocks it: no request, and neither the form nor
    the store changes. *)
Theorem enviar_valida atributo fault s f :
  (escolhas_validas atributo f -> enviar atributo fault s f = handleFormSubmit fault s f) /\
  (~ escolhas_validas atributo f -> enviar atributo fault s f = (f, s)).
Proof.
  pose proof (enviar_guard atributo f) as Hg. unfold enviar.
  destruct (existsb _ _) eqn:E; split; intros H; try done.
  - apply Hg in H. discriminate H.
  - exfalso. by apply H, Hg.
Qed.

(** ** Witnesses *)

Lemma enviar_books_witness :
  enviar (fun _ => "") false sample_db form_bia =
    (limpar form_bia,
     set_clientes (clientes sample_db ++ [(2,
        mkCliente (JString "Bia") (JString "2025-01-10") (JString "10:00:00")
                  (JString "Corte") (js_int 50))])%list sample_db).
Proof.
  apply (enviar_books (fun _ => "") sample_db form_bia); try reflexivity.
  - vm_compute. repeat split; try discriminate; auto.
  - split; reflexivity.
Defined.

Lemma falsy_price_cannot_book_witness :
  handleFormSubmit false sample_db (escolherServico "Barba" form_bia) =
    (escolherServico "Barba" form_bia, sample_db).
Proof.
  apply falsy_price_cannot_book. intros sv H. vm_compute in H. discriminate H.
Defined.


End Cadastrar.
