(* ===== verification/Exibicao.v ===== *)
(** How the screens display an appointment's date and time. The listing
    screen, [src/app/(tabs)/index.tsx], loads [GET /api/clientes] once
    and renders each row with [formatDate(data, hora)] and
    [valor_orcamento.toFixed(2)] in a [FlatList] keyed by the row's id. The management screen renders a date
    with [formatarData] and a time with [formatarHora]. The booking
    form labels a candidate date with [data.split('-').reverse()
    .join('/')].

    A JavaScript method called on a value that does not have it throws a
    [TypeError]: a function that can throw returns an [option], [None]
    being the exception. A template literal writes [undefined] as the
    text ["undefined"]. [Number.prototype.toFixed] is a builtin that is
    not modelled: it is a variable of the section [Listagem]. *)

From S2P Require Import Prelude JsValue Store Server Availability Calendar Gerenciar.
Import Js Store Server Calendar Gerenciar.

Module Exibicao.

Local Open Scope string_scope.

(** [s.split(sep)] with a one-character separator. *)
Fixpoint split_aux (sep : ascii) (cs cur : list ascii) : list (list ascii) :=
  match cs with
  | [] => [rev cur]
  | c :: cs' => if bool_decide (c = sep) then rev cur :: split_aux sep cs' []
                else split_aux sep cs' (c :: cur)
  end.

Definition split_on (sep : ascii) (s : string) : list string :=
  map string_of_list_ascii (split_aux sep (list_ascii_of_string s) []).

(** [`${x}`] of an element of a destructured array. *)
Definition part (l : list string) (n : nat) : string := nth n l "undefined".

(** [formatDate(data, hora)] of [index.tsx]: [split] on [data],
    [padStart] on the day and the month, [substring(0, 5)] on [hora].
    A missing day or month ([undefined]) and a non-string [data] or
    [hora] throw. *)
Definition formatDate (data hora : jsval) : option string :=
  match data, hora with
  | JString d, JString h =>
      match split_on "-" d with
      | year :: mouth :: day :: _ =>
          Some (padStart 2 "0" day ++ "/" ++ padStart 2 "0" mouth ++ "/" ++ year ++ " - "
                ++ substring 0 5 h)
      | _ => None
      end
  | _, _ => None
  end.

(** [formatarData(data)] of [gerenciar.tsx]. *)
Definition formatarData_g (data : jsval) : option string :=
  match data with
  | JString d => let p := split_on "-" d in Some (part p 2 ++ "/" ++ part p 1 ++ "/" ++ part p 0)
  | _ => None
  end.

(** [formatarHora(hora)] of [gerenciar.tsx]. *)
Definition formatarHora_g (hora : jsval) : option string :=
  match hora with
  | JString h => let p := split_on ":" h in Some (part p 0 ++ ":" ++ part p 1)
  | _ => None
  end.

(** The label of a date [option] of [cadastrar.tsx]. *)
Definition rotulo_data (data : string) : string :=
  String.concat "/" (rev (split_on "-" data)).

(** The listing screen's state after its effect: [response.data] of a
    resolved request, the previous list after a rejected one. *)
Definition responseAgendamentos (r : response) (cur : table cliente) : table cliente :=
  match Availability.ok_json r with
  | Some (PClientes rows) => view rows
  | _ => cur
  end.

Section Listagem.
Context (toFixed2 : SpecFloat.spec_float -> string).

(** The texts of [renderItem]: name, date and time, service, amount.
    [toFixed] exists on numbers only. *)
Definition renderItem (item : nat * cliente) : option (list jsval) :=
  match formatDate (data item.2) (hora item.2), valor_orcamento item.2 with
  | Some dh, JNumber f =>
      Some [nome_cliente item.2; JString dh; servico item.2; JString ("R$ " ++ toFixed2 f)]
  | _, _ => None
  end.

(** [keyExtractor={(item) => item.id}]: React turns the numeric key
    into its text. *)
Definition keyExtractor (item : nat * cliente) : string := id_path item.1.

(** The [FlatList] over [agendamentos]: each row's texts under its key,
    in order. An exception in one row's [renderItem] is an exception of
    the whole render. *)
Fixpoint renderLista (l : table cliente) : option (list (string * list jsval)) :=
  match l with
  | [] => Some []
  | item :: l' =>
      match renderItem item, renderLista l' with
      | Some texts, Some cards => Some ((keyExtractor item, texts) :: cards)
      | _, _ => None
      end
  end.

(** The screen's body: the title, then the list. A [FlatList] renders
    the rows of its window only ([janela], the first rows, ten by
    default, more as the user scrolls). *)
Definition AgendamentosScreen (janela : nat) (agendamentos : table cliente)
    : option (string * list (string * list jsval)) :=
  match renderLista (firstn janela agendamentos) with
  | Some cards => Some ("Agendamentos", cards)
  | None => None
  end.

End Listagem.

(** A sample [toFixed(2)]. *)
Definition fixed50 (_ : SpecFloat.spec_float) : string := "50.00".

(** ** Lemmas *)

Lemma digit_not_sep c sep :
  is_digit c = true -> (sep = "-"%char \/ sep = ":"%char) -> c <> sep.
Proof. intros H [-> | ->] ->; discriminate H. Qed.

(** [split] over a chunk without the separator, then the separator. *)
Lemma split_aux_chunk sep l1 l2 cur :
  Forall (fun c => c <> sep) l1 ->
  split_aux sep (l1 ++ sep :: l2) cur = (rev cur ++ l1)%list :: split_aux sep l2 [].
Proof.
  revert cur. induction l1 as [|c l1 IH]; intros cur Hl; simpl.
  - rewrite bool_decide_eq_true_2 by done. by rewrite app_nil_r.
  - inversion Hl as [|? ? Hc Hl']. rewrite bool_decide_eq_false_2 by done.
    rewrite IH by done. simpl. by rewrite <- app_assoc.
Qed.

(** [split] over a last chunk without the separator. *)
Lemma split_aux_last sep l cur :
  Forall (fun c => c <> sep) l -> split_aux sep l cur = [(rev cur ++ l)%list].
Proof.
  revert cur. induction l as [|c l IH]; intros cur Hl; simpl; [by rewrite app_nil_r|].
  inversion Hl as [|? ? Hc Hl']. rewrite bool_decide_eq_false_2 by done.
  rewrite IH by done. simpl. by rewrite <- app_assoc.
Qed.

Lemma digits_not_sep_all l sep :
  Forall (fun c => is_digit c = true) l -> (sep = "-"%char \/ sep = ":"%char) ->
  Forall (fun c => c <> sep) l.
Proof. intros Hl Hs. eapply List.Forall_impl; [|exact Hl]. intros c Hc. by apply digit_not_sep. Qed.

Ltac digits_not_sep :=
  apply digits_not_sep_all; [repeat constructor; assumption|auto].

(** A date [YYYY-MM-DD] and a time [HH:MM:SS] as the three screens write
    them: [DD/MM/YYYY - HH:MM] in the list, [DD/MM/YYYY] and [HH:MM] on
    the management screen, [DD/MM/YYYY] in the booking form. *)
Lemma display_shape y1 y2 y3 y4 m1 m2 d1 d2 h1 h2 n1 n2 s1 s2 :
  Forall (fun c => is_digit c = true) [y1; y2; y3; y4; m1; m2; d1; d2; h1; h2; n1; n2; s1; s2] ->
  let d := string_of_list_ascii [y1; y2; y3; y4; "-"%char; m1; m2; "-"%char; d1; d2] in
  let h := string_of_list_ascii [h1; h2; ":"%char; n1; n2; ":"%char; s1; s2] in
  let ddmmyyyy := string_of_list_ascii [d1; d2; "/"%char; m1; m2; "/"%char; y1; y2; y3; y4] in
  let hhmm := string_of_list_ascii [h1; h2; ":"%char; n1; n2] in
  formatDate (JString d) (JString h) = Some (ddmmyyyy ++ " - " ++ hhmm) /\
  formatarData_g (JString d) = Some ddmmyyyy /\
  formatarHora_g (JString h) = Some hhmm /\
  rotulo_data d = ddmmyyyy.
Proof.
  intros Hd d h ddmmyyyy hhmm.
  repeat match goal with H : Forall _ (_ :: _) |- _ => invc H end.
  assert (Hsd : split_on "-" d = [string_of_list_ascii [y1; y2; y3; y4];
                                  string_of_list_ascii [m1; m2]; string_of_list_ascii [d1; d2]]).
  { unfold split_on, d. rewrite list_ascii_of_string_of_list_ascii.
    change [y1; y2; y3; y4; "-"%char; m1; m2; "-"%char; d1; d2]
      with ([y1; y2; y3; y4] ++ "-"%char :: ([m1; m2] ++ "-"%char :: [d1; d2]))%list.
    rewrite split_aux_chunk, split_aux_chunk, split_aux_last by digits_not_sep. done. }
  assert (Hsh : split_on ":" h = [string_of_list_ascii [h1; h2];
                                  string_of_list_ascii [n1; n2]; string_of_list_ascii [s1; s2]]).
  { unfold split_on, h. rewrite list_ascii_of_string_of_list_ascii.
    change [h1; h2; ":"%char; n1; n2; ":"%char; s1; s2]
      with ([h1; h2] ++ ":"%char :: ([n1; n2] ++ ":"%char :: [s1; s2]))%list.
    rewrite split_aux_chunk, split_aux_chunk, split_aux_last by digits_not_sep. done. }
  unfold formatDate, formatarData_g, formatarHora_g, rotulo_data.
  rewrite Hsd. cbn zeta. rewrite Hsh. repeat split; reflexivity.
Qed.

(** A date and a time the server accepts, as their characters. *)
Lemma valid_shapes d h :
  regex_test dataRegex (JString d) = true -> regex_test horaRegex (JString h) = true ->
  exists y1 y2 y3 y4 m1 m2 d1 d2 h1 h2 n1 n2 s1 s2,
    Forall (fun c => is_digit c = true) [y1; y2; y3; y4; m1; m2; d1; d2; h1; h2; n1; n2; s1; s2] /\
    d = string_of_list_ascii [y1; y2; y3; y4; "-"%char; m1; m2; "-"%char; d1; d2] /\
    h = string_of_list_ascii [h1; h2; ":"%char; n1; n2; ":"%char; s1; s2].
Proof.
  cbn [regex_test]. intros Hd Hh.
  apply dataRegex_shape in Hd as (y1 & y2 & y3 & y4 & m1 & m2 & d1 & d2 & Hdd & Hd).
  apply horaRegex_shape in Hh as (h1 & h2 & n1 & n2 & s1 & s2 & Hdh & Hh).
  exists y1, y2, y3, y4, m1, m2, d1, d2, h1, h2, n1, n2, s1, s2.
  split; [by apply (List.Forall_app _ [y1; y2; y3; y4; m1; m2; d1; d2])|].
  by rewrite <- Hd, <- Hh, !string_of_list_ascii_of_string.
Qed.

(** [renderItem] throws exactly when the amount is not a number, once
    the date and time are formatted. *)
Lemma render_cases toFixed2 dh i r :
  formatDate (data r) (hora r) = Some dh ->
  (renderItem toFixed2 (i, r) = None <-> forall f, valor_orcamento r <> JNumber f).
Proof.
  intros H. unfold renderItem. cbn [snd]. rewrite H.
  destruct (valor_orcamento r) as [| | |f|]; split; try done; try (intros _ g; discriminate).
  intros H'. by destruct (H' f).
Qed.

(** A row of a loaded table the server validated formats its date and
    time without an exception. *)
Lemma view_row_formats s i r :
  clientes_valid (clientes s) -> In (i, r) (view (clientes s)) ->
  formatDate (data r) (hora r) <> None.
Proof.
  intros Hv Hin. apply In_view in Hin as [r0 [Hin0 ->]].
  unfold clientes_valid in Hv. rewrite List.Forall_forall in Hv.
  pose proof (Hv (i, r0) Hin0) as Hrow. unfold row_valid in Hrow. bool_hyps. cbn [snd] in *.
  destruct (regex_test_string dataRegex (data r0)) as [d [Hd Hdm]]; auto.
  destruct (regex_test_string horaRegex (hora r0)) as [h [Hh Hhm]]; auto.
  change (match_exact dataRegex (list_ascii_of_string d)) with (regex_test dataRegex (JString d)) in Hdm.
  change (match_exact horaRegex (list_ascii_of_string h)) with (regex_test horaRegex (JString h)) in Hhm.
  destruct (valid_shapes d h Hdm Hhm)
    as (y1 & y2 & y3 & y4 & m1 & m2 & d1 & d2 & h1 & h2 & n1 & n2 & s1 & s2 & Hdig & Ed & Eh).
  destruct (display_shape y1 y2 y3 y4 m1 m2 d1 d2 h1 h2 n1 n2 s1 s2 Hdig) as (Hf & _).
  rewrite <- Ed, <- Eh in Hf. cbn [row_rt data hora]. rewrite Hd, Hh. cbn [json_rt]. by rewrite Hf.
Qed.

Section Lista.
Context (toFixed2 : SpecFloat.spec_float -> string).

(** The list throws exactly when a row's amount is not a number, when
    every row formats its date. *)
Lemma renderLista_None l :
  (forall i r, In (i, r) l -> formatDate (data r) (hora r) <> None) ->
  (renderLista toFixed2 l = None <-> exists i r, In (i, r) l /\ forall f, valor_orcamento r <> JNumber f).
Proof.
  induction l as [|[i r] l IH]; intros Hf; cbn [renderLista].
  - split; [done|]. by intros (? & ? & [] & _).
  - destruct (formatDate (data r) (hora r)) as [dh|] eqn:Ed; [|by destruct (Hf i r); [left|]].
    pose proof (render_cases toFixed2 dh i r Ed) as Hc.
    specialize (IH (fun j r' H => Hf j r' (or_intror H))).
    destruct (renderItem toFixed2 (i, r)) as [texts|] eqn:Er.
    + destruct (renderLista toFixed2 l) as [cards|] eqn:El; split.
      * done.
      * intros (j & r' & [[= <- <-]|Hin] & Hn); [by apply Hc in Hn|].
        exfalso. enough (Some cards = None) by done. by apply IH; exists j, r'.
      * intros _. destruct IH as [IH _]. destruct (IH eq_refl) as (j & r' & ? & ?).
        exists j, r'. split; [by right|done].
      * done.
    + split; [intros _; exists i, r; split; [by left|by apply Hc]|done].
Qed.

Lemma renderLista_keys l cards :
  renderLista toFixed2 l = Some cards -> map fst cards = map keyExtractor l.
Proof.
  revert cards. induction l as [|item l IH]; intros cards; cbn [renderLista].
  - by intros [= <-].
  - destruct (renderItem toFixed2 item), (renderLista toFixed2 l) eqn:E; try done.
    intros [= <-]. cbn [map fst]. by rewrite (IH _ eq_refl).
Qed.

End Lista.

(** Distinct rowids below [2^63] give distinct keys. *)
Lemma keys_NoDup (l : table cliente) :
  List.NoDup (map fst l) -> Forall (fun i => (Z.of_nat i < 2 ^ 63)%Z) (map fst l) ->
  List.NoDup (map keyExtractor l).
Proof.
  intros Hnd Hb. unfold keyExtractor. rewrite <- (map_map fst id_path).
  apply NoDup_map_NoDup_ForallPairs; [|done]. rewrite List.Forall_forall in Hb.
  intros i j Hi Hj Heq. apply Hb in Hi, Hj.
  apply (f_equal rowid_of_param) in Heq. rewrite !id_path_roundtrip in Heq by done. congruence.
Qed.

(** ** Properties *)

(** C34. The three screens show a date and a time the server accepted the
    same way. The list shows [formatarData ++ " - " ++ formatarHora], the
    management screen's two texts. The booking form's label is the
    management screen's date. That date reads [DD/MM/YYYY]. *)
Theorem telas_mesma_data d h :
  regex_test dataRegex (JString d) = true -> regex_test horaRegex (JString h) = true ->
  formatDate (JString d) (JString h) = Some (rotulo_data d ++ " - " ++ substring 0 5 h) /\
  formatarData_g (JString d) = Some (rotulo_data d) /\
  formatarHora_g (JString h) = Some (substring 0 5 h) /\
  (forall y1 y2 y3 y4 m1 m2 d1 d2,
     d = string_of_list_ascii [y1; y2; y3; y4; "-"%char; m1; m2; "-"%char; d1; d2] ->
     rotulo_data d = string_of_list_ascii [d1; d2; "/"%char; m1; m2; "/"%char; y1; y2; y3; y4]).
Proof.
  intros Hd Hh.
  destruct (valid_shapes d h Hd Hh)
    as (y1 & y2 & y3 & y4 & m1 & m2 & d1 & d2 & h1 & h2 & n1 & n2 & s1 & s2 & Hdig & -> & ->).
  destruct (display_shape y1 y2 y3 y4 m1 m2 d1 d2 h1 h2 n1 n2 s1 s2 Hdig) as (Hf & Hg & Hgh & Hr).
  rewrite Hr. repeat split; [done|done|done|].
  intros z1 z2 z3 z4 k1 k2 e1 e2 Heq.
  apply (f_equal list_ascii_of_string) in Heq. rewrite !list_ascii_of_string_of_list_ascii in Heq.
  by injection Heq as -> -> -> -> -> -> -> ->.
Qed.

(** C19. The listing screen's [FlatList] after loading a table the
    server validated, whose rowids are sorted SQLite rowids, over any
    window of its first rows. Every row's date and time format without
    an exception, and the render throws exactly when a row of the
    window has an amount that is not a number: one NULL amount
    blanks the whole screen. When it does not throw, it shows one card
    per row, in the table's order, under the row's id, and no two cards
    share a key. *)
Theorem listagem_render toFixed2 s cur janela :
  rowids_sorted (clientes s) -> clientes_valid (clientes s) ->
  Forall (fun i => (Z.of_nat i < 2 ^ 63)%Z) (map fst (clientes s)) ->
  let l := firstn janela (responseAgendamentos (get_clientes false s) cur) in
  (forall i r, In (i, r) l -> formatDate (data r) (hora r) <> None) /\
  (AgendamentosScreen toFixed2 janela (responseAgendamentos (get_clientes false s) cur) = None <->
     exists i r, In (i, r) l /\ forall f, valor_orcamento r <> JNumber f) /\
  (forall cards, AgendamentosScreen toFixed2 janela (responseAgendamentos (get_clientes false s) cur)
                   = Some ("Agendamentos", cards) ->
     map fst cards = map keyExtractor l /\ List.NoDup (map fst cards)).
Proof.
  intros Hs Hv Hb l. unfold AgendamentosScreen. fold l.
  assert (Hl : l = firstn janela (view (clientes s))) by done.
  assert (Hids : map fst (view (clientes s)) = map fst (clientes s))
    by (unfold view; rewrite map_map; done).
  assert (Hf : forall i r, In (i, r) l -> formatDate (data r) (hora r) <> None).
  { intros i r Hin. apply (view_row_formats s i); [done|]. rewrite Hl in Hin.
    rewrite <- (firstn_skipn janela (view (clientes s))). by apply in_or_app; left. }
  split; [done|split].
  - rewrite <- (renderLista_None toFixed2 l Hf).
    destruct (renderLista toFixed2 l); split; intros; congruence.
  - intros cards. destruct (renderLista toFixed2 l) as [cs|] eqn:E; [|done].
    intros [= <-]. rewrite (renderLista_keys toFixed2 l cs E). split; [done|].
    apply keys_NoDup; rewrite Hl, <- firstn_map, Hids.
    + by apply NoDup_firstn, StronglySorted_lt_NoDup.
    + by apply Forall_take.
Qed.

(** ** Witnesses *)

Lemma telas_mesma_data_witness :
  formatDate (JString "2025-01-10") (JString "09:00:00") =
    Some (rotulo_data "2025-01-10" ++ " - " ++ substring 0 5 "09:00:00") /\
  formatarData_g (JString "2025-01-10") = Some (rotulo_data "2025-01-10") /\
  formatarHora_g (JString "09:00:00") = Some (substring 0 5 "09:00:00") /\
  (forall y1 y2 y3 y4 m1 m2 d1 d2,
     "2025-01-10" = string_of_list_ascii [y1; y2; y3; y4; "-"%char; m1; m2; "-"%char; d1; d2] ->
     rotulo_data "2025-01-10" =
       string_of_list_ascii [d1; d2; "/"%char; m1; m2; "/"%char; y1; y2; y3; y4]).
Proof. apply telas_mesma_data; reflexivity. Defined.

Lemma listagem_render_witness :
  let l := firstn 10 (responseAgendamentos (get_clientes false sample_db) []) in
  (forall i r, In (i, r) l -> formatDate (data r) (hora r) <> None) /\
  (AgendamentosScreen fixed50 10 (responseAgendamentos (get_clientes false sample_db) []) = None <->
     exists i r, In (i, r) l /\ forall f, valor_orcamento r <> JNumber f) /\
  (forall cards, AgendamentosScreen fixed50 10 (responseAgendamentos (get_clientes false sample_db) [])
                   = Some ("Agendamentos", cards) ->
     map fst cards = map keyExtractor l /\ List.NoDup (map fst cards)).
Proof.
  apply listagem_render.
  - repeat constructor.
  - apply List.Forall_cons; [reflexivity|constructor].
  - repeat constructor.
Defined.

End Exibicao.
