(* ===== verification/Elementos.v ===== *)
(** The React Native elements a screen renders, as data. A rendered
    screen is a rose tree of [View], [Text], [FlatList],
    [TouchableOpacity], [Ionicons], [Modal], [TextInput] and [Button],
    each carrying the props the screens set. A [style={styles.x}] prop is
    the name [x]. A handler prop is a value of the screen's action type
    [A]; [onChangeText] is a function from the typed text to [A].

    The file also holds:
    - the objects passed to [StyleSheet.create], and how [styles.x]
      reads in them;
    - which style names a tree refers to;
    - the [FlatList] protocol ([data], [keyExtractor], [renderItem]);
    - which handlers a user can reach. A visible [Modal] covers the
      screen, so only its content and its [onRequestClose] (the Android
      back button) can be used then. *)

From S2P Require Import Prelude JsValue.
Import Js.

Module Elementos.

Local Open Scope string_scope.

(** ** Style sheets *)

Local Unset Elimination Schemes.

(** The value of a style property: a number literal [m * 10^-e], a
    string, or a nested object literal such as [shadowOffset]. *)
Inductive css :=
| Num (m : Z) (e : nat)
| Str (s : string)
| Obj (props : list (string * css)).

Definition estilo := list (string * css).

(** [o.k] on an object literal: the last property named [k] wins, and
    the result is [undefined] ([None]) when there is none. *)
Fixpoint obj_get {V} (o : list (string * V)) (k : string) : option V :=
  match o with
  | [] => None
  | (k', v) :: o' =>
      match obj_get o' k with
      | Some v' => Some v'
      | None => if String.eqb k k' then Some v else None
      end
  end.

(** ** Elements *)

Section Elemento.
Context {A : Type}.

Inductive elemento :=
| View (style : string) (children : list elemento)
| Text (style : string) (children : list jsval)
| FlatList (items : list (string * elemento))
| TouchableOpacity (onPress : A) (children : list elemento)
| Ionicons (name : string) (size : Z) (color : string)
| Modal (visible : bool) (onRequestClose : A) (children : list elemento)
| TextInput (style placeholder : string) (value : jsval) (onChangeText : string -> A)
            (numeric : bool)
| Button (title : string) (onPress : A).

(** The induction principle with a [Forall] over the children. *)
Section elemento_ind.
Variable P : elemento -> Prop.
Hypothesis P_View : forall st cs, Forall P cs -> P (View st cs).
Hypothesis P_Text : forall st cs, P (Text st cs).
Hypothesis P_FlatList : forall its, Forall (fun it => P it.2) its -> P (FlatList its).
Hypothesis P_Touch : forall a cs, Forall P cs -> P (TouchableOpacity a cs).
Hypothesis P_Icon : forall n z c, P (Ionicons n z c).
Hypothesis P_Modal : forall v a cs, Forall P cs -> P (Modal v a cs).
Hypothesis P_Input : forall st ph v f n, P (TextInput st ph v f n).
Hypothesis P_Button : forall t a, P (Button t a).

Fixpoint elemento_ind (e : elemento) : P e :=
  let fix go (cs : list elemento) : Forall P cs :=
    match cs with
    | [] => List.Forall_nil _
    | c :: cs' => @List.Forall_cons _ P c cs' (elemento_ind c) (go cs')
    end in
  let fix go_items (its : list (string * elemento)) : Forall (fun it => P it.2) its :=
    match its with
    | [] => List.Forall_nil _
    | (k, c) :: its' => @List.Forall_cons _ (fun it => P it.2) (k, c) its' (elemento_ind c) (go_items its')
    end in
  match e with
  | View st cs => P_View st cs (go cs)
  | Text st cs => P_Text st cs
  | FlatList its => P_FlatList its (go_items its)
  | TouchableOpacity a cs => P_Touch a cs (go cs)
  | Ionicons n z c => P_Icon n z c
  | Modal v a cs => P_Modal v a cs (go cs)
  | TextInput st ph v f n => P_Input st ph v f n
  | Button t a => P_Button t a
  end.
End elemento_ind.

(** The [styles.x] names a tree refers to. JSX builds every element's
    props, a hidden [Modal]'s children included. *)
Fixpoint estilos (e : elemento) : list string :=
  match e with
  | View st cs => st :: flat_map estilos cs
  | Text st _ => [st]
  | FlatList its => flat_map (fun '(_, c) => estilos c) its
  | TouchableOpacity _ cs => flat_map estilos cs
  | Ionicons _ _ _ => []
  | Modal _ _ cs => flat_map estilos cs
  | TextInput st _ _ _ _ => [st]
  | Button _ _ => []
  end.

(** A handler a user can fire: a press, or a text typed in an input. *)
Inductive handler := Press (a : A) | ChangeText (f : string -> A).

Definition dispara (h : handler) (a : A) : Prop :=
  match h with
  | Press a' => a = a'
  | ChangeText f => exists s, a = f s
  end.

(** The handlers of a tree outside its modals. *)
Fixpoint handlers (e : elemento) : list handler :=
  match e with
  | View _ cs => flat_map handlers cs
  | FlatList its => flat_map (fun '(_, c) => handlers c) its
  | TouchableOpacity a cs => Press a :: flat_map handlers cs
  | Modal _ _ _ => []
  | TextInput _ _ _ f _ => [ChangeText f]
  | Button _ a => [Press a]
  | Text _ _ | Ionicons _ _ _ => []
  end.

(** The visible modals, in tree order: each one's [onRequestClose] and
    the handlers of its content. A hidden [Modal] renders nothing. *)
Fixpoint modais (e : elemento) : list (A * list handler) :=
  match e with
  | View _ cs | TouchableOpacity _ cs => flat_map modais cs
  | FlatList its => flat_map (fun '(_, c) => modais c) its
  | Modal v a cs => if v then (a, flat_map handlers cs) :: flat_map modais cs else []
  | Text _ _ | Ionicons _ _ _ | TextInput _ _ _ _ _ | Button _ _ => []
  end.

(** What the user can reach: the content of the topmost visible modal
    and its back button, or the screen when no modal is visible. *)
Definition ativos (e : elemento) : list handler :=
  match last (modais e) with
  | None => handlers e
  | Some (a, hs) => Press a :: hs
  end.

(** What the screen shows: the [Text] elements' children and the
    [TextInput]s' placeholders and values, in tree order. A hidden
    [Modal] shows nothing. *)
Fixpoint textos (e : elemento) : list (list jsval) :=
  match e with
  | View _ cs | TouchableOpacity _ cs => flat_map textos cs
  | Modal v _ cs => if v then flat_map textos cs else []
  | FlatList its => flat_map (fun '(_, c) => textos c) its
  | Text _ cs => [cs]
  | Ionicons _ _ _ | TextInput _ _ _ _ _ | Button _ _ => []
  end.

Fixpoint entradas (e : elemento) : list (string * jsval) :=
  match e with
  | View _ cs | TouchableOpacity _ cs => flat_map entradas cs
  | Modal v _ cs => if v then flat_map entradas cs else []
  | FlatList its => flat_map (fun '(_, c) => entradas c) its
  | TextInput _ ph v _ _ => [(ph, v)]
  | Text _ _ | Ionicons _ _ _ | Button _ _ => []
  end.

End Elemento.

Arguments elemento : clear implicits.
Arguments handler : clear implicits.

(** [<FlatList data={l} keyExtractor={key} renderItem={render}>]: each
    item rendered under its key, in order. An exception in one item's
    [renderItem] is an exception of the whole render. *)
Fixpoint flatlist {X Y} (key : X -> string) (render : X -> option Y) (l : list X)
    : option (list (string * Y)) :=
  match l with
  | [] => Some []
  | x :: l' =>
      match render x, flatlist key render l' with
      | Some y, Some ys => Some ((key x, y) :: ys)
      | _, _ => None
      end
  end.

(** ** Lemmas *)

Lemma flat_map_nil {X B} (l : list X) : flat_map (fun _ => @nil B) l = [].
Proof. by induction l. Qed.

Lemma flatlist_Forall {X Y} key render (l : list X) (ys : list (string * Y)) :
  flatlist key render l = Some ys ->
  Forall2 (fun x '(k, y) => k = key x /\ render x = Some y) l ys.
Proof.
  revert ys. induction l as [|x l IH]; intros ys H; simpl in H; [by simplify_eq|].
  destruct (render x) eqn:Ex; [|done]. destruct (flatlist key render l) eqn:El; [|done].
  simplify_eq. constructor; [done|by apply IH].
Qed.

Lemma flat_map_Forall_nil {X B} (f : X -> list B) l :
  Forall (fun x => f x = []) l -> flat_map f l = [].
Proof. induction 1 as [|x l Hx _ IH]; cbn; [done|]. by rewrite Hx, IH. Qed.

(** A [FlatList] adds to each function the sum of its items'. *)
Lemma flat_map_items {A B} (f : elemento A -> list B) (its : list (string * elemento A)) :
  flat_map (fun '(_, c) => f c) its = flat_map (fun it : string * elemento A => f it.2) its.
Proof. apply flat_map_ext. by intros [? ?]. Qed.

Lemma In_flat_map_items {A B} (f : elemento A -> list B) (its : list (string * elemento A)) b :
  In b (flat_map (fun '(_, c) => f c) its) <-> exists k c, In (k, c) its /\ In b (f c).
Proof.
  rewrite flat_map_items, in_flat_map. split.
  - intros [[k c] [Hin Hb]]. by exists k, c.
  - intros (k & c & Hin & Hb). by exists (k, c).
Qed.

(** A tree whose action type is empty has nothing to press, type into
    or close: no handler and no modal. *)
Lemma elemento_sem_acoes (e : elemento Empty_set) : handlers e = [] /\ modais e = [].
Proof.
  induction e as [st cs IH|st cs|its IH|a cs _|n z c|v a cs _|st ph v f n|t a] using elemento_ind;
    cbn; try done; try destruct a.
  - split; apply flat_map_Forall_nil; refine (Forall_impl _ _ _ IH _); by intros ? [].
  - split; rewrite flat_map_items; apply flat_map_Forall_nil; refine (Forall_impl _ _ _ IH _);
      by intros ? [].
Qed.

(** Every item of a rendered list comes from an item of the data. *)
Lemma flatlist_In {X Y} key render (l : list X) (ys : list (string * Y)) k y :
  flatlist key render l = Some ys -> In (k, y) ys -> exists x, In x l /\ render x = Some y.
Proof.
  intros H Hin. apply flatlist_Forall in H.
  induction H as [|x [k' y'] l ys [-> Hr] _ IH]; [done|].
  destruct Hin as [Heq|Hin]; [simplify_eq; exists x; by split; [left|]|].
  destruct (IH Hin) as (x' & ? & ?). exists x'. split; [right|]; done.
Qed.

(** And every item of the data is rendered. *)
Lemma flatlist_complete {X Y} key render (l : list X) (ys : list (string * Y)) x :
  flatlist key render l = Some ys -> In x l -> exists y, render x = Some y /\ In (key x, y) ys.
Proof.
  intros H Hin. apply flatlist_Forall in H.
  induction H as [|x' [k' y'] l ys [-> Hr] _ IH]; [done|].
  destruct Hin as [->|Hin]; [exists y'; by split; [|left]|].
  destruct (IH Hin) as (y & ? & ?). exists y. split; [|right]; done.
Qed.

(** A function summed over the rendered items is the sum over the data
    of what it gives on each rendered item. *)
Lemma flatlist_flat_map {X A B} key (render : X -> option (elemento A)) l its
    (f : elemento A -> list B) (g : X -> list B) :
  (forall x y, render x = Some y -> f y = g x) ->
  flatlist key render l = Some its -> flat_map (fun '(_, c) => f c) its = flat_map g l.
Proof.
  intros Hfg H. apply flatlist_Forall in H.
  induction H as [|x [k y] l ys [-> Hr] _ IH]; [done|]. cbn. by rewrite (Hfg _ _ Hr), IH.
Qed.

Lemma In_flatlist_flat_map {X A B} key (render : X -> option (elemento A)) l its
    (f : elemento A -> list B) b :
  flatlist key render l = Some its -> In b (flat_map (fun '(_, c) => f c) its) ->
  exists x c, In x l /\ render x = Some c /\ In b (f c).
Proof.
  intros H (k & c & Hin & Hb)%In_flat_map_items.
  destruct (flatlist_In _ _ _ _ _ _ H Hin) as (x & ? & ?). by exists x, c.
Qed.

End Elementos.
