(* ===== verification/Telas.v ===== *)
(** What the two list screens put on screen. The listing screen is
    [src/app/(tabs)/index.tsx] and the management screen is
    [src/app/(tabs)/gerenciar.tsx]. For each screen the file gives:
    - its [StyleSheet.create] object;
    - its [interface Agendamento], as a check of a row's fields against
      the declared types;
    - its JSX as an [elemento] tree computed from the screen's state
      (the [FlatList] cards, the edit modal and the delete modal);
    - for the management screen, [disparar], which runs the handler
      that a pressed button or an edited input is wired to.

    The theorems say three things. The buttons and inputs the user can
    reach are exactly the moves of [Gerenciar.gstep], so the guards of
    [gstep] are the screen's own. Every [styles.x] either screen uses
    is defined, and the listing screen, whose sheet styles buttons, has
    nothing to press. Pressing a row's icon opens the modal that shows
    that row. *)

From S2P Require Import Prelude JsValue Store Server Gerenciar Exibicao Elementos.
Import Js Store Server Gerenciar Exibicao Elementos.

Module Telas.

Local Open Scope string_scope.

(** ** Style sheets *)

(** [styles] of [index.tsx]. *)
Definition styles_index : list (string * estilo) :=
  [("container", [("flex", Num 1 0); ("padding", Num 20 0); ("backgroundColor", Str "#f4f4f9")]);
   ("title", [("fontSize", Num 26 0); ("fontWeight", Str "600"); ("marginBottom", Num 20 0);
              ("color", Str "#333"); ("textAlign", Str "center")]);
   ("buttons", [("flexDirection", Str "row"); ("justifyContent", Str "center");
                ("marginBottom", Num 20 0)]);
   ("button", [("paddingVertical", Num 12 0); ("paddingHorizontal", Num 20 0);
               ("marginHorizontal", Num 10 0); ("borderRadius", Num 8 0); ("elevation", Num 3 0)]);
   ("btnCadastrar", [("backgroundColor", Str "#4CAF50")]);
   ("btnGerenciar", [("backgroundColor", Str "#FF5722")]);
   ("buttonText", [("color", Str "#fff"); ("fontWeight", Str "500"); ("fontSize", Num 16 0)]);
   ("card", [("backgroundColor", Str "#fff"); ("padding", Num 15 0); ("marginBottom", Num 15 0);
             ("borderRadius", Num 8 0); ("elevation", Num 3 0); ("shadowColor", Str "#000");
             ("shadowOpacity", Num 1 1);
             ("shadowOffset", Obj [("width", Num 0 0); ("height", Num 2 0)]);
             ("shadowRadius", Num 4 0)]);
   ("cardTitle", [("fontSize", Num 18 0); ("fontWeight", Str "600"); ("color", Str "#333");
                  ("marginBottom", Num 5 0)]);
   ("cardText", [("fontSize", Num 16 0); ("color", Str "#555"); ("marginBottom", Num 5 0)]);
   ("cardButton", [("backgroundColor", Str "#4CAF50"); ("paddingVertical", Num 10 0);
                   ("borderRadius", Num 5 0); ("alignItems", Str "center")]);
   ("cardButtonText", [("color", Str "#fff"); ("fontWeight", Str "500"); ("fontSize", Num 16 0)])].

(** [styles] of [gerenciar.tsx]. *)
Definition styles_gerenciar : list (string * estilo) :=
  [("container", [("flex", Num 1 0); ("padding", Num 20 0); ("backgroundColor", Str "#f5f5f5")]);
   ("header", [("fontSize", Num 24 0); ("fontWeight", Str "bold"); ("marginBottom", Num 20 0);
               ("textAlign", Str "center")]);
   ("card", [("backgroundColor", Str "#fff"); ("padding", Num 15 0); ("marginBottom", Num 15 0);
             ("borderRadius", Num 8 0); ("shadowColor", Str "#000");
             ("shadowOffset", Obj [("width", Num 0 0); ("height", Num 2 0)]);
             ("shadowOpacity", Num 8 1); ("shadowRadius", Num 2 0); ("elevation", Num 5 0)]);
   ("title", [("fontSize", Num 18 0); ("fontWeight", Str "bold")]);
   ("details", [("fontSize", Num 14 0); ("marginBottom", Num 5 0)]);
   ("actions", [("flexDirection", Str "row"); ("justifyContent", Str "space-between");
                ("marginTop", Num 10 0)]);
   ("modalBackground", [("flex", Num 1 0); ("justifyContent", Str "center");
                        ("alignItems", Str "center")]);
   ("modalContainer", [("backgroundColor", Str "#fff"); ("padding", Num 20 0);
                       ("borderRadius", Num 8 0); ("width", Str "80%"); ("alignItems", Str "center")]);
   ("modalTitle", [("fontSize", Num 18 0); ("fontWeight", Str "bold"); ("marginBottom", Num 20 0)]);
   ("input", [("width", Str "100%"); ("borderBottomWidth", Num 1 0); ("marginBottom", Num 15 0);
              ("padding", Num 10 0)]);
   ("buttonWrapper", [("width", Str "80%"); ("alignSelf", Str "center"); ("marginTop", Num 20 0)]);
   ("modalActions", [("flexDirection", Str "row"); ("justifyContent", Str "space-between");
                     ("width", Str "50%")]);
   ("buttonSpacing", [("marginHorizontal", Num 14 0)])].

(** ** The declared row types *)

(** The TypeScript types of an interface's fields. *)
Inductive tipo := TString | TNumber.

(** [interface Agendamento] of [index.tsx]: [id] declared a string. *)
Definition Agendamento_index : list (string * tipo) :=
  [("id", TString); ("nome_cliente", TString); ("data", TString); ("hora", TString);
   ("servico", TString); ("valor_orcamento", TNumber)].

(** [interface Agendamento] of [gerenciar.tsx]: [id] declared a number. *)
Definition Agendamento_gerenciar : list (string * tipo) :=
  [("id", TNumber); ("nome_cliente", TString); ("data", TString); ("hora", TString);
   ("servico", TString); ("valor_orcamento", TNumber)].

Definition tem_tipo (ty : tipo) (v : jsval) : bool :=
  match ty, v with
  | TString, JString _ | TNumber, JNumber _ => true
  | _, _ => false
  end.

(** A row of [GET /api/clientes] as a JSON object: [SELECT *] gives
    the rowid [id] first, then the columns. *)
Definition campos (item : nat * cliente) : list (string * jsval) :=
  [("id", js_int (Z.of_nat item.1)); ("nome_cliente", nome_cliente item.2);
   ("data", data item.2); ("hora", hora item.2); ("servico", servico item.2);
   ("valor_orcamento", valor_orcamento item.2)].

(** The row has every declared field, with the declared type. *)
Definition conforme (itf : list (string * tipo)) (item : nat * cliente) : bool :=
  forallb (fun '(k, ty) => match obj_get (campos item) k with
                           | Some v => tem_tipo ty v
                           | None => false
                           end) itf.

(** ** The listing screen *)

Section Index.
Context (toFixed2 : SpecFloat.spec_float -> string).

(** [renderItem] of [index.tsx]: a card with the name, the date and
    time, the service and the amount. *)
Definition renderItem_index (item : nat * cliente) : option (elemento Empty_set) :=
  match formatDate (data item.2) (hora item.2), valor_orcamento item.2 with
  | Some dh, JNumber f =>
      Some (View "card" [Text "cardTitle" [nome_cliente item.2];
                         Text "cardText" [JString dh];
                         Text "cardText" [servico item.2];
                         Text "cardText" [JString ("R$ " ++ toFixed2 f)]])
  | _, _ => None
  end.

(** The screen's JSX. The [FlatList] renders the rows of its window. *)
Definition AgendamentosScreen_ui (janela : nat) (agendamentos : table cliente)
    : option (elemento Empty_set) :=
  match flatlist keyExtractor renderItem_index (firstn janela agendamentos) with
  | Some its => Some (View "container" [Text "title" [JString "Agendamentos"]; FlatList its])
  | None => None
  end.

End Index.

(** ** The management screen *)

(** The handlers the screen's elements are wired to. *)
Inductive acao :=
| AEditar (a : nat * cliente)          (** [() => editar(item)] *)
| AExcluir (i : nat) (nome : jsval)    (** [() => excluir(item.id, item.nome_cliente)] *)
| ASetNome (s : string)                (** [setNomeCliente] *)
| ASetServico (s : string)             (** [setServico] *)
| ASetValor (s : string)               (** [setValorOrcamento] *)
| ASalvar                              (** [salvarEdicao] *)
| AFecharModal                         (** [() => setModalVisible(false)] *)
| AConfirmar                           (** [confirmarExclusao] *)
| ACancelarExclusao.                   (** [cancelarExclusao] *)

(** [s.replace(a, b)] with a one-character string pattern: the first
    occurrence only. *)
Fixpoint replace_first (a b : ascii) (s : string) : string :=
  match s with
  | EmptyString => EmptyString
  | String c s' => if Ascii.eqb c a then String b s' else String c (replace_first a b s')
  end.

Section Gerenciamento.
Context (toFixed2 : SpecFloat.spec_float -> string).

(** [renderItem] of [gerenciar.tsx]: the card, then its two icons. *)
Definition renderItem_g (item : nat * cliente) : option (elemento acao) :=
  match formatarData_g (data item.2), formatarHora_g (hora item.2), valor_orcamento item.2 with
  | Some d, Some h, JNumber f =>
      Some (View "card"
              [Text "title" [nome_cliente item.2];
               Text "details" [JString "Data: "; JString d];
               Text "details" [JString "Hora: "; JString h];
               Text "details" [JString "Serviço: "; servico item.2];
               Text "details" [JString "Valor: R$ "; JString (replace_first "." "," (toFixed2 f))];
               View "actions"
                 [TouchableOpacity (AEditar item) [Ionicons "pencil" 24 "#4CAF50"];
                  TouchableOpacity (AExcluir item.1 (nome_cliente item.2))
                                   [Ionicons "trash" 24 "#FF6347"]]])
  | _, _, _ => None
  end.

(** The edit modal. *)
Definition modal_edicao (t : tela) : elemento acao :=
  Modal (modalVisible t) AFecharModal
    [View "modalBackground"
       [View "modalContainer"
          [Text "modalTitle" [JString "Editar Agendamento"];
           TextInput "input" "Nome do Cliente" (nomeCliente t) ASetNome false;
           TextInput "input" "Serviço" (servico_input t) ASetServico false;
           TextInput "input" "Valor" (JString (valorOrcamento t)) ASetValor true;
           View "buttonWrapper"
             [View "modalActions"
                [View "buttonSpacing" [Button "Salvar" ASalvar];
                 View "buttonSpacing" [Button "Cancelar" AFecharModal]]]]]].

(** The delete modal; [excluirAgendamento?.nome_cliente] is [undefined]
    when no row is chosen. *)
Definition modal_exclusao (t : tela) : elemento acao :=
  Modal (modalExcluirVisible t) ACancelarExclusao
    [View "modalBackground"
       [View "modalContainer"
          [Text "modalTitle"
             [JString "Tem certeza que deseja excluir o agendamento de ";
              match excluirAgendamento t with Some (_, nome) => nome | None => JUndefined end;
              JString "?"];
           View "modalActions" [Button "Confirmar" AConfirmar; Button "Cancelar" ACancelarExclusao]]]].

(** The screen's JSX: the header, the [FlatList] keyed by
    [item.id.toString()], and the two modals. *)
Definition gerenciamentoAgendamentos (janela : nat) (t : tela) : option (elemento acao) :=
  match flatlist (fun item : nat * cliente => id_path item.1) renderItem_g
                 (firstn janela (agendamentos t)) with
  | Some its =>
      Some (View "container" [Text "header" [JString "Gerenciar Agendamentos"]; FlatList its;
                              modal_edicao t; modal_exclusao t])
  | None => None
  end.

End Gerenciamento.

Section Disparar.
Context (parseFloat : string -> SpecFloat.spec_float).
Context (number_toString : SpecFloat.spec_float -> string).

(** The handler an action runs. *)
Definition disparar (fault : bool) (x : acao) (st : tela * db) : tela * db :=
  let (t, s) := st in
  match x with
  | AEditar a => ((editar number_toString a t).1, s)
  | AExcluir i nome => (excluir i nome t, s)
  | ASetNome str => (setNomeCliente str t, s)
  | ASetServico str => (setServico str t, s)
  | ASetValor str => (setValorOrcamento str t, s)
  | ASalvar => salvarEdicao parseFloat fault t s
  | AFecharModal => (fecharModal t, s)
  | AConfirmar => confirmarExclusao fault t s
  | ACancelarExclusao => (cancelarExclusao t, s)
  end.

End Disparar.

(** ** Lemmas *)

(** A management card: two icons, no modal, no input. *)
Lemma renderItem_g_Some toFixed2 item c :
  renderItem_g toFixed2 item = Some c ->
  modais c = [] /\ entradas c = [] /\
  handlers c = [Press (AEditar item); Press (AExcluir item.1 (nome_cliente item.2))] /\
  estilos c = ["card"; "title"; "details"; "details"; "details"; "details"; "actions"].
Proof.
  unfold renderItem_g.
  destruct (formatarData_g (data item.2)), (formatarHora_g (hora item.2)), (valor_orcamento item.2);
    intros; simplify_eq.
  by repeat split.
Qed.

Lemma gerenciamento_shape toFixed2 janela t e :
  gerenciamentoAgendamentos toFixed2 janela t = Some e ->
  exists its, flatlist (fun item : nat * cliente => id_path item.1) (renderItem_g toFixed2)
                       (firstn janela (agendamentos t)) = Some its /\
              e = View "container" [Text "header" [JString "Gerenciar Agendamentos"]; FlatList its;
                                    modal_edicao t; modal_exclusao t].
Proof.
  unfold gerenciamentoAgendamentos. destruct (flatlist _ _ _) as [its|]; [|done].
  intros; simplify_eq. by exists its.
Qed.

(** The modals visible on the management screen, and the handlers
    outside them: a pencil and a trash icon per row of the window. *)
Lemma gerenciamento_modais_handlers toFixed2 janela t e :
  gerenciamentoAgendamentos toFixed2 janela t = Some e ->
  modais e = ((if modalVisible t then
       [(AFecharModal, [ChangeText ASetNome; ChangeText ASetServico; ChangeText ASetValor;
                        Press ASalvar; Press AFecharModal])] else []) ++
    (if modalExcluirVisible t then [(ACancelarExclusao, [Press AConfirmar; Press ACancelarExclusao])]
     else []))%list /\
  handlers e = flat_map (fun item => [Press (AEditar item); Press (AExcluir item.1 (nome_cliente item.2))])
                        (firstn janela (agendamentos t)).
Proof.
  intros (its & Hits & ->)%gerenciamento_shape. cbn [modais handlers flat_map].
  rewrite (flatlist_flat_map _ _ _ _ modais (fun _ => [])
             (fun x y Hy => proj1 (renderItem_g_Some _ _ _ Hy)) Hits),
          (flatlist_flat_map _ _ _ _ handlers _
             (fun x y Hy => proj1 (proj2 (proj2 (renderItem_g_Some _ _ _ Hy)))) Hits).
  rewrite flat_map_nil. unfold modal_edicao, modal_exclusao. cbn. rewrite !app_nil_r.
  by destruct (modalVisible t), (modalExcluirVisible t).
Qed.

(** What the user can reach on the management screen: the delete
    modal's two buttons when it is open, else the edit modal's inputs
    and buttons when it is open, else the icons of the rows in view. *)
Lemma gerenciamento_ativos toFixed2 janela t e h :
  gerenciamentoAgendamentos toFixed2 janela t = Some e ->
  In h (ativos e) <->
  if modalExcluirVisible t then h = Press ACancelarExclusao \/ h = Press AConfirmar
  else if modalVisible t then
    h = Press AFecharModal \/ h = ChangeText ASetNome \/ h = ChangeText ASetServico \/
    h = ChangeText ASetValor \/ h = Press ASalvar
  else exists item, In item (firstn janela (agendamentos t)) /\
         (h = Press (AEditar item) \/ h = Press (AExcluir item.1 (nome_cliente item.2))).
Proof.
  intros [Hm Hh]%gerenciamento_modais_handlers. unfold ativos. rewrite Hm.
  destruct (modalVisible t), (modalExcluirVisible t); cbn; [intuition congruence..|].
  rewrite Hh, in_flat_map. split.
  - intros (x & Hx & Hin). exists x. split; [done|]. cbn in Hin. intuition.
  - intros (x & Hx & Hin). exists x. split; [done|]. cbn. intuition.
Qed.

(** The inputs the management screen shows, and the question of the
    delete modal when it is open. *)
Lemma gerenciamento_entradas_textos toFixed2 janela t e :
  gerenciamentoAgendamentos toFixed2 janela t = Some e ->
  entradas e = (if modalVisible t then
                  [("Nome do Cliente", nomeCliente t); ("Serviço", servico_input t);
                   ("Valor", JString (valorOrcamento t))] else []) /\
  (modalExcluirVisible t = true ->
   last (textos e) =
     Some [JString "Tem certeza que deseja excluir o agendamento de ";
           match excluirAgendamento t with Some (_, nome) => nome | None => JUndefined end;
           JString "?"]).
Proof.
  intros (its & Hits & ->)%gerenciamento_shape. cbn [entradas textos flat_map].
  rewrite (flatlist_flat_map _ _ _ _ entradas (fun _ => [])
             (fun x y Hy => proj1 (proj2 (renderItem_g_Some _ _ _ Hy))) Hits), flat_map_nil.
  unfold modal_edicao, modal_exclusao. split.
  - by destruct (modalVisible t), (modalExcluirVisible t).
  - intros ->. cbn. by rewrite app_comm_cons, app_assoc, last_snoc.
Qed.

(** A listing card uses the card styles. *)
Lemma renderItem_index_Some toFixed2 item c :
  renderItem_index toFixed2 item = Some c ->
  estilos c = ["card"; "cardTitle"; "cardText"; "cardText"; "cardText"].
Proof.
  unfold renderItem_index.
  destruct (formatDate (data item.2) (hora item.2)), (valor_orcamento item.2); intros; by simplify_eq.
Qed.

(** The styles a rendered list uses are those of its items. *)
Lemma flatlist_estilos {X A} key (render : X -> option (elemento A)) l its (L : list string) :
  (forall x c, render x = Some c -> incl (estilos c) L) ->
  flatlist key render l = Some its -> incl (flat_map (fun '(_, c) => estilos c) its) L.
Proof.
  intros HL H n Hn. destruct (In_flatlist_flat_map _ _ _ _ _ _ H Hn) as (x & c & _ & Hc & Hin).
  by apply (HL x c).
Qed.

Lemma gerenciamento_estilos toFixed2 janela t e :
  gerenciamentoAgendamentos toFixed2 janela t = Some e ->
  incl (estilos e) ["container"; "header"; "card"; "title"; "details"; "actions";
                    "modalBackground"; "modalContainer"; "modalTitle"; "input";
                    "buttonWrapper"; "modalActions"; "buttonSpacing"].
Proof.
  intros (its & Hits & ->)%gerenciamento_shape.
  assert (Hc : incl (flat_map (fun '(_, c) => estilos c) its) ["card"; "title"; "details"; "actions"]).
  { refine (flatlist_estilos _ _ _ _ _ _ Hits). intros x c Hx.
    rewrite (proj2 (proj2 (proj2 (renderItem_g_Some _ _ _ Hx)))). intros n; cbn; tauto. }
  intros n Hn. cbn -[flat_map] in Hn. unfold modal_edicao, modal_exclusao in Hn. cbn in Hn.
  rewrite !in_app_iff in Hn. cbn. intuition (try apply Hc in H; cbn in H; tauto).
Qed.

Lemma index_estilos toFixed2 janela l e :
  AgendamentosScreen_ui toFixed2 janela l = Some e ->
  incl (estilos e) ["container"; "title"; "card"; "cardTitle"; "cardText"].
Proof.
  unfold AgendamentosScreen_ui. destruct (flatlist _ _ _) as [its|] eqn:Hits; [|done].
  intros; simplify_eq.
  assert (Hc : incl (flat_map (fun '(_, c) => estilos c) its) ["card"; "cardTitle"; "cardText"]).
  { refine (flatlist_estilos _ _ _ _ _ _ Hits). intros x c Hx.
    rewrite (renderItem_index_Some _ _ _ Hx). intros n; cbn; tauto. }
  intros n Hn. cbn in Hn. rewrite !in_app_iff in Hn. cbn. intuition (try apply Hc in H; cbn in H; tauto).
Qed.

Lemma styles_definidos (styles : list (string * estilo)) (L : list string) :
  forallb (fun n => match obj_get styles n with Some _ => true | None => false end) L = true ->
  forall n, In n L -> obj_get styles n <> None.
Proof.
  intros HL n Hn. rewrite forallb_forall in HL. specialize (HL n Hn).
  by destruct (obj_get styles n).
Qed.

(** The listing screen's interface never holds of a row: the server
    sends [id] as a number. The management screen's holds exactly when
    the five columns have their declared types. *)
Lemma interfaces_conforme item :
  conforme Agendamento_index item = false /\
  conforme Agendamento_gerenciar item =
    (tem_tipo TString (nome_cliente item.2) && tem_tipo TString (data item.2) &&
     tem_tipo TString (hora item.2) && tem_tipo TString (servico item.2) &&
     tem_tipo TNumber (valor_orcamento item.2))%bool.
Proof.
  destruct item as [i [n d h sv v]]. split; [done|]. cbn.
  by rewrite !andb_true_r, !andb_assoc.
Qed.

(** ** The screen implements [gstep] *)

(** C14. The moves of [Gerenciar.gstep] are exactly what the rendered
    management screen lets a user do. Soundness: every button, icon or
    input the user can reach, whatever the window of the list, runs a
    handler that is a [gstep] move; a save needs values that survive the
    round trips. Completeness: when at most one modal is open, every
    [gstep] move other than the mount effect's load is the handler of
    something the user can reach on the screen rendered over the whole
    list. *)
Theorem gerenciar_ui_gstep parseFloat number_toString toFixed2 t s :
  (forall janela e h x fault,
     gerenciamentoAgendamentos toFixed2 janela t = Some e -> In h (ativos e) -> dispara h x ->
     (x = ASalvar -> stable (nomeCliente t) /\ stable (servico_input t) /\
                     stable (JNumber (parseFloat (valorOrcamento t)))) ->
     gstep parseFloat number_toString (t, s) (disparar parseFloat number_toString fault x (t, s))) /\
  (~ (modalVisible t = true /\ modalExcluirVisible t = true) ->
   forall e st',
     gerenciamentoAgendamentos toFixed2 (length (agendamentos t)) t = Some e ->
     gstep parseFloat number_toString (t, s) st' ->
     (exists f, st' = (buscarAgendamentos (get_clientes f s) t, s)) \/
     exists h x f, In h (ativos e) /\ dispara h x /\
                   st' = disparar parseFloat number_toString f x (t, s)).
Proof.
  split.
  - intros janela e h x fault He Hin Hd Hsave. apply (gerenciamento_ativos _ _ _ _ h He) in Hin.
    destruct (modalExcluirVisible t) eqn:Eev.
    { destruct Hin as [->| ->]; cbn in Hd; subst x; by constructor. }
    destruct (modalVisible t) eqn:Ev.
    + destruct Hin as [->|[->|[->|[->| ->]]]]; cbn in Hd;
        [subst x; by constructor|destruct Hd as [str ->]; by constructor..|subst x].
      destruct (Hsave eq_refl) as (? & ? & ?). by constructor.
    + destruct Hin as ([i r] & Hitem%In_firstn & [->| ->]); cbn in Hd; subst x; by constructor.
  - intros Hnb e st' He Hstep.
    pose proof (fun h => gerenciamento_ativos _ _ _ _ h He) as Ha. rewrite firstn_all in Ha.
    inversion Hstep as [f ? ?|a ? ? Hv Hev Hin|str ? ? Hv|str ? ? Hv|str ? ? Hv|? ? Hv
                       |f ? ? Hv ? ? ?|i r ? ? Hv Hev Hin|f ? ? Hev|? ? Hev]; subst;
      [by left; exists f|right..].
    + exists (Press (AEditar a)), (AEditar a), false. rewrite Ha, Hv, Hev. cbn. intuition eauto.
    + exists (ChangeText ASetNome), (ASetNome str), false.
      rewrite Ha, Hv. destruct (modalExcluirVisible t); cbn; intuition eauto.
    + exists (ChangeText ASetServico), (ASetServico str), false.
      rewrite Ha, Hv. destruct (modalExcluirVisible t); cbn; intuition eauto.
    + exists (ChangeText ASetValor), (ASetValor str), false.
      rewrite Ha, Hv. destruct (modalExcluirVisible t); cbn; intuition eauto.
    + exists (Press AFecharModal), AFecharModal, false.
      rewrite Ha, Hv. destruct (modalExcluirVisible t); cbn; intuition eauto.
    + exists (Press ASalvar), ASalvar, f.
      rewrite Ha, Hv. destruct (modalExcluirVisible t); cbn; intuition eauto.
    + exists (Press (AExcluir i (nome_cliente r))), (AExcluir i (nome_cliente r)), false.
      rewrite Ha, Hv, Hev. cbn. intuition eauto.
    + exists (Press AConfirmar), AConfirmar, f. rewrite Ha, Hev. cbn. intuition eauto.
    + exists (Press ACancelarExclusao), ACancelarExclusao, false. rewrite Ha, Hev. cbn. intuition eauto.
Qed.

(** ** What a row's icons open *)

(** C20. With no modal open, pressing a row's pencil opens the edit
    modal, whose three inputs show that row's name, service and amount.
    If the amount is [null], [toString] throws and no modal opens.
    Pressing the row's trash icon opens the delete modal, which asks
    about that row's client by name. *)
Theorem icones_abrem_modais number_toString toFixed2 janela t i r :
  modalVisible t = false -> modalExcluirVisible t = false ->
  (forall v e, to_string number_toString (valor_orcamento r) = Some v ->
     gerenciamentoAgendamentos toFixed2 janela (editar number_toString (i, r) t).1 = Some e ->
     map fst (modais e) = [AFecharModal] /\
     entradas e = [("Nome do Cliente", nome_cliente r); ("Serviço", servico r); ("Valor", JString v)]) /\
  (forall e, to_string number_toString (valor_orcamento r) = None ->
     gerenciamentoAgendamentos toFixed2 janela (editar number_toString (i, r) t).1 = Some e ->
     modais e = [] /\ entradas e = []) /\
  (forall e, gerenciamentoAgendamentos toFixed2 janela (excluir i (nome_cliente r) t) = Some e ->
     map fst (modais e) = [ACancelarExclusao] /\
     last (textos e) = Some [JString "Tem certeza que deseja excluir o agendamento de ";
                             nome_cliente r; JString "?"]).
Proof.
  intros Hv Hev. split; [|split].
  - intros v e Hs He.
    destruct (gerenciamento_modais_handlers _ _ _ _ He) as [Hm _].
    destruct (gerenciamento_entradas_textos _ _ _ _ He) as [Hen _].
    unfold editar in Hm, Hen. cbn [snd] in Hm, Hen. rewrite Hs in Hm, Hen. cbn in Hm, Hen. by rewrite Hm, Hen, Hev.
  - intros e Hs He.
    destruct (gerenciamento_modais_handlers _ _ _ _ He) as [Hm _].
    destruct (gerenciamento_entradas_textos _ _ _ _ He) as [Hen _].
    unfold editar in Hm, Hen. cbn [snd] in Hm, Hen. rewrite Hs in Hm, Hen. cbn in Hm, Hen. by rewrite Hm, Hen, Hv, Hev.
  - intros e He.
    destruct (gerenciamento_modais_handlers _ _ _ _ He) as [Hm _].
    destruct (gerenciamento_entradas_textos _ _ _ _ He) as [_ Ht].
    cbn in Hm, Ht. by rewrite Hm, Ht, Hv.
Qed.

(** ** Styles *)

(** C33. Every [styles.x] either list screen uses, in any state and for
    any window of its list, is a property of its [StyleSheet.create]
    object, so no element gets an [undefined] style. The listing
    screen's sheet also defines seven styles for buttons that no render
    of the screen uses: the listing screen has nothing to press at all. *)
Theorem estilos_definidos toFixed2 janela :
  (forall t e, gerenciamentoAgendamentos toFixed2 janela t = Some e ->
     forall n, In n (estilos e) -> obj_get styles_gerenciar n <> None) /\
  (forall l e, AgendamentosScreen_ui toFixed2 janela l = Some e ->
     forall n, In n (estilos e) -> obj_get styles_index n <> None) /\
  (forall n, In n ["buttons"; "button"; "btnCadastrar"; "btnGerenciar"; "buttonText";
                   "cardButton"; "cardButtonText"] ->
     obj_get styles_index n <> None /\
     forall l e, AgendamentosScreen_ui toFixed2 janela l = Some e -> ~ In n (estilos e)) /\
  (forall l e, AgendamentosScreen_ui toFixed2 janela l = Some e -> ativos e = []).
Proof.
  split; [|split; [|split]].
  - intros t e He n Hn. eapply styles_definidos; [|by apply (gerenciamento_estilos _ _ _ _ He)].
    reflexivity.
  - intros l e He n Hn. eapply styles_definidos; [|by apply (index_estilos _ _ _ _ He)].
    reflexivity.
  - intros n Hn. split; [by eapply styles_definidos; [|exact Hn]|].
    intros l e He Hin%(index_estilos _ _ _ _ He). cbn in Hn, Hin. intuition congruence.
  - intros l e _. unfold ativos. destruct (elemento_sem_acoes e) as [-> ->]. done.
Qed.

(** ** Witnesses *)

(** On the screen with [sample_db]'s row open for editing, [Salvar] is
    on screen and pressing it is a [gstep] move. *)
Lemma gerenciar_ui_gstep_witness :
  let e := default (View "" []) (gerenciamentoAgendamentos fixed50 1 tela_editando) in
  gerenciamentoAgendamentos fixed50 1 tela_editando = Some e /\ In (Press ASalvar) (ativos e) /\
  gstep parse60 show50 (tela_editando, sample_db)
        (disparar parse60 show50 false ASalvar (tela_editando, sample_db)).
Proof.
  intros e. assert (He : gerenciamentoAgendamentos fixed50 1 tela_editando = Some e) by reflexivity.
  assert (Hin : In (Press ASalvar) (ativos e)) by (vm_compute; intuition).
  split; [exact He|]. split; [exact Hin|].
  apply (proj1 (gerenciar_ui_gstep parse60 show50 fixed50 tela_editando sample_db)
               1 e (Press ASalvar) ASalvar false He Hin eq_refl).
  intros _. split; [|split]; split; vm_compute; reflexivity.
Defined.

(** On the loaded screen, the pencil of [sample_db]'s row opens the
    edit modal with Ana, Corte and 50. *)
Lemma icones_abrem_modais_witness :
  let t := set_agendamentos (view (clientes sample_db)) tela0 in
  let e := default (View "" [])
             (gerenciamentoAgendamentos fixed50 1 (editar show50 (1, row_rt sample_row) t).1) in
  modalVisible t = false /\ modalExcluirVisible t = false /\
  map fst (modais e) = [AFecharModal] /\
  entradas e = [("Nome do Cliente", JString "Ana"); ("Serviço", JString "Corte");
                ("Valor", JString "50")].
Proof.
  intros t e. split; [reflexivity|]. split; [reflexivity|].
  apply (proj1 (icones_abrem_modais show50 fixed50 1 t 1 (row_rt sample_row) eq_refl eq_refl)
               "50" e); reflexivity.
Defined.

End Telas.
