(* ===== verification/Composicao.v ===== *)
(** The screens together with the other writers of the table.
    - The management screen ([gerenciar.tsx], [Gerenciar]) loads its copy
      of [clientes] once, on mount. [cstep] composes its steps with whole
      archival runs ([Archival]): a run moves rows to [concluidos] and
      the copy goes stale, and an edit of a moved row goes to a row that
      no longer exists. The server answers the UPDATE with 200 whatever
      the number of rows it changed, so the screen takes the edit as
      saved.
    - [gstep2] interleaves two management screens over one server: two
      edits of one row are a lost update.
    - [executar] interleaves the events of two booking forms
      ([cadastrar.tsx], [Cadastrar]) over one server, each handler
      running to completion; Scenario B of the spec is one schedule. The
      date effect's two GETs run together with the date choice. *)

From S2P Require Import Prelude JsValue Store Server Availability Archival Gerenciar Cadastrar.
Import Js Store Server Archival Gerenciar.

Module Composicao.

(** ** The screen and the archival run together *)

Section Composed.
Context (parseFloat : string -> SpecFloat.spec_float).
Context (number_toString : SpecFloat.spec_float -> string).

(** A staff member's action on the screen ([Gerenciar.gstep]), or a
    whole archival run of the server ([setInterval]) between two of
    them. The server's event loop runs a run's statements between the
    handlers of requests; with one screen, a run happens between two
    of its actions. *)
Inductive cstep : tela * db -> tela * db -> Prop :=
| cs_tela st st' : gstep parseFloat number_toString st st' -> cstep st st'
| cs_arquivar c a fl t s : cstep (t, s) (t, arquivar c a fl s).

(** Two staff members, each with the management screen open, over the
    one server: the actions of either, interleaved one at a time. *)
Inductive gstep2 : tela * tela * db -> tela * tela * db -> Prop :=
| g2_a tA tB s tA' s' :
    gstep parseFloat number_toString (tA, s) (tA', s') -> gstep2 (tA, tB, s) (tA', tB, s')
| g2_b tA tB s tB' s' :
    gstep parseFloat number_toString (tB, s) (tB', s') -> gstep2 (tA, tB, s) (tA, tB', s').

End Composed.

(** ** Two clients on the booking form *)

(** What a client does on the booking form: choose a date (the effect
    then reads [GET /api/clientes] and [GET /api/gestao]), choose a
    time, press the submit button. *)
Inductive evento := EData (d : string) | EHora (h : string) | EEnviar.

Section Clientes.
Context (atributo : jsval -> string).

(** One event on one form, against the server's current store. *)
Definition passo_form (e : evento) (f : Cadastrar.form) (s : db) : Cadastrar.form * db :=
  match e with
  | EData d => (Cadastrar.escolherData d (get_clientes false s) (get_gestao false s) f, s)
  | EHora h => (Cadastrar.setHoraEscolhida h f, s)
  | EEnviar => Cadastrar.enviar atributo false s f
  end.

(** An interleaving of the events of two clients ([true]: the first),
    each running to completion, over the one store. *)
Fixpoint executar (sched : list (bool * evento)) (f1 f2 : Cadastrar.form) (s : db)
    : Cadastrar.form * Cadastrar.form * db :=
  match sched with
  | [] => (f1, f2, s)
  | (true, e) :: rest => let (f1', s') := passo_form e f1 s in executar rest f1' f2 s'
  | (false, e) :: rest => let (f2', s') := passo_form e f2 s in executar rest f1 f2' s'
  end.

End Clientes.

(** Scenario B: both clients choose the date and the time, then both
    submit. *)
Definition cenario_B (d h : string) : list (bool * evento) :=
  [(true, EData d); (false, EData d); (true, EHora h); (false, EHora h);
   (true, EEnviar); (false, EEnviar)].

(** ** Sample *)

(** The screen loaded [archive_db] and is editing the appointment of
    2025-01-05; the run of 2025-01-10 moves it. *)
Definition tela_arquivo : tela :=
  mkTela (view (clientes archive_db)) true false (Some (1, row_rt old_row)) None
         (JString "Caio Souza") (JString "Corte") "60".

(** Two staff members loaded [sample_db] and are editing Ana's
    appointment: one renames her "Ana Souza", the other "Ana Lima". *)
Definition tela_ana (nome : string) : tela :=
  mkTela (view (clientes sample_db)) true false (Some (1, row_rt sample_row)) None
         (JString nome) (JString "Corte") "60".

(** A second client's booking form, mounted on the same day as
    [Cadastrar.form_montado]. *)
Definition form_caio : Cadastrar.form :=
  Cadastrar.mkForm (servicos sample_db) ["2025-01-10"] [] "Caio" "" "" "Corte" (js_int 50).

(** ** Lemmas *)

Lemma set_clientes_same s : set_clientes (clientes s) s = s.
Proof. by destruct s. Qed.

Section Stale.
Context (parseFloat : string -> SpecFloat.spec_float).

(** A save answered 200: the server's UPDATE writes the three edited
    values of the row [i]; the screen replaces the row in its copy and
    closes the modal. *)
Lemma salvarEdicao_ok t s i r :
  (Z.of_nat i < 2 ^ 63)%Z -> editandoAgendamento t = Some (i, r) ->
  salvarEdicao parseFloat false t s =
    (mkTela (map (fun item => if bool_decide (item.1 = i) then (i, updated parseFloat r t) else item)
                 (agendamentos t))
            false (modalExcluirVisible t) None (excluirAgendamento t)
            (nomeCliente t) (servico_input t) (valorOrcamento t),
     set_clientes (sql_update (Some i)
                     (set_edit (json_rt (nomeCliente t)) (json_rt (servico_input t))
                               (json_rt (JNumber (parseFloat (valorOrcamento t)))))
                     (clientes s)) s).
Proof.
  intros Hi Hed. unfold salvarEdicao. rewrite Hed.
  cbn -[put_body id_path rowid_of_param updated]. rewrite id_path_roundtrip by done.
  by destruct (put_body_fields i (updated parseFloat r t)) as [-> [-> ->]].
Qed.

(** A save of a row the table no longer holds: the server answers 200
    and changes nothing. *)
Lemma salvarEdicao_absent t s i r :
  (Z.of_nat i < 2 ^ 63)%Z -> editandoAgendamento t = Some (i, r) ->
  (forall r', ~ In (i, r') (clientes s)) ->
  salvarEdicao parseFloat false t s =
    (mkTela (map (fun item => if bool_decide (item.1 = i) then (i, updated parseFloat r t) else item)
                 (agendamentos t))
            false (modalExcluirVisible t) None (excluirAgendamento t)
            (nomeCliente t) (servico_input t) (valorOrcamento t), s).
Proof.
  intros Hi Hed Hgone. rewrite (salvarEdicao_ok t s i r Hi Hed).
  rewrite sql_update_absent, set_clientes_same; [done|].
  intros j r' Hin. apply not_true_iff_false. rewrite id_matches_Some. intros ->. by apply (Hgone r').
Qed.

(** Two saves of the same row: the second UPDATE writes all three
    columns, so the table is as if the first had not happened. *)
Lemma salvarEdicao_twice tA tB s i rA rB :
  (Z.of_nat i < 2 ^ 63)%Z -> editandoAgendamento tA = Some (i, rA) ->
  editandoAgendamento tB = Some (i, rB) ->
  salvarEdicao parseFloat false tB (salvarEdicao parseFloat false tA s).2 =
  salvarEdicao parseFloat false tB s.
Proof.
  intros Hi HA HB. rewrite (salvarEdicao_ok tA s i rA Hi HA). cbn [snd].
  rewrite !(salvarEdicao_ok tB _ i rB Hi HB). cbn [set_clientes clientes]. f_equal.
  by rewrite sql_update_twice.
Qed.

(** In a copy after a save of the row [i], that row is the edited one. *)
Lemma In_replaced (l : table cliente) i u u' :
  In (i, u') (map (fun item => if bool_decide (item.1 = i) then (i, u) else item) l) -> u' = u.
Proof.
  rewrite in_map_iff. intros [[j r] [Heq _]]. cbn [fst] in Heq.
  case_bool_decide; [congruence|]. injection Heq as -> _. done.
Qed.

(** A fault-free run removes every row it selected. *)
Lemma arquivar_removes c a s i r0 r' :
  rowids_sorted (clientes s) -> In (i, r0) (clientes s) -> sql_le_text (data r0) c = true ->
  ~ In (i, r') (clientes (arquivar c a no_faults s)).
Proof.
  intros Hs Hin Hle Hin'. rewrite (proj1 (arquivar_moves_selected c a s Hs)), filter_In in Hin'.
  destruct Hin' as [Hin' Hn]. cbn [snd] in Hn.
  rewrite (sorted_rowid_unique _ i r' r0), Hle in Hn by done. discriminate.
Qed.

End Stale.

(** After a client chose a date and a time offered for it, the form
    passes the browser's checks. *)
Lemma escolhas_cenario atributo s f d h :
  d <> "" -> h <> "" -> d <> Cadastrar.dataEscolhida f -> In d (Cadastrar.datasDisponiveis f) ->
  Cadastrar.nomeCliente f <> "" -> Cadastrar.servicoEscolhido f <> "" ->
  In (Cadastrar.servicoEscolhido f)
     (map (fun sv => Cadastrar.valor_atributo atributo (nome sv)) (Cadastrar.servicosDisponiveis f)) ->
  In (JString h) (Availability.horariosDisponiveis (gestao s) (Availability.horariosOcupados (clientes s) d)) ->
  Cadastrar.escolhas_validas atributo
    (Cadastrar.setHoraEscolhida h (Cadastrar.escolherData d (get_clientes false s) (get_gestao false s) f)).
Proof.
  intros Hd Hh Hdiff Hdat Hn Hs Hsin Hfree. unfold Cadastrar.escolherData.
  rewrite (proj2 (String.eqb_neq _ _) Hdiff).
  unfold Cadastrar.escolhas_validas, Availability.consultarHorariosDisponiveis. cbn -[Availability.horariosDisponiveis].
  rewrite (proj2 (String.eqb_neq d "") Hd). cbn -[Availability.horariosDisponiveis].
  repeat split; try done. apply in_map_iff. by exists (JString h).
Qed.

(** The fields of a form after the choice of a new date and of a time. *)
Lemma escolher_campos s f d h :
  d <> Cadastrar.dataEscolhida f ->
  let g := Cadastrar.setHoraEscolhida h
             (Cadastrar.escolherData d (get_clientes false s) (get_gestao false s) f) in
  Cadastrar.dataEscolhida g = d /\ Cadastrar.horaEscolhida g = h /\
  Cadastrar.nomeCliente g = Cadastrar.nomeCliente f /\
  Cadastrar.servicoEscolhido g = Cadastrar.servicoEscolhido f /\
  Cadastrar.valorOrcamento g = Cadastrar.valorOrcamento f.
Proof. intros Hdiff g. unfold g, Cadastrar.escolherData. by rewrite (proj2 (String.eqb_neq _ _) Hdiff). Qed.

(** ** Properties *)

(** C17. An edit made on a copy loaded before an archival run is lost,
    and the screen reports it saved. The screen was in sync with the
    table and is editing the row [i]; an archival run then selects and
    moves it, and the staff member saves. This is a run of the composed
    system. The save is answered 200: the modal closes and the copy
    shows the edit, so the copy no longer matches the table, which the
    screen alone always keeps ([Gerenciar]). Yet no table changes, no
    active row has the id [i], and the history keeps the pre-edit
    values. *)
Theorem edicao_apos_arquivamento parseFloat number_toString c a t s i r0 :
  in_sync t s -> rowids_sorted (clientes s) -> (Z.of_nat i < 2 ^ 63)%Z ->
  In (i, r0) (clientes s) -> sql_le_text (data r0) c = true ->
  editandoAgendamento t = Some (i, row_rt r0) -> modalVisible t = true ->
  stable (nomeCliente t) -> stable (servico_input t) ->
  stable (JNumber (parseFloat (valorOrcamento t))) ->
  let s1 := arquivar c a no_faults s in
  let p := salvarEdicao parseFloat false t s1 in
  star (cstep parseFloat number_toString) (t, s) p /\
  ~ in_sync p.1 p.2 /\ p.2 = s1 /\ modalVisible p.1 = false /\
  In (i, updated parseFloat (row_rt r0) t) (agendamentos p.1) /\
  (forall r', ~ In (i, r') (clientes p.2)) /\
  In (to_concluido (a i) r0) (map snd (concluidos p.2)).
Proof.
  intros Hsync Hs Hi Hin Hle Hed Hm Hn Hsv Hv s1 p.
  assert (Hgone : forall r', ~ In (i, r') (clientes s1)) by (intros r'; by eapply arquivar_removes).
  assert (Hcopy : In (i, row_rt r0) (agendamentos t)) by (rewrite Hsync; apply In_view; by exists r0).
  assert (Hp : p = (_, s1)) by (unfold p; by apply salvarEdicao_absent).
  assert (Hshown : In (i, updated parseFloat (row_rt r0) t) (agendamentos p.1)).
  { rewrite Hp. apply in_map_iff. exists (i, row_rt r0). by rewrite bool_decide_eq_true_2. }
  split; [|split; [|rewrite Hp in Hshown |- *; cbn [fst snd] in Hshown |- *;
                    split; [done|split; [done|split; [done|split; [done|]]]]]].
  - eapply star_step; [apply (cs_arquivar _ _ c a no_faults)|].
    apply star_one, cs_tela. unfold p. by apply gs_salvar.
  - intros Hsync1. rewrite Hsync1 in Hshown. apply In_view in Hshown as [r1 [Hr1 _]].
    rewrite Hp in Hr1. by apply (Hgone r1).
  - unfold s1. rewrite (proj2 (arquivar_moves_selected c a s Hs)).
    apply in_or_app. right. apply (in_map (fun q => to_concluido (a q.1) q.2) _ (i, r0)).
    by apply filter_In.
Qed.

(** C18. Lost update between two staff members. Both loaded the list
    from the same table and opened the editor on the row [i], and they
    save different values, one after the other. Both saves are answered
    200 and close their modal, and each screen shows its own edit. The
    table ends as if the first save had never happened (the last writer
    wins), and the first screen's copy no longer matches it: the first
    staff member sees an edit that no table holds. *)
Theorem edicoes_concorrentes parseFloat number_toString tA tB s i r0 :
  in_sync tA s -> in_sync tB s -> rowids_sorted (clientes s) -> (Z.of_nat i < 2 ^ 63)%Z ->
  In (i, r0) (clientes s) ->
  editandoAgendamento tA = Some (i, row_rt r0) -> editandoAgendamento tB = Some (i, row_rt r0) ->
  modalVisible tA = true -> modalVisible tB = true ->
  stable (nomeCliente tA) -> stable (servico_input tA) ->
  stable (JNumber (parseFloat (valorOrcamento tA))) ->
  stable (nomeCliente tB) -> stable (servico_input tB) ->
  stable (JNumber (parseFloat (valorOrcamento tB))) ->
  updated parseFloat (row_rt r0) tA <> updated parseFloat (row_rt r0) tB ->
  let pA := salvarEdicao parseFloat false tA s in
  let pB := salvarEdicao parseFloat false tB pA.2 in
  star (gstep2 parseFloat number_toString) (tA, tB, s) (pA.1, pB.1, pB.2) /\
  pB = salvarEdicao parseFloat false tB s /\
  modalVisible pA.1 = false /\ modalVisible pB.1 = false /\
  In (i, updated parseFloat (row_rt r0) tA) (agendamentos pA.1) /\
  in_sync pB.1 pB.2 /\ ~ in_sync pA.1 pB.2.
Proof.
  intros HsA HsB Hs Hi Hin HedA HedB HmA HmB HnA HsvA HvA HnB HsvB HvB Hne pA pB.
  assert (Hlast : pB = salvarEdicao parseFloat false tB s) by (by eapply salvarEdicao_twice).
  assert (HinA : In (i, row_rt r0) (agendamentos tA)) by (rewrite HsA; apply In_view; by exists r0).
  assert (HinB : In (i, row_rt r0) (agendamentos tB)) by (rewrite HsB; apply In_view; by exists r0).
  assert (HsyncB : in_sync pB.1 pB.2)
    by (rewrite Hlast; by apply (salvarEdicao_in_sync parseFloat false tB s i (row_rt r0))).
  assert (HshownA : In (i, updated parseFloat (row_rt r0) tA) (agendamentos pA.1)).
  { unfold pA. rewrite (salvarEdicao_ok parseFloat tA s i _ Hi HedA). cbn [fst agendamentos].
    apply in_map_iff. exists (i, row_rt r0). by rewrite bool_decide_eq_true_2. }
  split; [|split; [done|split; [|split; [|split; [done|split; [done|]]]]]].
  - apply (star_step _ _ (pA.1, tB, pA.2)).
    { apply g2_a. rewrite <- surjective_pairing. by apply gs_salvar. }
    apply star_one, g2_b. unfold pB. rewrite <- surjective_pairing. by apply gs_salvar.
  - unfold pA. by rewrite (salvarEdicao_ok parseFloat tA s i _ Hi HedA).
  - rewrite Hlast. by rewrite (salvarEdicao_ok parseFloat tB s i _ Hi HedB).
  - intros HsyncA. rewrite HsyncA, <- HsyncB, Hlast, (salvarEdicao_ok parseFloat tB s i _ Hi HedB) in HshownA.
    apply In_replaced in HshownA. by apply Hne.
Qed.

(** C7. Scenario B of the spec, through the booking forms. Two clients
    each choose the same date, see the same free slot [h] and choose it;
    then both press the submit button. The browser's checks pass for
    both, both bookings are answered 201 and clear their form, and the
    slot ends up double-booked. The spec requires one success and one
    [ConflictError]. *)
Theorem cenario_B_double_booking atributo s f1 f2 d h :
  regex_test dataRegex (JString d) = true -> regex_test horaRegex (JString h) = true ->
  In (JString h) (Availability.horariosDisponiveis (gestao s) (Availability.horariosOcupados (clientes s) d)) ->
  Forall (fun f => d <> Cadastrar.dataEscolhida f /\ In d (Cadastrar.datasDisponiveis f) /\
            Cadastrar.nomeCliente f <> "" /\ Cadastrar.servicoEscolhido f <> "" /\
            In (Cadastrar.servicoEscolhido f)
               (map (fun sv => Cadastrar.valor_atributo atributo (nome sv)) (Cadastrar.servicosDisponiveis f)) /\
            js_truthy (Cadastrar.valorOrcamento f) = true /\ stable (Cadastrar.valorOrcamento f))
         [f1; f2] ->
  let r := executar atributo (cenario_B d h) f1 f2 s in
  Cadastrar.nomeCliente r.1.1 = "" /\ Cadastrar.nomeCliente r.1.2 = "" /\
  ~ no_double_booking (clientes r.2).
Proof.
  intros Hd Hh Hfree Hf r.
  pose proof (Cadastrar.regex_nonempty _ _ (or_introl eq_refl) Hd) as Hdne.
  pose proof (Cadastrar.regex_nonempty _ _ (or_intror eq_refl) Hh) as Hhne.
  apply List.Forall_cons_iff in Hf as [(Hd1 & Hdat1 & Hn1 & Hs1 & Hsin1 & Hv1 & Hst1) Hf].
  apply List.Forall_cons_iff in Hf as [(Hd2 & Hdat2 & Hn2 & Hs2 & Hsin2 & Hv2 & Hst2) _].
  unfold r, cenario_B. cbn [executar passo_form].
  set (g1 := Cadastrar.setHoraEscolhida h
               (Cadastrar.escolherData d (get_clientes false s) (get_gestao false s) f1)).
  set (g2 := Cadastrar.setHoraEscolhida h
               (Cadastrar.escolherData d (get_clientes false s) (get_gestao false s) f2)).
  assert (Hg1 : Cadastrar.escolhas_validas atributo g1) by (by apply escolhas_cenario).
  assert (Hg2 : Cadastrar.escolhas_validas atributo g2) by (by apply escolhas_cenario).
  destruct (escolher_campos s f1 d h Hd1) as (Hgd1 & Hgh1 & Hgn1 & Hgs1 & Hgv1).
  destruct (escolher_campos s f2 d h Hd2) as (Hgd2 & Hgh2 & Hgn2 & Hgs2 & Hgv2).
  fold g1 in Hgd1, Hgh1, Hgn1, Hgs1, Hgv1. fold g2 in Hgd2, Hgh2, Hgn2, Hgs2, Hgv2.
  rewrite (Cadastrar.enviar_insere atributo s g1 d h) by (rewrite ?Hgv1; done). cbn zeta.
  rewrite (Cadastrar.enviar_insere atributo _ g2 d h) by (rewrite ?Hgv2; done).
  cbn [fst snd Cadastrar.limpar Cadastrar.nomeCliente]. split; [done|split; [done|]].
  cbn [set_clientes clientes].
  apply (sql_insert_same_slot _ (next_rowid (clientes s))
           (mkCliente (JString (Cadastrar.nomeCliente g1)) (JString d) (JString h)
                      (JString (Cadastrar.servicoEscolhido g1)) (Cadastrar.valorOrcamento g1)));
    [|done|done].
  apply in_or_app. right. by left.
Qed.

(** ** Witnesses *)

Lemma cenario_B_double_booking_witness :
  let r := executar (fun _ => "") (cenario_B "2025-01-10" "10:00:00") Cadastrar.form_montado form_caio
             sample_db in
  Cadastrar.nomeCliente r.1.1 = "" /\ Cadastrar.nomeCliente r.1.2 = "" /\
  ~ no_double_booking (clientes r.2).
Proof.
  apply cenario_B_double_booking; try reflexivity.
  - vm_compute. left. reflexivity.
  - repeat constructor; try discriminate; try (vm_compute; left; reflexivity);
      try reflexivity.
Defined.

Lemma edicoes_concorrentes_witness :
  let pA := salvarEdicao parse60 false (tela_ana "Ana Souza") sample_db in
  let pB := salvarEdicao parse60 false (tela_ana "Ana Lima") pA.2 in
  star (gstep2 parse60 show50) (tela_ana "Ana Souza", tela_ana "Ana Lima", sample_db)
       (pA.1, pB.1, pB.2) /\
  pB = salvarEdicao parse60 false (tela_ana "Ana Lima") sample_db /\
  modalVisible pA.1 = false /\ modalVisible pB.1 = false /\
  In (1, updated parse60 (row_rt sample_row) (tela_ana "Ana Souza")) (agendamentos pA.1) /\
  in_sync pB.1 pB.2 /\ ~ in_sync pA.1 pB.2.
Proof.
  apply (edicoes_concorrentes parse60 show50 _ _ sample_db 1 sample_row);
    try reflexivity; try (split; reflexivity).
  - repeat constructor.
  - by left.
  - discriminate.
Defined.

Lemma edicao_apos_arquivamento_witness :
  let s1 := arquivar "2025-01-08" (fun _ => "2025-01-10T12:00:00.000Z") no_faults archive_db in
  let p := salvarEdicao parse60 false tela_arquivo s1 in
  star (cstep parse60 show50) (tela_arquivo, archive_db) p /\
  ~ in_sync p.1 p.2 /\ p.2 = s1 /\ modalVisible p.1 = false /\
  In (1, updated parse60 (row_rt old_row) tela_arquivo) (agendamentos p.1) /\
  (forall r', ~ In (1, r') (clientes p.2)) /\
  In (to_concluido "2025-01-10T12:00:00.000Z" old_row) (map snd (concluidos p.2)).
Proof.
  apply edicao_apos_arquivamento; try reflexivity.
  - repeat constructor; lia.
  - by left.
  - split; reflexivity.
  - split; reflexivity.
  - split; reflexivity.
Defined.

End Composicao.
