(* ===== verification/Assincrono.v ===== *)
(** The save and delete handlers of the management screen
    ([salvarEdicao], [confirmarExclusao] of [src/app/(tabs)/gerenciar.tsx])
    as the code runs them: [async] functions that [await fetch].

    Pressing the button captures the state of the render it belongs to:
    the list [agendamentos] and the row being edited or deleted. The
    request then reaches the server. The code after [await] runs later,
    when the response arrives, and writes the list computed from what it
    captured. In between, the staff member can keep using the screen:
    the modal stays open until the response, so they can press
    [Cancelar] and edit or delete another row.

    A response in flight is a value of [pendente] kept in the state,
    like messages in flight in a network model. [astep] is the step
    relation of the screen with its pending responses, which arrive in
    any order. [Gerenciar.gstep] is its special case where each
    response arrives before the next action. *)

From S2P Require Import Prelude JsValue Store Server Gerenciar Composicao.
Import Js Store Server Gerenciar Composicao.

Module Assincrono.

Section Async.
Context (parseFloat : string -> SpecFloat.spec_float).
Context (number_toString : SpecFloat.spec_float -> string).

(** The continuation of an [await fetch], with what the handler
    captured when it was pressed: the list, the row's id, the edited
    row (for a save), and the response. *)
Inductive pendente :=
| PSalvar (lista : table cliente) (i : nat) (u : cliente) (resp : response)
| PExcluir (lista : table cliente) (i : nat) (resp : response).

(** Pressing [Salvar]: the PUT reaches the server now. *)
Definition salvar_envio (fault : bool) (t : tela) (s : db) : option pendente * db :=
  match editandoAgendamento t with
  | None => (None, s)
  | Some (i, r) =>
      let u := updated parseFloat r t in
      let (resp, s') := put_agendamento (id_path i) (put_body i u) fault s in
      (Some (PSalvar (agendamentos t) i u resp), s')
  end.

(** Pressing [Confirmar]: the DELETE reaches the server now. *)
Definition excluir_envio (fault : bool) (t : tela) (s : db) : option pendente * db :=
  match excluirAgendamento t with
  | None => (None, s)
  | Some (i, _) =>
      let (resp, s') := delete_agendamento (id_path i) fault s in
      (Some (PExcluir (agendamentos t) i resp), s')
  end.

(** The code after [await], on the current screen [t]: on a 2xx answer
    it sets the list computed from the captured one, and closes the
    modal; otherwise an alert. *)
Definition retorno (p : pendente) (t : tela) : tela :=
  match p with
  | PSalvar lista i u resp =>
      if resp_ok resp then
        mkTela (map (fun item => if bool_decide (item.1 = i) then (i, u) else item) lista)
               false (modalExcluirVisible t) None (excluirAgendamento t)
               (nomeCliente t) (servico_input t) (valorOrcamento t)
      else t
  | PExcluir lista i resp =>
      if resp_ok resp then
        mkTela (List.filter (fun item => negb (bool_decide (item.1 = i))) lista)
               (modalVisible t) false (editandoAgendamento t) None
               (nomeCliente t) (servico_input t) (valorOrcamento t)
      else t
  end.

(** The screen, the store and the responses in flight. Besides the moves
    of [gstep], a save or a delete can be sent (with the guards of
    [gstep]) and a pending response can arrive, in any order. *)
Inductive astep : tela * db * list pendente -> tela * db * list pendente -> Prop :=
| as_gstep t s t' s' ps :
    gstep parseFloat number_toString (t, s) (t', s') -> astep (t, s, ps) (t', s', ps)
| as_salvar fault t s ps p s' :
    modalVisible t = true -> stable (nomeCliente t) -> stable (servico_input t) ->
    stable (JNumber (parseFloat (valorOrcamento t))) ->
    salvar_envio fault t s = (Some p, s') -> astep (t, s, ps) (t, s', ps ++ [p])
| as_excluir fault t s ps p s' :
    modalExcluirVisible t = true -> excluir_envio fault t s = (Some p, s') ->
    astep (t, s, ps) (t, s', ps ++ [p])
| as_retorno t s ps1 p ps2 :
    astep (t, s, ps1 ++ p :: ps2) (retorno p t, s, ps1 ++ ps2).

(** ** Lemmas *)

(** A save answered 200: the UPDATE of row [i] is done when the button
    is pressed, and the response carries the captured list. *)
Lemma salvar_envio_ok t s i r :
  (Z.of_nat i < 2 ^ 63)%Z -> editandoAgendamento t = Some (i, r) ->
  salvar_envio false t s =
    (Some (PSalvar (agendamentos t) i (updated parseFloat r t)
             (mkResponse 200 (PMessage "Agendamento atualizado com sucesso!"))),
     set_clientes (sql_update (Some i)
                     (set_edit (json_rt (nomeCliente t)) (json_rt (servico_input t))
                               (json_rt (JNumber (parseFloat (valorOrcamento t)))))
                     (clientes s)) s).
Proof.
  intros Hi Hed. unfold salvar_envio. rewrite Hed.
  cbn -[put_body id_path rowid_of_param updated]. rewrite id_path_roundtrip by done.
  by destruct (put_body_fields i (updated parseFloat r t)) as [-> [-> ->]].
Qed.

(** [editar] of a row whose amount has a [toString] opens the modal. *)
Lemma editar_abre t i r v :
  to_string number_toString (valor_orcamento r) = Some v ->
  (editar number_toString (i, r) t).1 =
    mkTela (agendamentos t) true (modalExcluirVisible t) (Some (i, r)) (excluirAgendamento t)
           (nome_cliente r) (servico r) v.
Proof. intros Hv. unfold editar. cbn [snd]. by rewrite Hv. Qed.

(** After the UPDATE of another row, row [i] keeps what it had. *)
Lemma In_sql_update_other i j r f (t : table cliente) :
  i <> j -> In (i, r) t -> In (i, r) (sql_update (Some j) f t).
Proof.
  intros Hij Hin. apply In_sql_update. exists r. split; [done|].
  destruct (id_matches (Some j) i) eqn:E; [|done]. by apply id_matches_Some in E.
Qed.

(** A delete answered 200: the DELETE of row [j] is done when the
    button is pressed. *)
Lemma excluir_envio_ok t s j x :
  (Z.of_nat j < 2 ^ 63)%Z -> excluirAgendamento t = Some (j, x) ->
  excluir_envio false t s =
    (Some (PExcluir (agendamentos t) j
             (mkResponse 200 (PMessage "Agendamento excluído com sucesso!"))),
     set_clientes (sql_delete (Some j) (clientes s)) s).
Proof.
  intros Hj Hex. unfold excluir_envio. rewrite Hex.
  cbn -[id_path rowid_of_param]. by rewrite id_path_roundtrip.
Qed.

(** The handler of [gstep] is the send followed at once by the code
    after [await]. *)
Lemma salvarEdicao_envio fault t s :
  salvarEdicao parseFloat fault t s =
  match salvar_envio fault t s with
  | (Some p, s') => (retorno p t, s')
  | (None, s') => (t, s')
  end.
Proof.
  unfold salvarEdicao, salvar_envio. destruct (editandoAgendamento t) as [[i r]|]; [|done].
  destruct (put_agendamento _ _ fault s) as [resp s']. cbn. by destruct (resp_ok resp), t.
Qed.

Lemma confirmarExclusao_envio fault t s :
  confirmarExclusao fault t s =
  match excluir_envio fault t s with
  | (Some p, s') => (retorno p t, s')
  | (None, s') => (t, s')
  end.
Proof.
  unfold confirmarExclusao, excluir_envio. destruct (excluirAgendamento t) as [[i x]|]; [|done].
  destruct (delete_agendamento _ fault s) as [resp s']. cbn. by destruct (resp_ok resp), t.
Qed.

(** A list equal to the table after [sql_update (Some i) (set_edit
    (JString n) ..)] and a DELETE, as the screen would load it, shows
    the name [n] at id [i]. *)
Lemma view_update_nome l id i n sv vv (c : table cliente) r :
  l = view (sql_delete id (sql_update (Some i) (set_edit (JString n) sv vv) c)) ->
  In (i, r) l -> nome_cliente r = JString n.
Proof.
  intros -> Hin. apply In_view in Hin as [r0 [Hin ->]]. apply In_sql_delete in Hin as [Hin _].
  apply In_sql_update in Hin as [r1 [_ ->]]. by rewrite (proj2 (id_matches_Some i i) eq_refl).
Qed.

(** No row of id [j] is left after [DELETE ... WHERE id = j]. *)
Lemma view_delete_absent l j r (c : table cliente) :
  l = view (sql_delete (Some j) c) -> ~ In (j, r) l.
Proof.
  intros -> Hin. apply In_view in Hin as [r0 [Hin _]]. apply In_sql_delete in Hin as [_ H].
  by rewrite (proj2 (id_matches_Some j j) eq_refl) in H.
Qed.

(** Nothing is sent when no row is being edited or deleted. *)
Lemma salvar_envio_None fault t s s' : salvar_envio fault t s = (None, s') -> s' = s.
Proof.
  unfold salvar_envio. destruct (editandoAgendamento t) as [[i r]|]; [|congruence].
  by destruct (put_agendamento _ _ fault s).
Qed.

Lemma excluir_envio_None fault t s s' : excluir_envio fault t s = (None, s') -> s' = s.
Proof.
  unfold excluir_envio. destruct (excluirAgendamento t) as [[i x]|]; [|congruence].
  by destruct (delete_agendamento _ fault s).
Qed.

(** ** The atomic handlers as a special case *)


(** ** Overlapping handlers *)

(** C12. The copy is lost when a save and a delete overlap. From a screen
    in sync with the table, the staff member opens row [i], types a new
    name and presses [Salvar]; before the answer comes, they press
    [Cancelar], open the delete modal of another row [j] and press
    [Confirmar]. Both requests succeed on the server. Each handler then
    sets the list computed from the list it captured when pressed, so
    whichever response arrives last, the screen is no longer what the
    server holds: with the delete last, row [i] shows its old name; with
    the save last, the deleted row [j] is back on screen. *)
Theorem respostas_sobrepostas t s i r j q v n :
  in_sync t s -> modalVisible t = false -> modalExcluirVisible t = false ->
  In (i, r) (agendamentos t) -> In (j, q) (agendamentos t) -> i <> j ->
  (Z.of_nat i < 2 ^ 63)%Z -> (Z.of_nat j < 2 ^ 63)%Z ->
  to_string number_toString (valor_orcamento r) = Some v ->
  stable (servico r) -> stable (JNumber (parseFloat v)) -> nome_cliente r <> JString n ->
  exists t1 s1 p1 p2,
    star astep (t, s, []) (t1, s1, [p1; p2]) /\
    star astep (t1, s1, [p1; p2]) (retorno p2 (retorno p1 t1), s1, []) /\
    star astep (t1, s1, [p1; p2]) (retorno p1 (retorno p2 t1), s1, []) /\
    ~ in_sync (retorno p2 (retorno p1 t1)) s1 /\ ~ in_sync (retorno p1 (retorno p2 t1)) s1.
Proof.
  intros Hsync Hm Hx Hir Hjq Hij Hi Hj Hv Hsv Hpv Hn.
  pose proof (editar_abre t i r v Hv) as Ht1.
  set (t2 := setNomeCliente n (editar number_toString (i, r) t).1).
  assert (Hed : editandoAgendamento t2 = Some (i, r)) by (unfold t2; by rewrite Ht1).
  pose proof (salvar_envio_ok t2 s i r Hi Hed) as E1.
  set (t4 := excluir j (nome_cliente q) (fecharModal t2)).
  eexists t4, _, _, _. split; [|split; [|split; [|split]]].
  - eapply star_step; [apply as_gstep, (gs_editar _ _ (i, r)); done|].
    eapply star_step; [apply as_gstep, (gs_nome _ _ n); by rewrite Ht1|].
    eapply star_step; [eapply as_salvar; [by unfold t2; rewrite Ht1|done|by unfold t2; rewrite Ht1|
                                          by unfold t2; rewrite Ht1|exact E1]|].
    eapply star_step; [apply as_gstep, gs_fechar; by unfold t2; rewrite Ht1|].
    eapply star_step; [apply as_gstep, (gs_excluir _ _ j q);
                       unfold t2; rewrite ?Ht1; done|].
    apply star_one. eapply (as_excluir false _ _ [_]); [done|]. by apply (excluir_envio_ok _ _ j (nome_cliente q)).
  - eapply star_step; [apply (as_retorno _ _ []) |]. apply star_one, (as_retorno _ _ []).
  - eapply star_step; [apply (as_retorno _ _ [_]) |]. apply star_one, (as_retorno _ _ []).
  - unfold in_sync. cbn -[view sql_update sql_delete]. intros Heq.
    apply Hn. eapply view_update_nome; [exact Heq|].
    apply filter_In. rewrite Ht1. split; [done|]. cbn. by rewrite bool_decide_eq_false_2.
  - unfold in_sync. cbn -[view sql_update sql_delete]. intros Heq.
    eapply view_delete_absent; [exact Heq|].
    apply in_map_iff. exists (j, q). rewrite Ht1.
    split; [|done]. cbn. by rewrite bool_decide_eq_false_2 by congruence.
Qed.

End Async.

(** ** Witnesses *)

(** The table after a second booking, and the screen that loaded it. *)
Definition sample_db2 : db :=
  set_clientes [(1, sample_row); (2, cadastro_row sample_body)] sample_db.

Definition tela_lista : tela := set_agendamentos (view (clientes sample_db2)) tela0.


Lemma respostas_sobrepostas_witness :
  exists t1 s1 p1 p2,
    star (astep parse60 show50) (tela_lista, sample_db2, []) (t1, s1, [p1; p2]) /\
    star (astep parse60 show50) (t1, s1, [p1; p2]) (retorno p2 (retorno p1 t1), s1, []) /\
    star (astep parse60 show50) (t1, s1, [p1; p2]) (retorno p1 (retorno p2 t1), s1, []) /\
    ~ in_sync (retorno p2 (retorno p1 t1)) s1 /\ ~ in_sync (retorno p1 (retorno p2 t1)) s1.
Proof.
  apply (respostas_sobrepostas parse60 show50 tela_lista sample_db2
           1 (row_rt sample_row) 2 (row_rt (cadastro_row sample_body)) "50" "Carla");
    try reflexivity; try (vm_compute; tauto); try lia; try (split; reflexivity).
  vm_compute. congruence.
Defined.

End Assincrono.
